(** * RAG-Pipeline: document ingestion, vector-store adapters and retrieval

    A shallow embedding of the Python sources

      - [src/ingestion/document_loader.py]   (module [DocumentLoader])
      - [src/vector_db/__init__.py]          (module [VectorDB])
      - [src/vector_db/chromadb_client.py]   (module [ChromaDBVectorDB])
      - [src/vector_db/weaviate_client.py]   (module [WeaviateVectorDB])
      - [src/vector_db/qdrant_client.py]     (module [QdrantVectorDB])
      - [src/utils/config_loader.py]         (module [ConfigLoader])
      - [src/utils/log_manager.py]           (module [LogManager])
      - [src/rag_pipeline.py]                (module [RAGPipeline])

    Python values are an inductive type [value]; dictionaries are
    insertion-ordered association lists; exceptions are an error monad;
    the file system, the interpreter, the environment, the three
    vector-database servers, the operating system's entropy, the
    [logging] module and the external collaborators (text splitter,
    embedding model, language model, database clients) make up an
    explicit [world] that the code reads and updates. *)

From Stdlib Require Import ZArith NArith Ascii String Floats.
From stdpp Require Import gmap strings list pretty.

Set Warnings "-register-all,-inexact-float".

Local Open Scope string_scope.
Local Open Scope list_scope.
Local Open Scope Z_scope.
Local Open Scope nat_scope.
Local Open Scope stdpp_scope.

(* ================================================================== *)
(** * Python prelude *)
(* ================================================================== *)

Module Py.

(** Python objects, as far as the pipeline handles them: what
    [json.load] and [yaml.safe_load] return, metadata values, backend
    payloads and query results. Floats are IEEE binary64, as in
    CPython. A [VDict] lists its items in insertion order; its keys
    are pairwise distinct. *)
Inductive value : Type :=
| VNone
| VBool (b : bool)
| VInt (n : Z)
| VFloat (f : float)
| VStr (s : string)
| VList (l : list value)
| VDict (d : list (string * value)).

Abbreviation pydict := (list (string * value)).

(** [bool(v)] *)
Definition truthy (v : value) : bool :=
  match v with
  | VNone => false
  | VBool b => b
  | VInt n => negb (n =? 0)%Z
  | VFloat f => negb (PrimFloat.eqb f 0%float)
  | VStr s => negb (String.eqb s "")
  | VList l => match l with [] => false | _ => true end
  | VDict d => match d with [] => false | _ => true end
  end.

(** [a or b] *)
Definition py_or (a b : value) : value := if truthy a then a else b.

(** [d.get(k)] and [d.get(k, default)] *)
Fixpoint dict_lookup (d : pydict) (k : string) : option value :=
  match d with
  | [] => None
  | (k', v) :: d' => if String.eqb k' k then Some v else dict_lookup d' k
  end.

Definition dict_get (d : pydict) (k : string) : value :=
  default VNone (dict_lookup d k).

Definition dict_get_default (d : pydict) (k : string) (dflt : value) : value :=
  default dflt (dict_lookup d k).

(** [d[k] = v]: an existing key keeps its position *)
Fixpoint dict_set (d : pydict) (k : string) (v : value) : pydict :=
  match d with
  | [] => [(k, v)]
  | (k', v') :: d' =>
      if String.eqb k' k then (k', v) :: d' else (k', v') :: dict_set d' k v
  end.

(** [d.update(other)] *)
Definition dict_update (d other : pydict) : pydict :=
  foldl (fun acc kv => dict_set acc kv.1 kv.2) d other.

(** The exception classes that occur. *)
Inductive exc_type : Type :=
| FileNotFoundError
| NotADirectoryError
| OSError
| UnicodeDecodeError
| JSONDecodeError
| YAMLError
| ImportError
| ValueError
| TypeError
| AttributeError
| KeyError
| IndexError
| BackendError        (* whatever a database client library raises *)
| Exception.          (* a bare [Exception(...)] *)

(** An exception object: its class and [str(e)]. *)
Record exn : Type := Exn { exn_type : exc_type; exn_msg : string }.

Inductive result (A : Type) : Type :=
| Ok (a : A)
| Raise (e : exn).
Global Arguments Ok {A} a.
Global Arguments Raise {A} e.

Definition is_ok {A} (r : result A) : bool :=
  match r with Ok _ => true | Raise _ => false end.

Global Instance result_ret : MRet result := fun A a => Ok a.
Global Instance result_bind : MBind result := fun A B f m =>
  match m with Ok a => f a | Raise e => Raise e end.
Global Instance result_fmap : FMap result := fun A B f m =>
  match m with Ok a => Ok (f a) | Raise e => Raise e end.

(** ** Strings *)

Definition ascii_lower (c : ascii) : ascii :=
  let n := nat_of_ascii c in
  if (65 <=? n) && (n <=? 90) then ascii_of_nat (n + 32) else c.

(** The string ["\n"]. *)
Definition newline : string := String (ascii_of_nat 10) EmptyString.

(** [s.lower()] on the ASCII range. No character outside it lowers to
    one of the letters of a supported suffix, so membership in
    [supported_formats] is the same as under Python's full mapping. *)
Fixpoint lower (s : string) : string :=
  match s with
  | EmptyString => EmptyString
  | String c r => String (ascii_lower c) (lower r)
  end.

(** A string is the sequence of its characters. The characters of the
    ASCII range are themselves; the other values of [ascii] stand for
    characters outside it, and what the interpreter's Unicode tables
    say of those is a parameter. *)

(** A character as a digit: [str.isdigit] accepts the decimal digits
    and the other digit characters (the superscript two, ...), [int]
    reads the decimal digits only (the ASCII ones and those of other
    scripts, each with its value). *)
Inductive digit_class : Type :=
| NotDigit
| OtherDigit
| Decimal (d : Z).

(** The interpreter: the Unicode properties of the characters outside
    the ASCII range, and [sys.get_int_max_str_digits()], which is 0
    when the length of integer strings is not limited. *)
Record interpreter : Type := Interpreter {
  unicode_digit : ascii -> digit_class;
  unicode_upper : ascii -> string;
  int_max_str_digits : nat
}.

Definition is_ascii (c : ascii) : bool := nat_of_ascii c <? 128.

Definition digit_of (py : interpreter) (c : ascii) : digit_class :=
  let n := nat_of_ascii c in
  if (48 <=? n) && (n <=? 57) then Decimal (Z.of_nat (n - 48))
  else if is_ascii c then NotDigit
  else unicode_digit py c.

Definition is_digit (py : interpreter) (c : ascii) : bool :=
  match digit_of py c with NotDigit => false | _ => true end.

Fixpoint all_digits (py : interpreter) (s : string) : bool :=
  match s with
  | EmptyString => true
  | String c r => is_digit py c && all_digits py r
  end.

(** [s.isdigit()]: false on the empty string. *)
Definition isdigit (py : interpreter) (s : string) : bool :=
  match s with EmptyString => false | _ => all_digits py s end.

(** The value of a string of decimal digits, most significant first. *)
Fixpoint int_digits (py : interpreter) (acc : Z) (s : string) : option Z :=
  match s with
  | EmptyString => Some acc
  | String c r =>
      match digit_of py c with
      | Decimal d => int_digits py (10 * acc + d)%Z r
      | _ => None
      end
  end.

(** [int(s)] for a string on which [s.isdigit()] holds, the only use
    the code makes of it: [ValueError] when a character is a digit but
    not a decimal digit, and when there are more digits than the
    interpreter converts. *)
Definition int_of_str (py : interpreter) (s : string) : result Z :=
  match int_digits py 0%Z s with
  | None => Raise (Exn ValueError ("invalid literal for int() with base 10: '" +:+ s +:+ "'"))
  | Some n =>
      if (0 <? int_max_str_digits py) && (int_max_str_digits py <? String.length s)
      then Raise (Exn ValueError
                    ("Exceeds the limit (" +:+ pretty (int_max_str_digits py)
                     +:+ " digits) for integer string conversion: value has "
                     +:+ pretty (String.length s)
                     +:+ " digits; use sys.set_int_max_str_digits() to increase the limit"))
      else Ok n
  end.

(** [s.upper()] *)
Fixpoint upper (py : interpreter) (s : string) : string :=
  match s with
  | EmptyString => EmptyString
  | String c r =>
      let n := nat_of_ascii c in
      (if (97 <=? n) && (n <=? 122) then String (ascii_of_nat (n - 32)) EmptyString
       else if is_ascii c then String c EmptyString
       else unicode_upper py c) +:+ upper py r
  end.

(** [s[:n]] *)
Definition str_prefix (n : nat) (s : string) : string := String.substring 0 n s.

Definition is_space (c : ascii) : bool :=
  let n := nat_of_ascii c in
  ((9 <=? n) && (n <=? 13)) || ((28 <=? n) && (n <=? 32)).

Fixpoint lstrip (s : string) : string :=
  match s with
  | EmptyString => EmptyString
  | String c r => if is_space c then lstrip r else s
  end.

Fixpoint rstrip (s : string) : string :=
  match s with
  | EmptyString => EmptyString
  | String c r =>
      match rstrip r with
      | EmptyString => if is_space c then EmptyString else String c EmptyString
      | r' => String c r'
      end
  end.

(** [s.strip()] *)
Definition strip (s : string) : string := rstrip (lstrip s).

(** [sep.join(parts)] *)
Fixpoint join (sep : string) (parts : list string) : string :=
  match parts with
  | [] => ""
  | [p] => p
  | p :: rest => p +:+ sep +:+ join sep rest
  end.

(** [len(v)]: defined on the sized types only. *)
Definition py_len (v : value) : result nat :=
  match v with
  | VStr s => Ok (String.length s)
  | VList l => Ok (length l)
  | VDict d => Ok (length d)
  | _ => Raise (Exn TypeError "object has no len()")
  end.

(** [v[i]] for a non-negative index. *)
Definition py_index (v : value) (i : nat) : result value :=
  match v with
  | VList l =>
      match l !! i with
      | Some x => Ok x
      | None => Raise (Exn IndexError "list index out of range")
      end
  | VStr s =>
      match String.get i s with
      | Some c => Ok (VStr (String c EmptyString))
      | None => Raise (Exn IndexError "string index out of range")
      end
  | VDict _ => Raise (Exn KeyError (pretty i))
  | _ => Raise (Exn TypeError "object is not subscriptable")
  end.

(** [isinstance(v, list)] *)
Definition is_list (v : value) : bool :=
  match v with VList _ => true | _ => false end.


(** [for i, x in enumerate(l)] with a body that may raise: the first
    exception ends the loop. *)
Fixpoint for_enumerate {A B} (f : nat -> A -> result B) (i : nat) (l : list A)
  : result (list B) :=
  match l with
  | [] => Ok []
  | x :: l' =>
      match f i x with
      | Raise e => Raise e
      | Ok b =>
          match for_enumerate f (S i) l' with
          | Raise e => Raise e
          | Ok bs => Ok (b :: bs)
          end
      end
  end.

End Py.
Import Py.

(* ================================================================== *)
(** * Logging *)
(* ================================================================== *)

Module Logging.

Inductive level : Type := INFO | WARNING | ERROR.

(** A record handed to a logger at level INFO or above (DEBUG records
    are below the configured default level and are not kept). *)
Record log_record : Type := LogRecord { log_level : level; log_msg : string }.

Definition errors (l : list log_record) : list string :=
  omap (fun r => match log_level r with ERROR => Some (log_msg r) | _ => None end) l.

End Logging.
Import Logging.

(* ================================================================== *)
(** * The file system as [pathlib] and [open] show it *)
(* ================================================================== *)

Module Pathlib.

(** A regular file: its size and what each reader makes of its bytes.
    Decoding and parsing are library code (codecs, PyPDF2, python-docx,
    json, yaml), so a file carries their outcomes. *)
Record file : Type := File {
  st_size : Z;
  read_utf8 : result string;                (* open(p, 'r', encoding='utf-8').read() *)
  read_latin1 : result string;              (* open(p, 'r', encoding='latin-1').read() *)
  pdf_pages : result (list string);         (* [page.extract_text() for page in PdfReader(f).pages] *)
  docx_paragraphs : result (list string);   (* [par.text for par in Document(p).paragraphs] *)
  json_value : result value;                (* json.load(f) *)
  yaml_value : result value                 (* yaml.safe_load(f) *)
}.

Inductive node : Type :=
| NFile (f : file)
| NDir (names : list string).   (* the names of the immediate entries *)

(** Paths are the strings [str(path)] prints. *)
Abbreviation FileSystem := (gmap string node).

Fixpoint has_slash (s : string) : bool :=
  match s with
  | EmptyString => false
  | String c r => Ascii.eqb c "/" || has_slash r
  end.

(** [path.name]: the final component. *)
Fixpoint path_name (s : string) : string :=
  match s with
  | EmptyString => EmptyString
  | String c r =>
      if has_slash r then path_name r
      else if Ascii.eqb c "/" then r else s
  end.

(** [name.rfind('.')] *)
Fixpoint rfind_dot (s : string) : option nat :=
  match s with
  | EmptyString => None
  | String c r =>
      match rfind_dot r with
      | Some i => Some (S i)
      | None => if Ascii.eqb c "." then Some 0 else None
      end
  end.

(** [path.suffix]: [name[i:]] for the last dot [i] of the name when
    [0 < i < len(name) - 1], else the empty string. *)
Definition suffix (p : string) : string :=
  let name := path_name p in
  match rfind_dot name with
  | Some i =>
      if (0 <? i) && (i <? String.length name - 1)
      then String.substring i (String.length name - i) name
      else ""
  | None => ""
  end.

(** [str(parent / name)] *)
Definition joinpath (parent name : string) : string :=
  if String.eqb parent "." then name
  else if String.eqb parent "/" then "/" +:+ name
  else parent +:+ "/" +:+ name.

Definition exists_ (fs : FileSystem) (p : string) : bool :=
  match fs !! p with Some _ => true | None => false end.

Definition is_file (fs : FileSystem) (p : string) : bool :=
  match fs !! p with Some (NFile _) => true | _ => false end.

(** [path.iterdir()] *)
Definition iterdir (fs : FileSystem) (p : string) : result (list string) :=
  match fs !! p with
  | Some (NDir names) => Ok (joinpath p <$> names)
  | Some (NFile _) => Raise (Exn NotADirectoryError ("Not a directory: " +:+ p))
  | None => Raise (Exn FileNotFoundError ("No such file or directory: " +:+ p))
  end.

(** ** [os.path], on POSIX paths *)

Definition starts_with_slash (s : string) : bool :=
  match s with String c _ => Ascii.eqb c "/" | EmptyString => false end.

Fixpoint ends_with_slash (s : string) : bool :=
  match s with
  | EmptyString => false
  | String c EmptyString => Ascii.eqb c "/"
  | String _ r => ends_with_slash r
  end.

(** [os.path.join(a, b)] *)
Definition os_path_join (a b : string) : string :=
  if starts_with_slash b then b
  else if String.eqb a "" || ends_with_slash a then a +:+ b
  else a +:+ "/" +:+ b.

(** [p[:p.rfind('/') + 1]] *)
Fixpoint dir_head (p : string) : string :=
  match p with
  | EmptyString => EmptyString
  | String c r =>
      if has_slash r || Ascii.eqb c "/" then String c (dir_head r) else EmptyString
  end.

(** [head.rstrip('/')] *)
Fixpoint rstrip_slash (s : string) : string :=
  match s with
  | EmptyString => EmptyString
  | String c r =>
      match rstrip_slash r with
      | EmptyString => if Ascii.eqb c "/" then EmptyString else String c EmptyString
      | r' => String c r'
      end
  end.

(** [os.path.dirname(p)]: the head without its trailing slashes, unless
    it consists of slashes only. *)
Definition dirname (p : string) : string :=
  let head := dir_head p in
  match rstrip_slash head with
  | EmptyString => head
  | stripped => stripped
  end.

(** [open(p)]: the file behind a path. *)
Definition open_ (fs : FileSystem) (p : string) : result file :=
  match fs !! p with
  | Some (NFile f) => Ok f
  | Some (NDir _) => Raise (Exn OSError ("Is a directory: " +:+ p))
  | None => Raise (Exn FileNotFoundError ("No such file or directory: " +:+ p))
  end.

End Pathlib.
Import Pathlib.

(* ================================================================== *)
(** * src/ingestion/document_loader.py *)
(* ================================================================== *)

Module DocumentLoader.

(** What the code sees of the Python process: the file system, whether
    the optional imports succeeded ([PyPDF2 is None], [Document is
    None]), how the interpreter prints floats, lists and dictionaries,
    its Unicode tables and integer limit, and
    [os.path.abspath(__file__)] for [src/rag_pipeline.py]. *)
Record runtime : Type := Runtime {
  fs : FileSystem;
  have_PyPDF2 : bool;
  have_docx : bool;
  py_repr : value -> string;
  interp : interpreter;
  rag_pipeline_file : string
}.

Definition set_fs (fs' : FileSystem) (rt : runtime) : runtime :=
  Runtime fs' (have_PyPDF2 rt) (have_docx rt) (py_repr rt) (interp rt)
          (rag_pipeline_file rt).

(** The built-in [str]. *)
Definition py_str (rt : runtime) (v : value) : string :=
  match v with
  | VNone => "None"
  | VBool true => "True"
  | VBool false => "False"
  | VInt n => pretty n
  | VStr s => s
  | _ => py_repr rt v
  end.

(** The loader raises exceptions and writes to its logger. *)
Definition W (A : Type) : Type := (result A * list log_record)%type.

#[global] Instance W_ret : MRet W := fun A a => (Ok a, []).
#[global] Instance W_bind : MBind W := fun A B f m =>
  match m with
  | (Ok a, l) => let '(r, l') := f a in (r, l ++ l')
  | (Raise e, l) => (Raise e, l)
  end.

Definition lift {A} (r : result A) : W A := (r, []).
Definition raise {A} (t : exc_type) (msg : string) : W A := (Raise (Exn t msg), []).
Definition log (lv : level) (msg : string) : W unit := (Ok tt, [LogRecord lv msg]).

(** The dictionaries [load_document] returns: ['content'] and
    ['metadata']. The content of a JSON element is whatever value the
    element holds, not necessarily a string. *)
Record RawDocument : Type := Document { content : value; metadata : pydict }.

(** [load_document] returns one dictionary, or a list of them for a
    JSON file; callers tell them apart with [isinstance(_, list)]. *)
Inductive loaded : Type :=
| Single (d : RawDocument)
| Many (ds : list RawDocument).

Definition supported_formats : list string := [".txt"; ".pdf"; ".docx"; ".json"].

Definition supported (sfx : string) : bool :=
  bool_decide (sfx ∈ supported_formats).

Definition _load_txt (rt : runtime) (file_path : string) : result string :=
  f ← open_ (fs rt) file_path;
  match read_utf8 f with
  | Raise (Exn UnicodeDecodeError _) => read_latin1 f
  | r => r
  end.

Definition _load_pdf (rt : runtime) (file_path : string) : result string :=
  if negb (have_PyPDF2 rt) then
    Raise (Exn ImportError "PyPDF2 is required for PDF support. Install with: pip install PyPDF2")
  else
    match open_ (fs rt) file_path ≫= pdf_pages with
    | Ok pages =>
        Ok (strip (foldl (fun text_content page => text_content +:+ page +:+ newline) "" pages))
    | Raise e => Raise (Exn Exception ("Error reading PDF file: " +:+ exn_msg e))
    end.

Definition _load_docx (rt : runtime) (file_path : string) : result string :=
  if negb (have_docx rt) then
    Raise (Exn ImportError "python-docx is required for DOCX support. Install with: pip install python-docx")
  else
    match open_ (fs rt) file_path ≫= docx_paragraphs with
    | Ok paragraphs =>
        Ok (strip (foldl (fun text_content par => text_content +:+ par +:+ newline) "" paragraphs))
    | Raise e => Raise (Exn Exception ("Error reading DOCX file: " +:+ exn_msg e))
    end.

(** The five metadata keys every document carries, in the order the
    dictionary literal evaluates them; [len(content)] comes last and
    raises [TypeError] on a value without a length. *)
Definition file_metadata (file_path : string) (f : file) (content : value)
  : result pydict :=
  n ← py_len content;
  Ok [("filename", VStr (path_name file_path));
      ("file_path", VStr file_path);
      ("file_size", VInt (st_size f));
      ("file_type", VStr (lower (suffix file_path)));
      ("character_count", VInt (Z.of_nat n))].

(** The content chosen for one element of a JSON array or object:
    [doc.get('content') or doc.get('publication_description') or str(doc)]
    for a dictionary, [str(doc)] otherwise, and [""] for [None]. *)
Definition element_content (rt : runtime) (doc : value) : value :=
  let content :=
    match doc with
    | VDict d =>
        py_or (py_or (dict_get d "content") (dict_get d "publication_description"))
              (VStr (py_str rt doc))
    | _ => VStr (py_str rt doc)
    end in
  match content with VNone => VStr "" | _ => content end.

Definition json_document (rt : runtime) (file_path : string) (f : file)
    (doc : value) (tag : string * value) : result RawDocument :=
  let content := element_content rt doc in
  md ← file_metadata file_path f content;
  Ok (Document content (md ++ [tag])).

Definition _load_json (rt : runtime) (file_path : string) : W (list RawDocument) :=
  f ← lift (open_ (fs rt) file_path);
  data ← lift (json_value f);
  docs ← lift
    match data with
    | VList items =>
        for_enumerate
          (fun i doc => json_document rt file_path f doc ("json_index", VInt (Z.of_nat i)))
          0 items
    | VDict items =>
        for_enumerate
          (fun _ kd => json_document rt file_path f kd.2 ("json_key", VStr kd.1))
          0 items
    | _ =>
        let content := match data with VNone => "" | _ => py_str rt data end in
        md ← file_metadata file_path f (VStr content);
        Ok [Document (VStr content) md]
    end;
  log INFO ("Loaded " +:+ pretty (length docs) +:+ " documents from JSON file: "
            +:+ path_name file_path);;
  mret docs.

Definition text_document (file_path : string) (f : file) (text_content : string)
  : RawDocument :=
  Document (VStr text_content)
    [("filename", VStr (path_name file_path));
     ("file_path", VStr file_path);
     ("file_size", VInt (st_size f));
     ("file_type", VStr (lower (suffix file_path)));
     ("character_count", VInt (Z.of_nat (String.length text_content)))].

Definition load_document (rt : runtime) (file_path : string) : W loaded :=
  if negb (exists_ (fs rt) file_path) then
    raise FileNotFoundError ("File not found: " +:+ file_path)
  else if negb (supported (lower (suffix file_path))) then
    raise ValueError ("Unsupported file format: " +:+ suffix file_path)
  else if String.eqb (lower (suffix file_path)) ".json" then
    docs ← _load_json rt file_path; mret (Many docs)
  else
    text_content ← lift
      (if String.eqb (lower (suffix file_path)) ".txt" then _load_txt rt file_path
       else if String.eqb (lower (suffix file_path)) ".pdf" then _load_pdf rt file_path
       else _load_docx rt file_path);
    f ← lift (open_ (fs rt) file_path);          (* file_path.stat() *)
    log INFO ("Loaded document: " +:+ path_name file_path +:+ " ("
              +:+ pretty (String.length text_content) +:+ " characters)");;
    mret (Single (text_document file_path f text_content)).

(** One turn of the loop of [load_directory]: the body of the [for],
    with its [try]/[except Exception]. It never raises. *)
Definition load_directory_step (rt : runtime) (documents : list RawDocument)
    (file_path : string) : list RawDocument * list log_record :=
  if is_file (fs rt) file_path && supported (lower (suffix file_path)) then
    match load_document rt file_path with
    | (Ok (Many doc_data), l) => (documents ++ doc_data, l)
    | (Ok (Single doc_data), l) => (documents ++ [doc_data], l)
    | (Raise e, l) =>
        (documents,
         l ++ [LogRecord ERROR ("Error loading " +:+ file_path +:+ ": " +:+ exn_msg e)])
    end
  else (documents, []).

Fixpoint load_directory_loop (rt : runtime) (documents : list RawDocument)
    (entries : list string) : list RawDocument * list log_record :=
  match entries with
  | [] => (documents, [])
  | file_path :: rest =>
      let '(documents', l) := load_directory_step rt documents file_path in
      let '(documents'', l') := load_directory_loop rt documents' rest in
      (documents'', l ++ l')
  end.

Definition load_directory (rt : runtime) (directory_path : string)
  : W (list RawDocument) :=
  if negb (exists_ (fs rt) directory_path) then
    raise FileNotFoundError ("Directory not found: " +:+ directory_path)
  else
    entries ← lift (iterdir (fs rt) directory_path);
    let '(documents, l) := load_directory_loop rt [] entries in
    (Ok tt, l) ;;
    log INFO ("Loaded " +:+ pretty (length documents) +:+ " documents from "
              +:+ directory_path);;
    mret documents.

End DocumentLoader.
Import DocumentLoader.

(* ================================================================== *)
(** * The world outside the pipeline *)
(* ================================================================== *)

Module World.

(** ** Qdrant: collections of points, keyed by an integer or a UUID *)

(** A point id: an unsigned integer or a UUID (its 128-bit value). *)
Inductive point_id : Type :=
| PointInt (n : Z)
| PointUUID (u : N).

#[global] Instance point_id_eq_dec : EqDecision point_id.
Proof. solve_decision. Defined.

#[global] Instance point_id_countable : Countable point_id.
Proof.
  refine (inj_countable'
    (fun p => match p with PointInt n => inl n | PointUUID u => inr u end)
    (fun s => match s with inl n => PointInt n | inr u => PointUUID u end) _).
  intros []; reflexivity.
Defined.

Inductive Distance : Type := COSINE | EUCLID | DOT.

Record PointStruct : Type := Point {
  pt_id : point_id;
  pt_vector : list float;
  pt_payload : pydict
}.

Record qdrant_collection : Type := QdrantCollection {
  qc_size : value;            (* VectorParams.size *)
  qc_distance : Distance;     (* VectorParams.distance *)
  qc_points : gmap point_id PointStruct
}.

(** ** Weaviate: classes of objects, keyed by the object's uuid *)

Record weaviate_object : Type := WeaviateObject {
  wo_properties : pydict;
  wo_vector : list float
}.

Record weaviate_class : Type := WeaviateClass {
  wc_schema : value;
  wc_objects : gmap string weaviate_object
}.

(** ** ChromaDB: collections of rows in a persistent directory *)

Record chroma_row : Type := ChromaRow {
  cr_id : string;
  cr_embedding : list float;
  cr_document : string;
  cr_metadata : pydict
}.

Record chroma_collection : Type := ChromaCollection {
  cc_metadata : pydict;
  cc_rows : list chroma_row
}.

(** ** Objects the pipeline holds on its collaborators *)

(** [RecursiveCharacterTextSplitter(chunk_size, chunk_overlap, separators)] *)
Record TextSplitter : Type := Splitter {
  chunk_size : value;
  chunk_overlap : value;
  separators : value
}.

(** [HuggingFaceEmbeddings(model_name)] *)
Record Embeddings : Type := HFEmbeddings { model_name : value }.

(** [ChatGroq(model, temperature, max_tokens, api_key)] *)
Record ChatGroq : Type := Groq {
  llm_model : value;
  llm_temperature : value;
  llm_max_tokens : value;
  llm_api_key : string
}.

(** The [content] of a chat response: a string or a list of parts (each
    part kept as the string [str(part)] gives). *)
Inductive response_content : Type :=
| ContentStr (s : string)
| ContentList (parts : list string).

(** ** The behaviour of library code, taken as given *)

Record External : Type := Ext {
  (** [RecursiveCharacterTextSplitter.__init__]: may reject its arguments *)
  splitter_new : value -> value -> value -> result TextSplitter;
  (** [text_splitter.split_text(text)] *)
  split_text : TextSplitter -> string -> list string;
  (** [HuggingFaceEmbeddings.__init__]: loads the model *)
  embeddings_new : value -> result Embeddings;
  (** [embeddings.embed_query(text)] *)
  embed_query : Embeddings -> string -> result (list float);
  (** [ChatGroq.__init__] *)
  llm_new : value -> value -> value -> string -> result ChatGroq;
  (** [llm.invoke([SystemMessage(system), HumanMessage(user)]).content] *)
  llm_invoke : ChatGroq -> string -> string -> result response_content;
  (** [collection.add] of ChromaDB: its validation of the four lists and
      its treatment of ids already present *)
  chroma_add : list chroma_row -> list (list float) -> list string ->
               list pydict -> list string -> result (list chroma_row);
  (** nearest-neighbour order of each server, best match first, with the
      score or distance the server reports *)
  chroma_rank : pydict -> list float -> list chroma_row -> list (chroma_row * float);
  weaviate_rank : list float -> list weaviate_object -> list (weaviate_object * float);
  qdrant_rank : Distance -> list float -> list PointStruct -> list (PointStruct * float);
  (** the uuid under which the Weaviate client stores an object given
      [uuid=...]: it validates the string and puts it in canonical
      form, and raises for a string it does not take for a uuid *)
  weaviate_valid_uuid : string -> result string;
  (** [os.path.abspath(path)] *)
  os_abspath : string -> string;
  (** [os.makedirs(path, exist_ok=True)]: the file system it leaves *)
  os_makedirs : FileSystem -> string -> result FileSystem;
  (** [datetime.now().strftime("%y%m%d_%H%M")] *)
  strftime_now : string;
  (** [getattr(logging, name)], for the names the module has *)
  logging_attr : string -> option value;
  (** [logging.FileHandler(filename, mode, encoding='utf-8')]: opens the
      file, truncating it when the mode is ['w'] *)
  logging_FileHandler : FileSystem -> string -> bool -> result FileSystem;
  (** [logging.basicConfig(level, format, handlers)] *)
  logging_basicConfig : value -> value -> result unit;
  (** [logging.Formatter(fmt)] *)
  logging_Formatter : value -> result unit
}.

(** ** The state of the [logging] module and of [LogManager] *)

Record logging_state : Type := LoggingState {
  (** [logging.getLogger().handlers] is not empty *)
  root_handlers : bool;
  (** the files of the handlers of the logger ['rag_file_only'],
      oldest first *)
  file_only_handlers : list string;
  (** [LogManager._timestamp] *)
  timestamp : option string
}.

(** ** The journal of calls into library code *)

Inductive client_method : Type :=
| chroma_PersistentClient
| chroma_get_or_create_collection
| chroma_collection_add
| chroma_collection_query
| chroma_collection_count
| chroma_client_delete_collection
| weaviate_Client
| weaviate_schema_exists
| weaviate_schema_create_class
| weaviate_batch_add_data_object
| weaviate_query_get
| weaviate_query_aggregate
| weaviate_schema_get
| weaviate_schema_delete_class
| qdrant_QdrantClient
| qdrant_get_collections
| qdrant_create_collection
| qdrant_upsert
| qdrant_search
| qdrant_get_collection
| qdrant_count
| qdrant_delete_collection.

Inductive call : Type :=
| SplitText (text : string)
| EmbedQuery (text : string)
| LLMInvoke (system user : string)
| Client (m : client_method).

#[global] Instance client_method_eq_dec : EqDecision client_method.
Proof. solve_decision. Defined.

Definition is_split (c : call) : bool :=
  match c with SplitText _ => true | _ => false end.

Definition is_client (m : client_method) (c : call) : bool :=
  match c with Client m' => bool_decide (m' = m) | _ => false end.

(** ** The world *)

Record world : Type := MkWorld {
  w_rt : runtime;                       (* file system, interpreter *)
  w_environ : gmap string string;       (* [os.environ] *)
  w_ext : External;
  w_entropy : nat -> N;                 (* the successive [os.urandom(16)] *)
  w_drawn : nat;                        (* how many have been drawn *)
  w_log : list log_record;              (* oldest first *)
  w_calls : list call;                  (* oldest first *)
  w_chroma : gmap (string * string) chroma_collection;   (* by path and name *)
  w_weaviate : gmap string (gmap string weaviate_class); (* by url, then class *)
  w_qdrant : gmap string (gmap string qdrant_collection); (* by url, then name *)
  w_logging : logging_state
}.

Definition set_drawn (n : nat) (w : world) : world :=
  MkWorld (w_rt w) (w_environ w) (w_ext w) (w_entropy w) n (w_log w) (w_calls w)
          (w_chroma w) (w_weaviate w) (w_qdrant w) (w_logging w).
Definition set_log (l : list log_record) (w : world) : world :=
  MkWorld (w_rt w) (w_environ w) (w_ext w) (w_entropy w) (w_drawn w) l (w_calls w)
          (w_chroma w) (w_weaviate w) (w_qdrant w) (w_logging w).
Definition set_calls (c : list call) (w : world) : world :=
  MkWorld (w_rt w) (w_environ w) (w_ext w) (w_entropy w) (w_drawn w) (w_log w) c
          (w_chroma w) (w_weaviate w) (w_qdrant w) (w_logging w).
Definition set_chroma (s : gmap (string * string) chroma_collection) (w : world) : world :=
  MkWorld (w_rt w) (w_environ w) (w_ext w) (w_entropy w) (w_drawn w) (w_log w) (w_calls w)
          s (w_weaviate w) (w_qdrant w) (w_logging w).
Definition set_weaviate (s : gmap string (gmap string weaviate_class)) (w : world) : world :=
  MkWorld (w_rt w) (w_environ w) (w_ext w) (w_entropy w) (w_drawn w) (w_log w) (w_calls w)
          (w_chroma w) s (w_qdrant w) (w_logging w).
Definition set_qdrant (s : gmap string (gmap string qdrant_collection)) (w : world) : world :=
  MkWorld (w_rt w) (w_environ w) (w_ext w) (w_entropy w) (w_drawn w) (w_log w) (w_calls w)
          (w_chroma w) (w_weaviate w) s (w_logging w).
Definition set_rt (rt : runtime) (w : world) : world :=
  MkWorld rt (w_environ w) (w_ext w) (w_entropy w) (w_drawn w) (w_log w) (w_calls w)
          (w_chroma w) (w_weaviate w) (w_qdrant w) (w_logging w).
Definition set_logging (l : logging_state) (w : world) : world :=
  MkWorld (w_rt w) (w_environ w) (w_ext w) (w_entropy w) (w_drawn w) (w_log w) (w_calls w)
          (w_chroma w) (w_weaviate w) (w_qdrant w) l.

(** ** Code that raises and acts on the world *)

Definition M (A : Type) : Type := world -> result A * world.

#[global] Instance M_ret : MRet M := fun A a w => (Ok a, w).
#[global] Instance M_bind : MBind M := fun A B f m w =>
  match m w with
  | (Ok a, w') => f a w'
  | (Raise e, w') => (Raise e, w')
  end.

#[global] Instance M_fmap : FMap M := fun A B f m w =>
  match m w with
  | (Ok a, w') => (Ok (f a), w')
  | (Raise e, w') => (Raise e, w')
  end.

Definition raise {A} (t : exc_type) (msg : string) : M A :=
  fun w => (Raise (Exn t msg), w).
Definition reraise {A} (e : exn) : M A := fun w => (Raise e, w).
Definition lift {A} (r : result A) : M A := fun w => (r, w).
Definition ask {A} (f : world -> A) : M A := fun w => (Ok (f w), w).
Definition modify (f : world -> world) : M unit := fun w => (Ok tt, f w).

(** [try: body  except Exception as e: handler(e)] *)
Definition try_except {A} (body : M A) (handler : exn -> M A) : M A :=
  fun w =>
    match body w with
    | (Ok a, w') => (Ok a, w')
    | (Raise e, w') => handler e w'
    end.

Definition log (lv : level) (msg : string) : M unit :=
  fun w => (Ok tt, set_log (w_log w ++ [LogRecord lv msg]) w).

Definition journal (c : call) : M unit :=
  fun w => (Ok tt, set_calls (w_calls w ++ [c]) w).

(** Running the document loader: its log records join the log. *)
Definition run_loader {A} (f : runtime -> DocumentLoader.W A) : M A :=
  fun w => let '(r, l) := f (w_rt w) in (r, set_log (w_log w ++ l) w).

(** [for x in xs: body(x)] *)
Fixpoint for_each {A} (body : A -> M unit) (xs : list A) : M unit :=
  match xs with
  | [] => mret tt
  | x :: rest => body x;; for_each body rest
  end.

(** [for i, x in enumerate(xs): body(i, x)], from index [i] *)
Fixpoint for_each_enumerate {A} (body : nat -> A -> M unit) (i : nat) (xs : list A)
  : M unit :=
  match xs with
  | [] => mret tt
  | x :: rest => body i x;; for_each_enumerate body (S i) rest
  end.

(** [[f(x) for x in xs]] *)
Fixpoint map_M {A B} (f : A -> M B) (xs : list A) : M (list B) :=
  match xs with
  | [] => mret []
  | x :: rest => b ← f x; bs ← map_M f rest; mret (b :: bs)
  end.

(** ** [uuid.uuid4()] *)

(** [UUID(bytes=os.urandom(16), version=4)]: the variant and version
    bits are forced, all others are random. *)
Definition uuid_of_random (r : N) : N :=
  let i := N.land r (N.ones 128) in
  let i := N.ldiff i (N.shiftl 0xc000 48) in
  let i := N.lor i (N.shiftl 0x8000 48) in
  let i := N.ldiff i (N.shiftl 0xf000 64) in
  N.lor i (N.shiftl 4 76).

Definition uuid4 : M N :=
  fun w => (Ok (uuid_of_random (w_entropy w (w_drawn w))), set_drawn (S (w_drawn w)) w).

Definition hex_digit (n : N) : ascii :=
  ascii_of_N (if (n <? 10)%N then 48 + n else 87 + n)%N.

(** The [k] lowest hexadecimal digits of [n], most significant first. *)
Fixpoint hex (k : nat) (n : N) : string :=
  match k with
  | O => EmptyString
  | S k' => hex k' (N.shiftr n 4) +:+ String (hex_digit (N.land n 15)) EmptyString
  end.

(** [str(UUID(int=u))]: 8-4-4-4-12 hexadecimal digits. *)
Definition uuid_str (u : N) : string :=
  hex 8 (N.shiftr u 96) +:+ "-" +:+ hex 4 (N.shiftr u 80) +:+ "-" +:+
  hex 4 (N.shiftr u 64) +:+ "-" +:+ hex 4 (N.shiftr u 48) +:+ "-" +:+ hex 12 u.

End World.
Import World.

(* ================================================================== *)
(** * Helpers shared by the adapters *)
(* ================================================================== *)

Module Adapter.

(** [config.get(key, default)] on what should be a dictionary. *)
Definition cfg_get (config : value) (key : string) (dflt : value) : result value :=
  match config with
  | VDict d => Ok (dict_get_default d key dflt)
  | _ => Raise (Exn AttributeError "object has no attribute 'get'")
  end.

(** Client libraries take names, paths and urls as strings only. *)
Definition expect_str (v : value) : result string :=
  match v with
  | VStr s => Ok s
  | _ => Raise (Exn TypeError "expected str")
  end.

(** [zip(embeddings, documents, metadatas, ids)]: stops at the end of
    the shortest list. *)
Fixpoint zip4 {A B C D} (la : list A) (lb : list B) (lc : list C) (ld : list D)
  : list (A * B * C * D) :=
  match la, lb, lc, ld with
  | a :: la', b :: lb', c :: lc', d :: ld' => (a, b, c, d) :: zip4 la' lb' lc' ld'
  | _, _, _, _ => []
  end.

(** [document[:200] + "..." if len(document) > 200 else document] *)
Definition preview (document : string) : string :=
  if 200 <? String.length document then str_prefix 200 document +:+ "..." else document.

(** The payload both networked adapters build from a document and its
    metadata; [i] is the position in the batch. *)
Definition native_metadata (i : nat) (document : string) (metadata : pydict) : pydict :=
  [("content", VStr document);
   ("filename", dict_get_default metadata "filename" (VStr ""));
   ("file_path", dict_get_default metadata "file_path" (VStr ""));
   ("file_type", dict_get_default metadata "file_type" (VStr ""));
   ("chunk_id", dict_get_default metadata "chunk_id" (VInt (Z.of_nat i)));
   ("chunk_text", dict_get_default metadata "chunk_text" (VStr (preview document)));
   ("file_size", dict_get_default metadata "file_size" (VInt 0));
   ("character_count",
    dict_get_default metadata "character_count" (VInt (Z.of_nat (String.length document))))].

(** The metadata both networked adapters rebuild from a stored payload. *)
Definition result_metadata (payload : pydict) : value :=
  VDict [("filename", dict_get_default payload "filename" (VStr ""));
         ("file_path", dict_get_default payload "file_path" (VStr ""));
         ("file_type", dict_get_default payload "file_type" (VStr ""));
         ("chunk_id", dict_get_default payload "chunk_id" (VInt 0));
         ("chunk_text", dict_get_default payload "chunk_text" (VStr ""));
         ("file_size", dict_get_default payload "file_size" (VInt 0));
         ("character_count", dict_get_default payload "character_count" (VInt 0))].

(** The ChromaDB-shaped result dictionary: one inner list per key. *)
Definition result_dict (documents metadatas distances ids : list value) : pydict :=
  [("documents", VList [VList documents]);
   ("metadatas", VList [VList metadatas]);
   ("distances", VList [VList distances]);
   ("ids", VList [VList ids])].

(** [query_embeddings[0]] *)
Definition first_embedding (query_embeddings : list (list float)) : result (list float) :=
  match query_embeddings with
  | q :: _ => Ok q
  | [] => Raise (Exn IndexError "list index out of range")
  end.

End Adapter.
Import Adapter.

(* ================================================================== *)
(** * src/vector_db/chromadb_client.py *)
(* ================================================================== *)

Module ChromaDBVectorDB.

(** The adapter object: [self.config], the directory of [self.client]
    and the name of [self.collection]. *)
Record t : Type := Make {
  config : value;
  path : string;
  collection_name : string
}.

Definition lookup_collection (h : t) : M chroma_collection :=
  store ← ask w_chroma;
  match store !! (path h, collection_name h) with
  | Some c => mret c
  | None => raise BackendError ("Collection " +:+ collection_name h +:+ " does not exist.")
  end.

Definition put_collection (h : t) (c : chroma_collection) : M unit :=
  fun w => (Ok tt, set_chroma (<[(path h, collection_name h) := c]> (w_chroma w)) w).

(** [client.get_or_create_collection(name, metadata)]: an existing
    collection is returned as it is. *)
Definition get_or_create_collection (h : t) (md : pydict) : M unit :=
  journal (Client chroma_get_or_create_collection);;
  store ← ask w_chroma;
  match store !! (path h, collection_name h) with
  | Some _ => mret tt
  | None => put_collection h (ChromaCollection md [])
  end.

Definition __init__ (config : value) : M t :=
  p ← lift (cfg_get config "path" (VStr "./data/vectors") ≫= expect_str);
  journal (Client chroma_PersistentClient);;
  name ← lift (cfg_get config "collection_name" (VStr "documents") ≫= expect_str);
  metric ← lift (cfg_get config "distance_metric" (VStr "cosine"));
  let h := Make config p name in
  get_or_create_collection h [("hnsw:space", metric)];;
  log INFO ("ChromaDB initialized with collection: " +:+ name);;
  mret h.

Definition add_documents (h : t) (embeddings : list (list float))
    (documents : list string) (metadatas : list pydict) (ids : list string) : M unit :=
  try_except
    (journal (Client chroma_collection_add);;
     c ← lookup_collection h;
     add ← ask (fun w => chroma_add (w_ext w));
     rows ← lift (add (cc_rows c) embeddings documents metadatas ids);
     put_collection h (ChromaCollection (cc_metadata c) rows))
    (fun e =>
       log ERROR ("Error adding documents to ChromaDB: " +:+ exn_msg e);;
       reraise e).

(** [collection.query]: for each query embedding the [n_results] nearest
    rows; the keys that were not asked for are [None]. *)
Definition collection_query (h : t) (query_embeddings : list (list float))
    (n_results : Z) : M pydict :=
  journal (Client chroma_collection_query);;
  c ← lookup_collection h;
  rank ← ask (fun w => chroma_rank (w_ext w));
  let hits := (fun q => take (Z.to_nat n_results) (rank (cc_metadata c) q (cc_rows c)))
              <$> query_embeddings in
  let column (f : chroma_row * float -> value) := VList ((fun hs => VList (f <$> hs)) <$> hits) in
  mret [("ids", column (fun r => VStr (cr_id r.1)));
        ("embeddings", VNone);
        ("documents", column (fun r => VStr (cr_document r.1)));
        ("metadatas", column (fun r => VDict (cr_metadata r.1)));
        ("distances", column (fun r => VFloat r.2))].

Definition query (h : t) (query_embeddings : list (list float)) (n_results : Z)
  : M pydict :=
  try_except
    (results ← collection_query h query_embeddings n_results;
     (* the debug record evaluates [len(results.get('documents', [[]])[0])] *)
     match dict_get_default results "documents" (VList [VList []]) with
     | VList (VList _ :: _) => mret results
     | VList [] => raise IndexError "list index out of range"
     | _ => raise TypeError "object is not subscriptable"
     end)
    (fun e =>
       log ERROR ("Error querying ChromaDB: " +:+ exn_msg e);;
       reraise e).

Definition get_collection_info (h : t) : M pydict :=
  try_except
    (journal (Client chroma_collection_count);;
     c ← lookup_collection h;
     mret [("name", VStr (collection_name h));
           ("count", VInt (Z.of_nat (length (cc_rows c))));
           ("provider", VStr "chromadb");
           ("metadata", VDict (cc_metadata c))])
    (fun e =>
       log ERROR ("Error getting ChromaDB collection info: " +:+ exn_msg e);;
       mret [("name", VStr "unknown"); ("count", VInt 0); ("provider", VStr "chromadb")]).

Definition delete_collection (h : t) : M unit :=
  try_except
    (journal (Client chroma_client_delete_collection);;
     _ ← lookup_collection h;
     (fun w => (Ok tt, set_chroma (delete (path h, collection_name h) (w_chroma w)) w));;
     log INFO ("Deleted ChromaDB collection: " +:+ collection_name h))
    (fun e =>
       log ERROR ("Error deleting ChromaDB collection: " +:+ exn_msg e);;
       reraise e).

End ChromaDBVectorDB.

(* ================================================================== *)
(** * src/vector_db/weaviate_client.py *)
(* ================================================================== *)

Module WeaviateVectorDB.

Record t : Type := Make {
  config : value;
  url : string;               (* where [self.client] points *)
  class_name : string;
  distance_metric : value
}.

(** The schema dictionary of [_create_schema]. *)
Definition schema_of (class_name : string) : value :=
  let property (name type description : string) :=
    VDict [("name", VStr name); ("dataType", VList [VStr type]);
           ("description", VStr description)] in
  VDict [("class", VStr class_name);
         ("description", VStr "Document chunks for RAG pipeline");
         ("vectorizer", VStr "none");
         ("properties",
          VList [property "content" "text" "Document content";
                 property "filename" "string" "Source filename";
                 property "file_path" "string" "Full file path";
                 property "file_type" "string" "File type/extension";
                 property "chunk_id" "int" "Chunk identifier within document";
                 property "chunk_text" "text" "Preview of chunk text";
                 property "file_size" "int" "File size in bytes";
                 property "character_count" "int" "Character count of original document"])].

(** Every request goes to the server behind [url]; none there, and the
    client library raises. *)
Definition server (h : t) : M (gmap string weaviate_class) :=
  servers ← ask w_weaviate;
  match servers !! url h with
  | Some s => mret s
  | None => raise BackendError ("Connection refused: " +:+ url h)
  end.

Definition put_server (h : t) (s : gmap string weaviate_class) : M unit :=
  fun w => (Ok tt, set_weaviate (<[url h := s]> (w_weaviate w)) w).

Definition _create_schema (h : t) : M unit :=
  try_except
    (journal (Client weaviate_schema_exists);;
     s ← server h;
     match s !! class_name h with
     | Some _ => mret tt
     | None =>
         journal (Client weaviate_schema_create_class);;
         put_server h (<[class_name h := WeaviateClass (schema_of (class_name h)) ∅]> s);;
         log INFO ("Created Weaviate class: " +:+ class_name h)
     end)
    (fun e =>
       log ERROR ("Error creating Weaviate schema: " +:+ exn_msg e);;
       reraise e).

Definition __init__ (config : value) : M t :=
  u ← lift (cfg_get config "url" (VStr "http://localhost:8080") ≫= expect_str);
  _ ← lift (cfg_get config "api_key" VNone);
  journal (Client weaviate_Client);;
  name ← lift (cfg_get config "class_name" (VStr "Document") ≫= expect_str);
  metric ← lift (cfg_get config "distance_metric" (VStr "cosine"));
  let h := Make config u name metric in
  _create_schema h;;
  log INFO ("Weaviate initialized with class: " +:+ name);;
  mret h.

(** One entry of [batch_data]: ["id"], ["properties"], ["vector"]. *)
Record batch_item : Type := BatchItem {
  item_id : string;
  item_properties : pydict;
  item_vector : list float
}.

(** The first loop of [add_documents]. *)
Definition batch_data (embeddings : list (list float)) (documents : list string)
    (metadatas : list pydict) (ids : list string) : list batch_item :=
  imap (fun i '(embedding, document, metadata, doc_id) =>
          BatchItem doc_id (native_metadata i document metadata) embedding)
       (zip4 embeddings documents metadatas ids).

(** [batch.add_data_object(data_object, class_name, uuid, vector)]: the
    client checks the uuid it is given, and the object is stored under
    its canonical form, replacing an object already there. *)
Definition add_data_object (h : t) (item : batch_item) : M unit :=
  journal (Client weaviate_batch_add_data_object);;
  valid ← ask (fun w => weaviate_valid_uuid (w_ext w));
  uuid ← lift (valid (item_id item));
  s ← server h;
  match s !! class_name h with
  | Some c =>
      put_server h
        (<[class_name h :=
             WeaviateClass (wc_schema c)
               (<[uuid := WeaviateObject (item_properties item) (item_vector item)]>
                  (wc_objects c))]> s)
  | None => raise BackendError ("Class " +:+ class_name h +:+ " does not exist")
  end.

Definition add_documents (h : t) (embeddings : list (list float))
    (documents : list string) (metadatas : list pydict) (ids : list string) : M unit :=
  try_except
    (for_each (add_data_object h) (batch_data embeddings documents metadatas ids))
    (fun e =>
       log ERROR ("Error adding documents to Weaviate: " +:+ exn_msg e);;
       reraise e).

(** The items of [result["data"]["Get"][class_name]]: the stored
    properties and [_additional.distance], nearest first, at most
    [limit]; [None] when the response carries no data. *)
Definition query_get (h : t) (query_embedding : list float) (limit : Z)
  : M (option (list pydict)) :=
  journal (Client weaviate_query_get);;
  s ← server h;
  rank ← ask (fun w => weaviate_rank (w_ext w));
  match s !! class_name h with
  | Some c =>
      mret (Some ((fun od : weaviate_object * float =>
                     wo_properties od.1 ++
                     [("_additional", VDict [("distance", VFloat od.2)])])
                  <$> take (Z.to_nat limit)
                        (rank query_embedding (snd <$> map_to_list (wc_objects c)))))
  | None => mret None
  end.

(** The body of the loop over [weaviate_results]: one result row. *)
Definition result_row (item : pydict) : M (value * value * value * value) :=
  match dict_lookup item "content" with
  | None => raise KeyError "'content'"
  | Some document =>
      let distance :=
        match dict_get_default item "_additional" (VDict []) with
        | VDict a => dict_get_default a "distance" (VFloat 0)
        | _ => VNone
        end in
      u ← uuid4;
      mret (document, result_metadata item, distance, VStr (uuid_str u))
  end.

Definition query (h : t) (query_embeddings : list (list float)) (n_results : Z)
  : M pydict :=
  try_except
    (query_embedding ← lift (first_embedding query_embeddings);
     weaviate_results ← query_get h query_embedding n_results;
     match weaviate_results with
     | Some items =>
         rows ← map_M result_row items;
         mret (result_dict ((fun r => r.1.1.1) <$> rows) ((fun r => r.1.1.2) <$> rows)
                           ((fun r => r.1.2) <$> rows) ((fun r => r.2) <$> rows))
     | None =>
         log WARNING "No results returned from Weaviate query";;
         mret (result_dict [] [] [] [])
     end)
    (fun e =>
       log ERROR ("Error querying Weaviate: " +:+ exn_msg e);;
       reraise e).

Definition get_collection_info (h : t) : M pydict :=
  try_except
    (journal (Client weaviate_schema_get);;
     s ← server h;
     match s !! class_name h with
     | None => raise BackendError ("Class " +:+ class_name h +:+ " does not exist")
     | Some c =>
         journal (Client weaviate_query_aggregate);;
         mret [("name", VStr (class_name h));
               ("count", VInt (Z.of_nat (size (wc_objects c))));
               ("provider", VStr "weaviate");
               ("schema", wc_schema c)]
     end)
    (fun e =>
       log ERROR ("Error getting Weaviate class info: " +:+ exn_msg e);;
       mret [("name", VStr (class_name h)); ("count", VInt 0); ("provider", VStr "weaviate")]).

Definition delete_collection (h : t) : M unit :=
  try_except
    (journal (Client weaviate_schema_delete_class);;
     s ← server h;
     put_server h (delete (class_name h) s);;
     log INFO ("Deleted Weaviate class: " +:+ class_name h))
    (fun e =>
       log ERROR ("Error deleting Weaviate class: " +:+ exn_msg e);;
       reraise e).

End WeaviateVectorDB.

(* ================================================================== *)
(** * src/vector_db/qdrant_client.py *)
(* ================================================================== *)

Module QdrantVectorDB.

Record t : Type := Make {
  config : value;
  url : string;               (* where [self.client] points *)
  collection_name : string;
  distance_metric : value;
  vector_size : value
}.

Definition server (h : t) : M (gmap string qdrant_collection) :=
  servers ← ask w_qdrant;
  match servers !! url h with
  | Some s => mret s
  | None => raise BackendError ("Connection refused: " +:+ url h)
  end.

Definition put_server (h : t) (s : gmap string qdrant_collection) : M unit :=
  fun w => (Ok tt, set_qdrant (<[url h := s]> (w_qdrant w)) w).

Definition collection (h : t) : M qdrant_collection :=
  s ← server h;
  match s !! collection_name h with
  | Some c => mret c
  | None => raise BackendError ("Collection `" +:+ collection_name h +:+ "` doesn't exist!")
  end.

(** [distance_mapping.get(self.distance_metric, Distance.COSINE)]: a
    dictionary lookup, which hashes its key. *)
Definition distance_mapping (metric : value) : result Distance :=
  match metric with
  | VStr "cosine" => Ok COSINE
  | VStr "euclidean" => Ok EUCLID
  | VStr "dot" => Ok DOT
  | VList _ => Raise (Exn TypeError "unhashable type: 'list'")
  | VDict _ => Raise (Exn TypeError "unhashable type: 'dict'")
  | _ => Ok COSINE
  end.

Definition _create_collection (h : t) : M unit :=
  try_except
    (journal (Client qdrant_get_collections);;
     s ← server h;
     match s !! collection_name h with
     | Some _ => mret tt
     | None =>
         distance ← lift (distance_mapping (distance_metric h));
         journal (Client qdrant_create_collection);;
         put_server h
           (<[collection_name h := QdrantCollection (vector_size h) distance ∅]> s);;
         log INFO ("Created Qdrant collection: " +:+ collection_name h)
     end)
    (fun e =>
       log ERROR ("Error creating Qdrant collection: " +:+ exn_msg e);;
       reraise e).

Definition __init__ (config : value) : M t :=
  qdrant_url ← lift (cfg_get config "qdrant_url" VNone);
  u ← lift (if truthy qdrant_url then Ok qdrant_url
            else cfg_get config "url" (VStr "http://localhost:6333"));
  qdrant_api_key ← lift (cfg_get config "qdrant_api_key" VNone);
  _ ← lift (if truthy qdrant_api_key then Ok qdrant_api_key
            else cfg_get config "api_key" VNone);
  u ← lift (expect_str u);
  journal (Client qdrant_QdrantClient);;
  name ← lift (cfg_get config "collection_name" (VStr "documents") ≫= expect_str);
  metric ← lift (cfg_get config "distance_metric" (VStr "cosine"));
  size ← lift (cfg_get config "vector_size" (VInt 384));
  let h := Make config u name metric size in
  _create_collection h;;
  log INFO ("Qdrant initialized with collection: " +:+ name);;
  mret h.

(** "Create point with proper ID handling (Qdrant requires UUID or
    integer)": [int(doc_id)] for a non-empty id on which [isdigit]
    holds, which raises when [int] does; every other id is replaced by
    a fresh [uuid.uuid4()]. *)
Definition point_id_for (doc_id : string) : M point_id :=
  py ← ask (fun w => interp (w_rt w));
  if negb (String.eqb doc_id "") && isdigit py doc_id
  then n ← lift (int_of_str py doc_id); mret (PointInt n)
  else u ← uuid4; mret (PointUUID u).

(** The loop of [add_documents] that prepares the points, from batch
    position [i] on. *)
Fixpoint prepare_points (i : nat)
    (batch : list (list float * string * pydict * string)) : M (list PointStruct) :=
  match batch with
  | [] => mret []
  | (embedding, document, metadata, doc_id) :: rest =>
      let qdrant_metadata := native_metadata i document metadata in
      point_id ← point_id_for doc_id;
      let point := Point point_id embedding qdrant_metadata in
      points ← prepare_points (S i) rest;
      mret (point :: points)
  end.

(** [client.upsert(collection_name, points)]: each point is stored under
    its id, replacing a point already there. *)
Definition upsert (h : t) (points : list PointStruct) : M unit :=
  journal (Client qdrant_upsert);;
  s ← server h;
  c ← collection h;
  put_server h
    (<[collection_name h :=
         QdrantCollection (qc_size c) (qc_distance c)
           (foldl (fun m p => <[pt_id p := p]> m) (qc_points c) points)]> s).

Definition add_documents (h : t) (embeddings : list (list float))
    (documents : list string) (metadatas : list pydict) (ids : list string) : M unit :=
  try_except
    (points ← prepare_points 0 (zip4 embeddings documents metadatas ids);
     upsert h points)
    (fun e =>
       log ERROR ("Error adding documents to Qdrant: " +:+ exn_msg e);;
       reraise e).

(** [client.search(collection_name, query_vector, limit, with_payload)]:
    the nearest points with their scores, best first, at most [limit]. *)
Definition search (h : t) (query_vector : list float) (limit : Z)
  : M (list (PointStruct * float)) :=
  journal (Client qdrant_search);;
  c ← collection h;
  rank ← ask (fun w => qdrant_rank (w_ext w));
  mret (take (Z.to_nat limit)
          (rank (qc_distance c) query_vector (snd <$> map_to_list (qc_points c)))).

(** [str(result.id)] *)
Definition point_id_str (p : point_id) : string :=
  match p with
  | PointInt n => pretty n
  | PointUUID u => uuid_str u
  end.

Definition query (h : t) (query_embeddings : list (list float)) (n_results : Z)
  : M pydict :=
  try_except
    (query_embedding ← lift (first_embedding query_embeddings);
     search_results ← search h query_embedding n_results;
     let documents :=
       (fun r : PointStruct * float =>
          dict_get_default (pt_payload r.1) "content" (VStr "")) <$> search_results in
     let metadatas :=
       (fun r : PointStruct * float => result_metadata (pt_payload r.1)) <$> search_results in
     let distances := (fun r : PointStruct * float => VFloat r.2) <$> search_results in
     let ids :=
       (fun r : PointStruct * float => VStr (point_id_str (pt_id r.1))) <$> search_results in
     mret (result_dict documents metadatas distances ids))
    (fun e =>
       log ERROR ("Error querying Qdrant: " +:+ exn_msg e);;
       reraise e).

Definition distance_name (d : Distance) : string :=
  match d with COSINE => "cosine" | EUCLID => "euclid" | DOT => "dot" end.

Definition get_collection_info (h : t) : M pydict :=
  try_except
    (journal (Client qdrant_get_collection);;
     c ← collection h;
     journal (Client qdrant_count);;
     let count := Z.of_nat (size (qc_points c)) in
     mret [("name", VStr (collection_name h));
           ("count", VInt count);
           ("provider", VStr "qdrant");
           ("vector_size", qc_size c);
           ("distance_metric", VStr (distance_name (qc_distance c)))])
    (fun e =>
       log ERROR ("Error getting Qdrant collection info: " +:+ exn_msg e);;
       mret [("name", VStr (collection_name h)); ("count", VInt 0); ("provider", VStr "qdrant")]).

Definition delete_collection (h : t) : M unit :=
  try_except
    (journal (Client qdrant_delete_collection);;
     s ← server h;
     put_server h (delete (collection_name h) s);;
     log INFO ("Deleted Qdrant collection: " +:+ collection_name h))
    (fun e =>
       log ERROR ("Error deleting Qdrant collection: " +:+ exn_msg e);;
       reraise e).

End QdrantVectorDB.

(* ================================================================== *)
(** * src/vector_db/__init__.py *)
(* ================================================================== *)

Module VectorDB.

(** An object behind [VectorDBInterface]: one of the three adapters.
    A method call dispatches on the object's class. *)
Inductive VectorDBInterface : Type :=
| ChromaDB (h : ChromaDBVectorDB.t)
| Weaviate (h : WeaviateVectorDB.t)
| Qdrant (h : QdrantVectorDB.t).

Definition add_documents (db : VectorDBInterface) (embeddings : list (list float))
    (documents : list string) (metadatas : list pydict) (ids : list string) : M unit :=
  match db with
  | ChromaDB h => ChromaDBVectorDB.add_documents h embeddings documents metadatas ids
  | Weaviate h => WeaviateVectorDB.add_documents h embeddings documents metadatas ids
  | Qdrant h => QdrantVectorDB.add_documents h embeddings documents metadatas ids
  end.

Definition query (db : VectorDBInterface) (query_embeddings : list (list float))
    (n_results : Z) : M pydict :=
  match db with
  | ChromaDB h => ChromaDBVectorDB.query h query_embeddings n_results
  | Weaviate h => WeaviateVectorDB.query h query_embeddings n_results
  | Qdrant h => QdrantVectorDB.query h query_embeddings n_results
  end.

Definition get_collection_info (db : VectorDBInterface) : M pydict :=
  match db with
  | ChromaDB h => ChromaDBVectorDB.get_collection_info h
  | Weaviate h => WeaviateVectorDB.get_collection_info h
  | Qdrant h => QdrantVectorDB.get_collection_info h
  end.

Definition delete_collection (db : VectorDBInterface) : M unit :=
  match db with
  | ChromaDB h => ChromaDBVectorDB.delete_collection h
  | Weaviate h => WeaviateVectorDB.delete_collection h
  | Qdrant h => QdrantVectorDB.delete_collection h
  end.

Definition create_vector_db (config : value) : M VectorDBInterface :=
  provider ← lift (cfg_get config "provider" (VStr "chromadb"));
  match provider with
  | VStr p =>
      let provider := lower p in
      if String.eqb provider "chromadb" then ChromaDB <$> ChromaDBVectorDB.__init__ config
      else if String.eqb provider "weaviate" then Weaviate <$> WeaviateVectorDB.__init__ config
      else if String.eqb provider "qdrant" then Qdrant <$> QdrantVectorDB.__init__ config
      else raise ValueError ("Unsupported vector database provider: " +:+ provider)
  | _ => raise AttributeError "object has no attribute 'lower'"
  end.


End VectorDB.

(* ================================================================== *)
(** * src/utils/config_loader.py *)
(* ================================================================== *)

Module ConfigLoader.

Record t : Type := Make { config_path : string; config : value }.

Definition _load_config (rt : runtime) (config_path : string) : result value :=
  match open_ (fs rt) config_path with
  | Raise (Exn FileNotFoundError _) =>
      Raise (Exn FileNotFoundError ("Configuration file not found: " +:+ config_path))
  | Raise e => Raise e
  | Ok f =>
      match yaml_value f with
      | Raise (Exn YAMLError msg) =>
          Raise (Exn ValueError ("Error parsing YAML configuration: " +:+ msg))
      | r => r
      end
  end.

Definition __init__ (config_path : string) : M t :=
  rt ← ask w_rt;
  config ← lift (_load_config rt config_path);
  mret (Make config_path config).

(** [key.split('.')]: the parts between the dots, empty parts
    included; a key without a dot is the only part. *)
Fixpoint split_dot (key : string) : list string :=
  match key with
  | EmptyString => [""]
  | String c rest =>
      if Ascii.eqb c "." then "" :: split_dot rest
      else match split_dot rest with
           | part :: parts => String c part :: parts
           | [] => [String c ""]
           end
  end.

(** The loop of [get] over the keys: one step down for each key while
    the value is a dictionary that has it, [default] as soon as it is
    not. *)
Fixpoint walk (keys : list string) (v dflt : value) : value :=
  match keys with
  | [] => v
  | k :: keys' =>
      match v with
      | VDict d =>
          match dict_lookup d k with
          | Some v' => walk keys' v' dflt
          | None => dflt
          end
      | _ => dflt
      end
  end.

Definition get (self : t) (key : string) (dflt : value) : value :=
  walk (split_dot key) (config self) dflt.

Definition get_llm_config (self : t) : result value :=
  cfg_get (config self) "llm" (VDict []).
Definition get_embeddings_config (self : t) : result value :=
  cfg_get (config self) "embeddings" (VDict []).
Definition get_vector_db_config (self : t) : result value :=
  cfg_get (config self) "vector_db" (VDict []).
Definition get_text_splitter_config (self : t) : result value :=
  cfg_get (config self) "text_splitter" (VDict []).
Definition get_retrieval_config (self : t) : result value :=
  cfg_get (config self) "retrieval" (VDict []).

End ConfigLoader.

(* ================================================================== *)
(** * src/utils/log_manager.py *)
(* ================================================================== *)

Module LogManager.

Definition DEFAULT_LOG_FORMAT : string :=
  "%(asctime)s - %(levelname)s - %(name)s.%(funcName)s:%(lineno)d - %(message)s".

Definition get_default_format : string := DEFAULT_LOG_FORMAT.

(** [os.fspath(path)], as [os.path] applies it to its argument. *)
Definition fspath (path : value) : result string :=
  match path with
  | VStr s => Ok s
  | _ => Raise (Exn TypeError "expected str, bytes or os.PathLike object")
  end.

(** [except OSError]: the class and its subclasses. *)
Definition is_OSError (e : exn) : bool :=
  match exn_type e with
  | OSError | FileNotFoundError | NotADirectoryError => true
  | _ => false
  end.

(** The class attribute [_timestamp] is set by the first call and kept. *)
Definition get_timestamped_filename (base_name extension : string) : M string :=
  state ← ask w_logging;
  stamp ← match timestamp state with
          | Some stamp => mret stamp
          | None =>
              now ← ask (fun w => strftime_now (w_ext w));
              modify (set_logging (LoggingState (root_handlers state)
                                     (file_only_handlers state) (Some now)));;
              mret now
          end;
  mret (base_name +:+ "_" +:+ stamp +:+ extension).

Definition ensure_log_directory (log_dir : value) : M string :=
  path ← lift (fspath log_dir);
  abs_log_dir ← ask (fun w => os_abspath (w_ext w) path);
  present ← ask (fun w => exists_ (fs (w_rt w)) abs_log_dir);
  (if negb present then
     makedirs ← ask (fun w => os_makedirs (w_ext w) (fs (w_rt w)));
     match makedirs abs_log_dir with
     | Ok fs' => modify (fun w => set_rt (set_fs fs' (w_rt w)) w)
     | Raise e =>
         if is_OSError e
         then raise OSError ("Failed to create log directory " +:+ abs_log_dir +:+ ": "
                             +:+ exn_msg e)
         else reraise e
     end
   else mret tt);;
  mret abs_log_dir.

Definition get_log_filepath (base_name : string) (log_dir : value) : M string :=
  ensure_log_directory log_dir;;
  filename ← get_timestamped_filename base_name ".log";
  path ← lift (fspath log_dir);
  mret (os_path_join path filename).

End LogManager.

(* ================================================================== *)
(** * src/rag_pipeline.py *)
(* ================================================================== *)

Module RAGPipeline.

Import VectorDB.

(** The pipeline object. Its [logger] and [document_loader] carry no
    state of their own: the records handed to the loggers are the list
    [w_log], and the loader is the functions of [DocumentLoader]. *)
Record t : Type := Make {
  config : ConfigLoader.t;
  text_splitter : TextSplitter;
  embeddings : Embeddings;
  vector_db : VectorDBInterface;
  llm : ChatGroq
}.

(** [config/config.yaml] under the project root, the directory two
    levels above [rag_pipeline.py]. *)
Definition default_config_path (rt : runtime) : string :=
  let project_root := dirname (dirname (rag_pipeline_file rt)) in
  os_path_join (os_path_join project_root "config") "config.yaml".

(** [logging.FileHandler(log_file, mode, encoding='utf-8')] *)
Definition FileHandler (log_file : string) (truncate : bool) : M unit :=
  open ← ask (fun w => logging_FileHandler (w_ext w) (fs (w_rt w)));
  fs' ← lift (open log_file truncate);
  modify (fun w => set_rt (set_fs fs' (w_rt w)) w).

(** [value.upper()] on what [config.get] returned. *)
Definition str_upper (py : interpreter) (v : value) : result string :=
  match v with
  | VStr s => Ok (upper py s)
  | _ => Raise (Exn AttributeError "object has no attribute 'upper'")
  end.

(** Lines 39-71 of [__init__]: the log directory and file, the level,
    the root logger when it has no handler yet, and the logger that
    writes to the file only. *)
Definition _setup_logging (config : ConfigLoader.t) : M unit :=
  let log_path := ConfigLoader.get config "logging.path" (VStr "./logs") in
  LogManager.ensure_log_directory log_path;;
  log_file ← LogManager.get_log_filepath "log" log_path;
  py ← ask (fun w => interp (w_rt w));
  log_level_str ← lift (str_upper py (ConfigLoader.get config "logging.level" (VStr "INFO")));
  attr ← ask (fun w => logging_attr (w_ext w));
  let log_level := default (VInt 20) (attr log_level_str) in
  let format :=
    ConfigLoader.get config "logging.format" (VStr LogManager.get_default_format) in
  state ← ask w_logging;
  (if negb (root_handlers state) then
     FileHandler log_file true;;
     basicConfig ← ask (fun w => logging_basicConfig (w_ext w));
     lift (basicConfig log_level format);;
     modify (fun w => set_logging (LoggingState true (file_only_handlers (w_logging w))
                                     (timestamp (w_logging w))) w)
   else mret tt);;
  FileHandler log_file false;;
  Formatter ← ask (fun w => logging_Formatter (w_ext w));
  lift (Formatter format);;
  modify (fun w => set_logging (LoggingState (root_handlers (w_logging w))
                                  (file_only_handlers (w_logging w) ++ [log_file])
                                  (timestamp (w_logging w))) w);;
  log INFO ("RAGPipeline: Logging initialized. Log file: " +:+ log_file).

Definition _setup_text_splitter (config : ConfigLoader.t) : M TextSplitter :=
  cfg ← lift (ConfigLoader.get_text_splitter_config config);
  size ← lift (cfg_get cfg "chunk_size" (VInt 1000));
  overlap ← lift (cfg_get cfg "chunk_overlap" (VInt 200));
  seps ← lift (cfg_get cfg "separators"
                 (VList [VStr (newline +:+ newline); VStr newline; VStr " "; VStr ""]));
  new ← ask (fun w => splitter_new (w_ext w));
  lift (new size overlap seps).

Definition _setup_embeddings (config : ConfigLoader.t) : M Embeddings :=
  cfg ← lift (ConfigLoader.get_embeddings_config config);
  model ← lift (cfg_get cfg "model" (VStr "sentence-transformers/all-MiniLM-L6-v2"));
  new ← ask (fun w => embeddings_new (w_ext w));
  lift (new model).

Definition _setup_vector_db (config : ConfigLoader.t) : M VectorDBInterface :=
  cfg ← lift (ConfigLoader.get_vector_db_config config);
  create_vector_db cfg.

(** [os.getenv(name)] *)
Definition getenv (name : string) : M (option string) :=
  ask (fun w => w_environ w !! name).

Definition _setup_llm (config : ConfigLoader.t) : M ChatGroq :=
  cfg ← lift (ConfigLoader.get_llm_config config);
  api_key ← getenv "GROQ_API_KEY";
  match api_key with
  | None | Some "" => raise ValueError "GROQ_API_KEY environment variable is required"
  | Some api_key =>
      model ← lift (cfg_get cfg "model" (VStr "llama-3.1-8b-instant"));
      temperature ← lift (cfg_get cfg "temperature" (VFloat 0.7));
      max_tokens ← lift (cfg_get cfg "max_tokens" (VInt 1000));
      new ← ask (fun w => llm_new (w_ext w));
      lift (new model temperature max_tokens api_key)
  end.

Definition __init__ (config_path : string) : M t :=
  rt ← ask w_rt;
  let config_path :=
    if String.eqb config_path "" then default_config_path rt else config_path in
  config ← ConfigLoader.__init__ config_path;
  _setup_logging config;;
  text_splitter ← _setup_text_splitter config;
  embeddings ← _setup_embeddings config;
  vector_db ← _setup_vector_db config;
  llm ← _setup_llm config;
  log INFO "RAG Pipeline initialized successfully";;
  mret (Make config text_splitter embeddings vector_db llm).

(** [self.text_splitter.split_text(text)]; the library splits strings
    only. *)
Definition split (self : t) (text : value) : M (list string) :=
  match text with
  | VStr s =>
      journal (SplitText s);;
      ask (fun w => split_text (w_ext w) (text_splitter self) s)
  | _ => raise TypeError "expected string or bytes-like object"
  end.

(** [self.embeddings.embed_query(text)] *)
Definition embed (self : t) (text : string) : M (list float) :=
  journal (EmbedQuery text);;
  f ← ask (fun w => embed_query (w_ext w));
  lift (f (embeddings self) text).

(** [f"{metadata['filename']}_chunk_{i}"] *)
Definition chunk_record_id (rt : runtime) (filename : value) (i : nat) : string :=
  py_str rt filename +:+ "_chunk_" +:+ pretty i.

(** The body of the loop over [enumerate(chunks)], the same in
    [_process_single_document] and in [ingest_directory]. *)
Definition store_chunk (self : t) (doc_data : RawDocument) (i : nat) (chunk : string)
  : M unit :=
  embedding ← embed self chunk;
  let metadata :=
    dict_update (metadata doc_data)
      [("chunk_id", VInt (Z.of_nat i)); ("chunk_text", VStr (preview chunk))] in
  match dict_lookup metadata "filename" with
  | None => raise KeyError "'filename'"
  | Some filename =>
      rt ← ask w_rt;
      add_documents (vector_db self) [embedding] [chunk] [metadata]
                    [chunk_record_id rt filename i]
  end.

Definition _process_single_document (self : t) (doc_data : RawDocument)
  : M (list string) :=
  chunks ← split self (content doc_data);
  for_each_enumerate (store_chunk self doc_data) 0 chunks;;
  mret chunks.

(** The loop of [ingest_document] over a list of documents, adding up
    [len(chunks)]. *)
Fixpoint process_all (self : t) (total_chunks : nat) (docs : list RawDocument) : M nat :=
  match docs with
  | [] => mret total_chunks
  | doc :: rest =>
      chunks ← _process_single_document self doc;
      process_all self (total_chunks + length chunks) rest
  end.

Definition ingest_document (self : t) (file_path : string) : M unit :=
  log INFO ("Ingesting document: " +:+ file_path);;
  doc_data ← run_loader (fun rt => load_document rt file_path);
  match doc_data with
  | Many docs =>
      total_chunks ← process_all self 0 docs;
      log INFO ("Ingested " +:+ pretty total_chunks +:+ " chunks from " +:+ file_path)
  | Single doc =>
      chunks ← _process_single_document self doc;
      log INFO ("Ingested " +:+ pretty (length chunks) +:+ " chunks from " +:+ file_path)
  end.

(** [sum(len(self.text_splitter.split_text(doc['content'])) for doc in documents)] *)
Fixpoint count_chunks (self : t) (documents : list RawDocument) : M nat :=
  match documents with
  | [] => mret 0
  | doc :: rest =>
      chunks ← split self (content doc);
      n ← count_chunks self rest;
      mret (length chunks + n)
  end.

(** The body of the loop of [ingest_directory] over the documents. *)
Definition store_document (self : t) (doc_data : RawDocument) : M unit :=
  chunks ← split self (content doc_data);
  for_each_enumerate (store_chunk self doc_data) 0 chunks.

Definition ingest_directory (self : t) (directory_path : string) : M unit :=
  log INFO ("Ingesting all documents from directory: " +:+ directory_path);;
  documents ← run_loader (fun rt => load_directory rt directory_path);
  for_each (store_document self) documents;;
  total_chunks ← count_chunks self documents;
  log INFO ("Ingested " +:+ pretty total_chunks +:+ " chunks from "
            +:+ pretty (length documents) +:+ " documents").

(** One entry of the list [retrieve_documents] returns: ['content'],
    ['metadata'] and ['distance']. *)
Record retrieved : Type := Retrieved {
  r_content : value;
  r_metadata : value;
  r_distance : value
}.

(** [config.get('max_results', 5)], which the adapters take as an
    integer. *)
Definition max_results (cfg : value) : result Z :=
  n ← cfg_get cfg "max_results" (VInt 5);
  match n with
  | VInt n => Ok n
  | _ => Raise (Exn TypeError "n_results must be an integer")
  end.

(** The guard of [retrieve_documents] that returns the empty list. *)
Definition no_results (results : pydict) : bool :=
  match results with [] => true | _ => false end
  || negb (truthy (dict_get results "documents"))
  || negb (truthy (dict_get results "metadatas"))
  || match dict_get results "distances" with
     | VNone => false
     | distances => negb (truthy distances)
     end.

(** The dictionary appended for index [i]. *)
Definition format_result (results : pydict) (i : nat) : result retrieved :=
  content ← py_index (dict_get results "documents") 0 ≫= (fun row => py_index row i);
  md ← py_index (dict_get results "metadatas") 0 ≫= (fun row => py_index row i);
  distance ←
    (let distances := dict_get results "distances" in
     if is_list distances && truthy distances then
       row ← py_index distances 0;
       if is_list row && truthy row then py_index row i else Ok VNone
     else Ok VNone);
  Ok (Retrieved content md distance).

(** [for i in range(n): documents.append(...)] *)
Fixpoint format_results (results : pydict) (i n : nat) : result (list retrieved) :=
  match n with
  | O => Ok []
  | S n' =>
      d ← format_result results i;
      ds ← format_results results (S i) n';
      Ok (d :: ds)
  end.

Definition retrieve_documents (self : t) (query : string) : M (list retrieved) :=
  log INFO ("Retrieving documents for query: " +:+ query);;
  cfg ← lift (ConfigLoader.get_retrieval_config (config self));
  query_embedding ← embed self query;
  n_results ← lift (max_results cfg);
  results ← VectorDB.query (vector_db self) [query_embedding] n_results;
  if no_results results then mret []
  else
    lift (n ← py_index (dict_get results "documents") 0 ≫= py_len;
          format_results results 0 n).

(** The system message of [generate_response] around the context. *)
Definition system_prompt (context : string) : string :=
  let line (s : string) := "        " +:+ s +:+ newline in
  newline +:+
  line "You are a helpful AI assistant. Answer the user's question based on the provided context." +:+
  line "" +:+
  line "Context:" +:+
  line context +:+
  line "" +:+
  line "Instructions:" +:+
  line "- Use only the information provided in the context" +:+
  line "- If the answer is not in the context, say so" +:+
  line "- Be concise and accurate" +:+
  line "- Cite relevant parts of the context when possible" +:+
  "        ".

(** [[doc['content'] for doc in context_docs]] as [str.join] takes
    it: every item must be a string. *)
Fixpoint contents (context_docs : list retrieved) : result (list string) :=
  match context_docs with
  | [] => Ok []
  | d :: rest =>
      match r_content d with
      | VStr s => rest' ← contents rest; Ok (s :: rest')
      | _ => Raise (Exn TypeError "sequence item: expected str instance")
      end
  end.

Definition generate_response (self : t) (query : string) (context_docs : list retrieved)
  : M string :=
  log INFO ("Generating response for query: " +:+ query);;
  parts ← lift (contents context_docs);
  let context := join (newline +:+ newline) parts in
  let system := system_prompt context in
  journal (LLMInvoke system query);;
  invoke ← ask (fun w => llm_invoke (w_ext w));
  response ← lift (invoke (llm self) system query);
  match response with
  | ContentList parts => mret (join newline parts)
  | ContentStr s => mret s
  end.

(** The dictionary [query] returns. *)
Record query_result : Type := QueryResult {
  question : string;
  response : string;
  retrieved_documents : list retrieved;
  num_sources : nat
}.

Definition query (self : t) (question : string) : M query_result :=
  log INFO ("Processing query: " +:+ question);;
  retrieved_docs ← retrieve_documents self question;
  response ← generate_response self question retrieved_docs;
  let result := QueryResult question response retrieved_docs (length retrieved_docs) in
  log INFO ("Query processed. Response: " +:+ response);;
  mret result.

Definition get_collection_stats (self : t) : M pydict :=
  collection_info ← get_collection_info (vector_db self);
  mret [("total_documents", dict_get_default collection_info "count" (VInt 0));
        ("collection_name", dict_get_default collection_info "name" (VStr "unknown"));
        ("provider", dict_get_default collection_info "provider" (VStr "unknown"))].



End RAGPipeline.

(* ================================================================== *)
(** * A small concrete world *)
(* ================================================================== *)

Module Demo.

Import DocumentLoader World.

Definition plain (size : Z) (text : string) : file :=
  File size (Ok text) (Ok text)
       (Raise (Exn ValueError "not a PDF")) (Raise (Exn ValueError "not a DOCX"))
       (Raise (Exn JSONDecodeError "Expecting value")) (Raise (Exn YAMLError "not YAML")).

Definition json_file (size : Z) (data : value) : file :=
  File size (Ok "") (Ok "")
       (Raise (Exn ValueError "not a PDF")) (Raise (Exn ValueError "not a DOCX"))
       (Ok data) (Raise (Exn YAMLError "not YAML")).

Definition yaml_file (data : value) : file :=
  File 0 (Ok "") (Ok "")
       (Raise (Exn ValueError "not a PDF")) (Raise (Exn ValueError "not a DOCX"))
       (Raise (Exn JSONDecodeError "Expecting value")) (Ok data).

(** The [vector_db] section: two-dimensional embeddings, everything else
    left to the defaults. *)
Definition db_config (provider : string) : value :=
  VDict [("provider", VStr provider); ("vector_size", VInt 2)].

Definition config_yaml (provider : string) : value :=
  VDict [("vector_db", db_config provider);
         ("retrieval", VDict [("max_results", VInt 2)])].

(** A directory [docs] with a text file, a JSON array, a PDF that cannot
    be parsed, a file with an unsupported suffix and a sub-directory
    holding one more text file. *)
Definition files : FileSystem :=
  list_to_map
    [("/app/config/config.yaml", NFile (yaml_file (config_yaml "qdrant")));
     ("docs", NDir ["a.txt"; "b.json"; "bad.pdf"; "notes.md"; "sub"]);
     ("docs/a.txt", NFile (plain 16 "alpha beta gamma"));
     ("docs/b.json",
      NFile (json_file 64
               (VList [VDict [("content", VStr "one two")];
                       VDict [("content", VStr "");
                              ("publication_description", VStr "three")]])));
     ("docs/bad.pdf", NFile (plain 3 "%PD"));
     ("docs/notes.md", NFile (plain 5 "notes"));
     ("docs/sub", NDir ["c.txt"]);
     ("docs/sub/c.txt", NFile (plain 5 "delta"));
     ("null.json", NFile (json_file 4 VNone));
     ("five.json", NFile (json_file 16 (VList [VDict [("content", VInt 5)]])))].

(** An interpreter whose other characters are those of Latin-1: the
    superscripts one, two and three are digits that [int] does not
    read, the sharp s has a two-letter upper case, and integer strings
    are limited to 4300 digits. *)
Definition python : interpreter :=
  Interpreter
    (fun c => let n := nat_of_ascii c in
              if (n =? 178) || (n =? 179) || (n =? 185) then OtherDigit else NotDigit)
    (fun c => let n := nat_of_ascii c in
              if n =? 223 then "SS"
              else if (224 <=? n) && (n <=? 254) && negb (n =? 247)
                   then String (ascii_of_nat (n - 32)) EmptyString
                   else String c EmptyString)
    4300.

(** The sources are installed under [/app]. *)
Definition rt : runtime :=
  Runtime files true true (fun _ => "<repr>") python "/app/src/rag_pipeline.py".

(** Words separated by single spaces. *)
Fixpoint words (acc : string) (s : string) : list string :=
  match s with
  | EmptyString => match acc with EmptyString => [] | _ => [acc] end
  | String c r =>
      if Ascii.eqb c " " then
        match acc with EmptyString => words "" r | _ => acc :: words "" r end
      else words (acc +:+ String c EmptyString) r
  end.

(** A [collection.add] that rejects lists of unequal lengths and skips
    the ids it already holds. *)
Definition chroma_add (rows : list chroma_row) (embeddings : list (list float))
    (documents : list string) (metadatas : list pydict) (ids : list string)
  : result (list chroma_row) :=
  if (length embeddings =? length ids) && (length documents =? length ids)
     && (length metadatas =? length ids)
  then
    Ok (rows ++ List.filter (fun r => negb (bool_decide (cr_id r ∈ cr_id <$> rows)))
                  ((fun '(e, d, m, i) => ChromaRow i e d m)
                     <$> zip4 embeddings documents metadatas ids))
  else Raise (Exn ValueError "Unequal lengths for fields").

(** Two embeddings of the configured size. *)
Definition e1 : list float := [1%float; 0%float].
Definition e2 : list float := [0%float; 1%float].

Definition is_hex (c : ascii) : bool :=
  let n := nat_of_ascii c in
  ((48 <=? n) && (n <=? 57)) || ((97 <=? n) && (n <=? 102)) || ((65 <=? n) && (n <=? 70)).

(** The 8-4-4-4-12 form of a uuid, upper or lower case. *)
Fixpoint uuid_shaped (i : nat) (s : string) : bool :=
  match s with
  | EmptyString => i =? 36
  | String c r =>
      (if (i =? 8) || (i =? 13) || (i =? 18) || (i =? 23) then Ascii.eqb c "-" else is_hex c)
      && uuid_shaped (S i) r
  end.

(** A client that takes the hyphenated form for a uuid and stores it in
    lower case. *)
Definition valid_uuid (s : string) : result string :=
  if uuid_shaped 0 s then Ok (lower s)
  else Raise (Exn ValueError "Not valid 'uuid' or 'uuid' can not be extracted from value").

(** Relative paths are resolved against [/app]. *)
Definition abspath (p : string) : string :=
  match p with
  | String "." (String "/" r) => os_path_join "/app" r
  | _ => os_path_join "/app" p
  end.

(** A directory is created empty and entered in its parent. *)
Definition makedirs (fs : FileSystem) (p : string) : result FileSystem :=
  let fs := <[p := NDir []]> fs in
  match fs !! dirname p with
  | Some (NDir names) => Ok (<[dirname p := NDir (names ++ [path_name p])]> fs)
  | _ => Ok fs
  end.

(** The levels of the [logging] module. *)
Definition logging_level (name : string) : option value :=
  if String.eqb name "CRITICAL" || String.eqb name "FATAL" then Some (VInt 50)
  else if String.eqb name "ERROR" then Some (VInt 40)
  else if String.eqb name "WARNING" || String.eqb name "WARN" then Some (VInt 30)
  else if String.eqb name "INFO" then Some (VInt 20)
  else if String.eqb name "DEBUG" then Some (VInt 10)
  else if String.eqb name "NOTSET" then Some (VInt 0)
  else None.

(** A log file is created in a directory that exists. *)
Definition file_handler (fs : FileSystem) (filename : string) (truncate : bool)
  : result FileSystem :=
  let p := abspath filename in
  match fs !! p with
  | Some (NDir _) => Raise (Exn OSError ("Is a directory: " +:+ p))
  | Some (NFile f) => Ok (if truncate then <[p := NFile (plain 0 "")]> fs else fs)
  | None =>
      match fs !! dirname p with
      | Some (NDir _) => Ok (<[p := NFile (plain 0 "")]> fs)
      | _ => Raise (Exn FileNotFoundError ("No such file or directory: " +:+ p))
      end
  end.

Definition ext : External :=
  Ext (fun size overlap seps => Ok (Splitter size overlap seps))
      (fun _ text => words "" text)
      (fun model => Ok (HFEmbeddings model))
      (fun _ text => Ok e1)
      (fun model temperature max_tokens key => Ok (Groq model temperature max_tokens key))
      (fun _ _ _ => Ok (ContentStr "answer"))
      chroma_add
      (fun _ _ rows => (fun r => (r, 0%float)) <$> rows)
      (fun _ objects => (fun o => (o, 0%float)) <$> objects)
      (fun _ _ points => (fun p => (p, 1%float)) <$> points)
      valid_uuid
      abspath
      makedirs
      "261104_0900"
      logging_level
      file_handler
      (fun level format =>
         match level, format with
         | VInt _, VStr _ => Ok tt
         | _, _ => Raise (Exn ValueError "Unknown level or format")
         end)
      (fun format =>
         match format with
         | VStr _ => Ok tt
         | _ => Raise (Exn TypeError "expected string or bytes-like object")
         end).

(** A world with the three servers up and empty, the root logger
    configured (as importing [document_loader] leaves it), and a
    credential for the language model when [key] is given. *)
Definition world_with (key : option string) (provider : string) : world :=
  MkWorld
    (Runtime (<["/app/config/config.yaml" := NFile (yaml_file (config_yaml provider))]> files)
             true true (fun _ => "<repr>") python "/app/src/rag_pipeline.py")
    (match key with Some k => {["GROQ_API_KEY" := k]} | None => ∅ end)
    ext
    (fun n => N.of_nat n) 0
    [] []
    ∅
    {["http://localhost:8080" := ∅]}
    {["http://localhost:6333" := ∅]}
    (LoggingState true [] None).

Definition w0 : world := world_with (Some "gsk-demo") "qdrant".

Definition weaviate : WeaviateVectorDB.t :=
  WeaviateVectorDB.Make (db_config "weaviate") "http://localhost:8080" "Document"
                        (VStr "cosine").
Definition qdrant : QdrantVectorDB.t :=
  QdrantVectorDB.Make (db_config "qdrant") "http://localhost:6333" "documents"
                      (VStr "cosine") (VInt 2).

Definition ready : world :=
  ((ChromaDBVectorDB.__init__ (db_config "chromadb");;
    WeaviateVectorDB.__init__ (db_config "weaviate");;
    QdrantVectorDB.__init__ (db_config "qdrant")) w0).2.

(** Two well-formed object ids. *)
Definition id7 : string := "00000000-0000-4000-8000-000000000007".

(** The metadata the loader gives [docs/a.txt]. *)
Definition a_txt : pydict :=
  [("filename", VStr "a.txt"); ("file_path", VStr "docs/a.txt");
   ("file_size", VInt 16); ("file_type", VStr ".txt"); ("character_count", VInt 16)].

End Demo.


(* ================================================================== *)
(** * Vocabulary of the statements *)
(* ================================================================== *)

(** What one file contributes to the list [load_directory] returns. *)
Definition documents_of (rt : runtime) (file_path : string) : list RawDocument :=
  match (load_document rt file_path).1 with
  | Ok (Single d) => [d]
  | Ok (Many ds) => ds
  | Raise _ => []
  end.

(** The ERROR records one file contributes to the log. *)
Definition error_of (rt : runtime) (file_path : string) : list string :=
  match (load_document rt file_path).1 with
  | Ok _ => []
  | Raise e => ["Error loading " +:+ file_path +:+ ": " +:+ exn_msg e]
  end.

(** The entries [load_directory] hands to [load_document]. *)
Definition eligible (rt : runtime) (file_path : string) : bool :=
  is_file (fs rt) file_path && supported (lower (suffix file_path)).

(** Every document carries the path of the file it was loaded from. *)
Definition from_file (file_path : string) (d : RawDocument) : Prop :=
  dict_lookup (metadata d) "file_path" = Some (VStr file_path).

(** The content the loader is meant to pick for one element: the
    [content] field when it is there and truthy, else the
    [publication_description] field when it is there and truthy, else
    the element's string form; an element that is not an object always
    gives its string form. *)
Definition chosen_content (rt : runtime) (element : value) : value :=
  match element with
  | VDict d =>
      if truthy (dict_get d "content") then dict_get d "content"
      else if truthy (dict_get d "publication_description")
           then dict_get d "publication_description"
           else VStr (py_str rt element)
  | _ => VStr (py_str rt element)
  end.

(** The values [len] accepts. *)
Definition sized (v : value) : bool :=
  match v with VStr _ | VList _ | VDict _ => true | _ => false end.

Definition size_of (v : value) : Z :=
  match py_len v with Ok n => Z.of_nat n | Raise _ => 0%Z end.

(** A document with the five file keys and its tag. *)
Definition tagged_document (file_path : string) (f : file) (c : value)
    (tag : pydict) : RawDocument :=
  Document c
    ([("filename", VStr (path_name file_path));
      ("file_path", VStr file_path);
      ("file_size", VInt (st_size f));
      ("file_type", VStr (lower (suffix file_path)));
      ("character_count", VInt (size_of c))] ++ tag).

(** The documents a JSON file is meant to give: one per array element,
    tagged with its index; one per object entry, tagged with its key;
    one untagged document for any other value, holding its string form,
    or the empty string for [null]. *)
Definition expected_documents (rt : runtime) (file_path : string) (f : file) (data : value)
  : list RawDocument :=
  match data with
  | VList items =>
      imap (fun i element =>
              tagged_document file_path f (chosen_content rt element)
                              [("json_index", VInt (Z.of_nat i))])
           items
  | VDict items =>
      (fun kv : string * value =>
         tagged_document file_path f (chosen_content rt kv.2) [("json_key", VStr kv.1)])
      <$> items
  | VNone => [tagged_document file_path f (VStr "") []]
  | _ => [tagged_document file_path f (VStr (py_str rt data)) []]
  end.

(** The elements of an array or object. *)
Definition elements (data : value) : list value :=
  match data with
  | VList items => items
  | VDict items => snd <$> items
  | _ => []
  end.


(** The objects a batch leaves in a class. *)
Definition weaviate_store (ext : External) (items : list WeaviateVectorDB.batch_item)
    (objects : gmap string weaviate_object) : gmap string weaviate_object :=
  foldl (fun m item =>
           match weaviate_valid_uuid ext (WeaviateVectorDB.item_id item) with
           | Ok uuid =>
               <[uuid := WeaviateObject (WeaviateVectorDB.item_properties item)
                                        (WeaviateVectorDB.item_vector item)]> m
           | Raise _ => m
           end)
        objects items.



(** The ids the Weaviate client takes for uuids. *)
Definition weaviate_accepts (ext : External) (doc_id : string) : bool :=
  is_ok (weaviate_valid_uuid ext doc_id).


(** The demo world after [alpha], chunk 0 of [a.txt], was stored once. *)
Definition stored_once : world :=
  (QdrantVectorDB.add_documents Demo.qdrant [Demo.e1] ["alpha"] [Demo.a_txt]
     ["a.txt_chunk_0"] Demo.ready).2.

Definition stored_once_collection : qdrant_collection :=
  default (QdrantCollection VNone COSINE ∅)
          (default ∅ (w_qdrant stored_once !! "http://localhost:6333") !! "documents").

(** [frame R m]: running [m] takes every world to an [R]-related one,
    whether it returns or raises. *)
Definition frame (R : relation world) {A} (m : M A) : Prop :=
  forall w, R w (m w).2.

Definition same_env (w w' : world) : Prop :=
  w_environ w' = w_environ w /\ w_ext w' = w_ext w.

(** [only_calls P w w']: [w'] is [w] with more log records and more
    journal entries, all of them satisfying [P]; the servers, the
    entropy drawn and everything else are the same. *)
Definition only_calls (P : call -> bool) (w w' : world) : Prop :=
  w_rt w' = w_rt w /\ w_environ w' = w_environ w /\ w_ext w' = w_ext w
  /\ w_entropy w' = w_entropy w /\ w_drawn w' = w_drawn w
  /\ w_chroma w' = w_chroma w /\ w_weaviate w' = w_weaviate w
  /\ w_qdrant w' = w_qdrant w /\ w_logging w' = w_logging w
  /\ (exists l, w_log w' = w_log w ++ l)
  /\ (exists cs, w_calls w' = w_calls w ++ cs /\ forallb P cs = true).

(** The client calls that read a collection's description and count. *)
Definition reads_count (c : call) : bool :=
  match c with
  | Client chroma_collection_count
  | Client weaviate_schema_get
  | Client weaviate_query_aggregate
  | Client qdrant_get_collection
  | Client qdrant_count => true
  | _ => false
  end.



(** [not os.getenv("GROQ_API_KEY")] *)
Definition credential_missing (w : world) : bool :=
  match w_environ w !! "GROQ_API_KEY" with
  | None | Some "" => true
  | Some _ => false
  end.

(** The steps of [RAGPipeline.__init__] that come before [_setup_llm]. *)
Definition setup_before_llm (config_path : string)
  : M (ConfigLoader.t * TextSplitter * Embeddings * VectorDB.VectorDBInterface) :=
  rt ← ask w_rt;
  let config_path :=
    if String.eqb config_path "" then RAGPipeline.default_config_path rt else config_path in
  config ← ConfigLoader.__init__ config_path;
  RAGPipeline._setup_logging config;;
  text_splitter ← RAGPipeline._setup_text_splitter config;
  embeddings ← RAGPipeline._setup_embeddings config;
  vector_db ← RAGPipeline._setup_vector_db config;
  mret (config, text_splitter, embeddings, vector_db).

(** The shape every adapter gives the result of a query with one query
    embedding: one inner list per key, all of one length, which is at
    most [n_results]. *)
Definition well_shaped (n_results : Z) (results : pydict) : Prop :=
  exists docs mds dists,
    dict_get results "documents" = VList [VList docs]
    /\ dict_get results "metadatas" = VList [VList mds]
    /\ dict_get results "distances" = VList [VList dists]
    /\ length mds = length docs
    /\ length dists = length docs
    /\ length docs <= Z.to_nat n_results
    /\ results <> [].

(** The demo pipeline on Qdrant after [docs] was ingested, with
    [max_results] set to 2. *)
Definition ingested : result RAGPipeline.t * world :=
  (p ← RAGPipeline.__init__ ""; RAGPipeline.ingest_directory p "docs";; mret p) Demo.w0.

Definition demo_pipeline : RAGPipeline.t :=
  match ingested.1 with
  | Ok p => p
  | Raise _ =>
      RAGPipeline.Make (ConfigLoader.Make "" VNone) (Splitter VNone VNone VNone)
        (HFEmbeddings VNone) (VectorDB.Qdrant Demo.qdrant) (Groq VNone VNone VNone "")
  end.

(** The world in which that pipeline was constructed, and the world the
    ingestion of [docs] left. *)
Definition ingested_start : world := (RAGPipeline.__init__ "" Demo.w0).2.
Definition ingested_end : world :=
  (RAGPipeline.ingest_directory demo_pipeline "docs" ingested_start).2.

Definition demo_retrieval : result (list RAGPipeline.retrieved) * world :=
  RAGPipeline.retrieve_documents demo_pipeline "what"
    (log INFO ("Processing query: " +:+ "what") ingested.2).2.

Definition demo_docs : list RAGPipeline.retrieved :=
  match demo_retrieval.1 with Ok docs => docs | Raise _ => [] end.

(** [journal_grows P w w']: the journal of [w'] is that of [w] followed
    by entries that all satisfy [P], and the collaborators are the
    same. *)
Definition journal_grows (P : call -> bool) (w w' : world) : Prop :=
  w_ext w' = w_ext w /\ w_rt w' = w_rt w
  /\ exists cs, w_calls w' = w_calls w ++ cs /\ forallb P cs = true.

Definition not_split (c : call) : bool := negb (is_split c).

(** The number [count_chunks] arrives at. *)
Definition total_chunks (self : RAGPipeline.t) (w : world) (texts : list string) : nat :=
  foldr (fun text n =>
           length (split_text (w_ext w) (RAGPipeline.text_splitter self) text) + n)
        0 texts.
(** ** Vocabulary of the further properties *)

(** What the metadata of a document loaded from [file_path] says. *)
Definition describes (rt : runtime) (file_path : string) (d : RawDocument) : Prop :=
  dict_lookup (metadata d) "filename" = Some (VStr (path_name file_path))
  /\ dict_lookup (metadata d) "file_path" = Some (VStr file_path)
  /\ dict_lookup (metadata d) "file_type" = Some (VStr (lower (suffix file_path)))
  /\ supported (lower (suffix file_path)) = true
  /\ (exists f, open_ (fs rt) file_path = Ok f
                /\ dict_lookup (metadata d) "file_size" = Some (VInt (st_size f)))
  /\ (exists n, py_len (content d) = Ok n
                /\ dict_lookup (metadata d) "character_count" = Some (VInt (Z.of_nat n))).

(** The two ways a document-level extraction ends in an error. *)
Definition extraction_error (what : string) (e : exn) : Prop :=
  exn_type e = ImportError
  \/ (exn_type e = Exception
      /\ exists msg, exn_msg e = "Error reading " +:+ what +:+ " file: " +:+ msg).

(** The id [store_chunk] gives chunk [i] of a document: built from the
    ['filename'] entry of its metadata, if there is one. *)
Definition record_id (rt : runtime) (doc_data : RawDocument) (i : nat) : option string :=
  match dict_lookup (metadata doc_data) "filename" with
  | Some filename => Some (RAGPipeline.chunk_record_id rt filename i)
  | None => None
  end.

(** The keys both networked adapters keep. *)
Definition payload_keys : list string :=
  ["filename"; "file_path"; "file_type"; "chunk_id"; "chunk_text"; "file_size";
   "character_count"].

(** The ids a query is given on the way out, from draw [k] on. *)
Definition fresh_ids (w : world) (k n : nat) : list value :=
  (fun j => VStr (uuid_str (uuid_of_random (w_entropy w (k + j))))) <$> seq 0 n.

(** The provider an adapter object reports. *)
Definition provider_name (db : VectorDB.VectorDBInterface) : string :=
  match db with
  | VectorDB.ChromaDB _ => "chromadb"
  | VectorDB.Weaviate _ => "weaviate"
  | VectorDB.Qdrant _ => "qdrant"
  end.

(** The number of records in the collection behind an adapter object,
    when the server can be reached and the collection exists. *)
Definition live_count (db : VectorDB.VectorDBInterface) (w : world) : option nat :=
  match db with
  | VectorDB.ChromaDB h =>
      c ← w_chroma w !! (ChromaDBVectorDB.path h, ChromaDBVectorDB.collection_name h);
      Some (length (cc_rows c))
  | VectorDB.Weaviate h =>
      s ← w_weaviate w !! WeaviateVectorDB.url h;
      c ← s !! WeaviateVectorDB.class_name h;
      Some (size (wc_objects c))
  | VectorDB.Qdrant h =>
      s ← w_qdrant w !! QdrantVectorDB.url h;
      c ← s !! QdrantVectorDB.collection_name h;
      Some (size (qc_points c))
  end.

(** The client call behind [query]. *)
Definition search_call (db : VectorDB.VectorDBInterface) : call :=
  match db with
  | VectorDB.ChromaDB _ => Client chroma_collection_query
  | VectorDB.Weaviate _ => Client weaviate_query_get
  | VectorDB.Qdrant _ => Client qdrant_search
  end.

(** The name an adapter uses for itself in its log records. *)
Definition adapter_name (db : VectorDB.VectorDBInterface) : string :=
  match db with
  | VectorDB.ChromaDB _ => "ChromaDB"
  | VectorDB.Weaviate _ => "Weaviate"
  | VectorDB.Qdrant _ => "Qdrant"
  end.

(** The servers of a world. *)
Definition same_servers (w w' : world) : Prop :=
  w_chroma w' = w_chroma w /\ w_weaviate w' = w_weaviate w /\ w_qdrant w' = w_qdrant w.

(** The world once the Weaviate adapter has stored one chunk under
    [Demo.id7], and what a query for two-dimensional embeddings returns
    there. *)
Definition one_stored : world :=
  (WeaviateVectorDB.add_documents Demo.weaviate [Demo.e1] ["alpha"] [Demo.a_txt]
     [Demo.id7] Demo.ready).2.

Definition one_stored_class : weaviate_class :=
  default (WeaviateClass VNone ∅)
          (default ∅ (w_weaviate one_stored !! "http://localhost:8080") !! "Document").




Definition one_stored_results : pydict :=
  match (WeaviateVectorDB.query Demo.weaviate [Demo.e1] 5 one_stored).1 with
  | Ok results => results
  | Raise _ => []
  end.

(** The calls that go to a vector database client, as opposed to the
    text splitter, the embedding model and the language model. *)
Definition is_client_call (c : call) : bool :=
  match c with Client _ => true | _ => false end.

Definition is_model_call (c : call) : bool := negb (is_client_call c).

(** What one document asks of the text splitter and of the embedding
    model: one [split_text] of its text, then one [embed_query] for
    each chunk, in the order of the chunks. *)
Definition model_calls (self : RAGPipeline.t) (w : world) (text : string) : list call :=
  SplitText text
  :: (EmbedQuery <$> split_text (w_ext w) (RAGPipeline.text_splitter self) text).

(** The text of the reply a chat model returned. *)
Definition reply_text (response : response_content) : string :=
  match response with
  | ContentList parts => join newline parts
  | ContentStr s => s
  end.

(** A key part: a string without a dot. *)
Fixpoint dot_free (s : string) : bool :=
  match s with
  | EmptyString => true
  | String c rest => negb (Ascii.eqb c ".") && dot_free rest
  end.


(* ================================================================== *)
(** * Properties of the document loader *)
(* ================================================================== *)

Section LoaderMonad.

Context {A B : Type}.

Lemma W_bind_result (m : W A) (f : A -> W B) :
  (m ≫= f).1 = match m.1 with Ok a => (f a).1 | Raise e => Raise e end.
Proof. destruct m as [[a|e] l]; simpl; [destruct (f a)|]; reflexivity. Qed.

Lemma W_bind_log (m : W A) (f : A -> W B) :
  (m ≫= f).2 = m.2 ++ match m.1 with Ok a => (f a).2 | Raise _ => [] end.
Proof.
  destruct m as [[a|e] l]; simpl; [destruct (f a)|]; simpl;
    rewrite ?app_nil_r; reflexivity.
Qed.

End LoaderMonad.

Lemma errors_app (l1 l2 : list log_record) :
  errors (l1 ++ l2) = errors l1 ++ errors l2.
Proof. apply omap_app. Qed.

Section LoaderProperties.

Variable rt : runtime.

(** The loader's own records are all at level INFO. *)
Lemma _load_json_log (p : string) : errors (_load_json rt p).2 = [].
Proof.
  unfold _load_json. rewrite !W_bind_log, !errors_app. simpl.
  repeat match goal with
         | |- context [match ?r with Ok _ => _ | Raise _ => _ end] => destruct r; simpl
         end; reflexivity.
Qed.

Lemma load_document_log (p : string) : errors (load_document rt p).2 = [].
Proof.
  unfold load_document.
  destruct (negb (exists_ (fs rt) p)); [done|].
  destruct (negb (supported (lower (suffix p)))); [done|].
  destruct (String.eqb (lower (suffix p)) ".json").
  - rewrite W_bind_log, errors_app, _load_json_log.
    destruct ((_load_json rt p).1); reflexivity.
  - rewrite !W_bind_log, !errors_app. simpl.
    repeat match goal with
           | |- context [match ?r with Ok _ => _ | Raise _ => _ end] => destruct r; simpl
           end; reflexivity.
Qed.




Lemma load_directory_step_spec (documents : list RawDocument) (file_path : string) :
  (load_directory_step rt documents file_path).1 =
    documents ++ (if eligible rt file_path then documents_of rt file_path else [])
  /\ errors (load_directory_step rt documents file_path).2 =
       if eligible rt file_path then error_of rt file_path else [].
Proof.
  unfold load_directory_step, eligible, documents_of, error_of.
  destruct (is_file (fs rt) file_path && supported (lower (suffix file_path))).
  - pose proof (load_document_log file_path) as Hlog.
    destruct (load_document rt file_path) as [[[d|ds]|e] l]; simpl in *;
      rewrite ?errors_app, ?Hlog, ?app_nil_r; auto.
  - simpl. rewrite app_nil_r. auto.
Qed.

Lemma load_directory_loop_spec (entries : list string) (documents : list RawDocument) :
  (load_directory_loop rt documents entries).1 =
    documents ++ concat (documents_of rt <$> List.filter (eligible rt) entries)
  /\ errors (load_directory_loop rt documents entries).2 =
       concat (error_of rt <$> List.filter (eligible rt) entries).
Proof.
  revert documents. induction entries as [|file_path rest IH]; intros documents; simpl.
  - rewrite app_nil_r. auto.
  - destruct (load_directory_step_spec documents file_path) as [Hd Hl].
    destruct (load_directory_step rt documents file_path) as [documents' l]; simpl in *.
    destruct (IH documents') as [IHd IHl].
    destruct (load_directory_loop rt documents' rest) as [documents'' l']; simpl in *.
    rewrite errors_app, IHd, IHl, Hd, Hl.
    destruct (eligible rt file_path); simpl; rewrite ?app_nil_r, <- ?app_assoc; auto.
Qed.


Lemma for_enumerate_Forall {X Y} (P : Y -> Prop) (f : nat -> X -> result Y) :
  (forall i x y, f i x = Ok y -> P y) ->
  forall l i ys, for_enumerate f i l = Ok ys -> Forall P ys.
Proof.
  intros Hf. induction l as [|x l IH]; intros i ys; simpl.
  - intros [= <-]. constructor.
  - destruct (f i x) as [y|e] eqn:Hy; [|discriminate].
    destruct (for_enumerate f (S i) l) as [ys'|e] eqn:Hys; [|discriminate].
    intros [= <-]. constructor; eauto.
Qed.


Lemma json_document_from_file (p : string) (f : file) (doc : value)
    (tag : string * value) (d : RawDocument) :
  json_document rt p f doc tag = Ok d -> from_file p d.
Proof.
  unfold json_document, file_metadata, from_file.
  destruct (py_len (element_content rt doc)); simpl; [|discriminate].
  intros [= <-]. reflexivity.
Qed.

Lemma documents_of_from_file (p : string) : Forall (from_file p) (documents_of rt p).
Proof.
  unfold documents_of, load_document.
  destruct (negb (exists_ (fs rt) p)); [constructor|].
  destruct (negb (supported (lower (suffix p)))); [constructor|].
  destruct (String.eqb (lower (suffix p)) ".json").
  - rewrite W_bind_result. unfold _load_json. rewrite !W_bind_result. simpl.
    destruct (open_ (fs rt) p) as [f|e]; [|constructor].
    destruct (json_value f) as [data|e]; [|constructor].
    destruct data; simpl;
      lazymatch goal with
      | |- context [for_enumerate ?g 0 ?l] =>
          destruct (for_enumerate g 0 l) as [ds|e] eqn:Hds; [|constructor];
          eapply for_enumerate_Forall; [|exact Hds];
          intros i x y; apply json_document_from_file
      | |- _ => repeat constructor
      end.
  - rewrite W_bind_result. unfold DocumentLoader.lift at 1. simpl.
    destruct (if String.eqb (lower (suffix p)) ".txt" then _load_txt rt p
              else if String.eqb (lower (suffix p)) ".pdf" then _load_pdf rt p
              else _load_docx rt p) as [text|e]; [|constructor].
    destruct (open_ (fs rt) p); repeat constructor.
Qed.

(** C5. [load_directory] on a directory: it loads exactly the immediate
    entries that are regular files with a supported suffix, in the
    order [iterdir] lists them; a file whose load raises contributes an
    ERROR record and no document, and the loop goes on; the result is
    the concatenation of what each remaining file yields, a JSON file's
    list being spliced in. Every document returned comes from such an
    immediate entry. *)
Theorem load_directory_partial_failure (directory_path : string) (names : list string) :
  fs rt !! directory_path = Some (NDir names) ->
  let files := List.filter (eligible rt) (joinpath directory_path <$> names) in
  (load_directory rt directory_path).1 = Ok (concat (documents_of rt <$> files))
  /\ errors (load_directory rt directory_path).2 = concat (error_of rt <$> files)
  /\ Forall (fun d => exists name, name ∈ names
                /\ from_file (joinpath directory_path name) d
                /\ is_file (fs rt) (joinpath directory_path name) = true
                /\ supported (lower (suffix (joinpath directory_path name))) = true)
            (concat (documents_of rt <$> files)).
Proof.
  intros Hdir files.
  destruct (load_directory_loop_spec (joinpath directory_path <$> names) []) as [Hd Hl].
  unfold load_directory, exists_, iterdir. rewrite Hdir. simpl.
  destruct (load_directory_loop rt [] (joinpath directory_path <$> names))
    as [documents l]; simpl in *.
  rewrite errors_app, Hl. simpl. rewrite app_nil_r. subst documents.
  fold files. repeat split.
  apply Forall_concat, Forall_fmap, Forall_forall. intros q Hq.
  apply list_elem_of_In, filter_In in Hq. destruct Hq as [Hin Hel].
  apply list_elem_of_In, list_elem_of_fmap in Hin. destruct Hin as [name [-> Hname]].
  apply andb_prop in Hel. destruct Hel as [Hfile Hsup].
  eapply Forall_impl; [apply documents_of_from_file|].
  simpl. intros d Hfrom. exists name. auto.
Qed.

End LoaderProperties.

(** The directory [docs] of the demo world: [a.txt] and the two elements
    of [b.json] are returned, [bad.pdf] is logged and skipped, and
    [notes.md] and the sub-directory are not visited. *)
Lemma load_directory_partial_failure_witness :
  let files := List.filter (eligible Demo.rt)
                 (joinpath "docs" <$> ["a.txt"; "b.json"; "bad.pdf"; "notes.md"; "sub"]) in
  (load_directory Demo.rt "docs").1 = Ok (concat (documents_of Demo.rt <$> files))
  /\ errors (load_directory Demo.rt "docs").2 = concat (error_of Demo.rt <$> files)
  /\ Forall (fun d => exists name,
                name ∈ ["a.txt"; "b.json"; "bad.pdf"; "notes.md"; "sub"]
                /\ from_file (joinpath "docs" name) d
                /\ is_file (fs Demo.rt) (joinpath "docs" name) = true
                /\ supported (lower (suffix (joinpath "docs" name))) = true)
            (concat (documents_of Demo.rt <$> files)).
Proof.
  apply (load_directory_partial_failure Demo.rt "docs"). reflexivity.
Defined.

Section LoadDocument.

Variable rt : runtime.

(** C7, as the code has it. A path that does not exist makes
    [load_document] raise [FileNotFoundError], whatever its suffix; a
    path that exists and whose lower-cased suffix is outside
    [supported_formats] makes it raise [ValueError]. The two are
    different exception classes, and neither call writes a log record. *)
Theorem load_document_error_kinds (file_path : string) :
  (exists_ (fs rt) file_path = false ->
   load_document rt file_path
   = (Raise (Exn FileNotFoundError ("File not found: " +:+ file_path)), []))
  /\ (exists_ (fs rt) file_path = true ->
      supported (lower (suffix file_path)) = false ->
      load_document rt file_path
      = (Raise (Exn ValueError ("Unsupported file format: " +:+ suffix file_path)), [])).
Proof.
  unfold load_document. split.
  - intros ->. reflexivity.
  - intros -> ->. reflexivity.
Qed.

(** ** JSON files *)







Lemma truthy_not_None (v : value) : truthy v = true -> v <> VNone.
Proof. intros H ->. discriminate. Qed.

Lemma element_content_chosen (element : value) :
  element_content rt element = chosen_content rt element.
Proof.
  unfold element_content, chosen_content, py_or.
  destruct element as [| | | | |l|d]; try reflexivity.
  destruct (truthy (dict_get d "content")) eqn:Hc; simpl; rewrite ?Hc.
  - destruct (dict_get d "content"); try reflexivity. discriminate.
  - destruct (truthy (dict_get d "publication_description")) eqn:Hp; [|reflexivity].
    destruct (dict_get d "publication_description"); try reflexivity. discriminate.
Qed.

Lemma json_document_sized (file_path : string) (f : file) (element : value)
    (tag : string * value) :
  sized (chosen_content rt element) = true ->
  json_document rt file_path f element tag
  = Ok (tagged_document file_path f (chosen_content rt element) [tag]).
Proof.
  unfold json_document, file_metadata, tagged_document, size_of.
  rewrite element_content_chosen.
  destruct (chosen_content rt element); try discriminate; reflexivity.
Qed.

Lemma for_enumerate_Ok {X Y} (f : nat -> X -> result Y) (g : nat -> X -> Y)
    (P : X -> Prop) :
  (forall i x, P x -> f i x = Ok (g i x)) ->
  forall l i, Forall P l ->
    for_enumerate f i l = Ok (imap (fun j => g (i + j)) l).
Proof.
  intros Hf. induction l as [|x l IH]; intros i Hl; simpl; [reflexivity|].
  inversion Hl as [|? ? Hx Hl']; subst.
  rewrite (Hf i x Hx), (IH (S i) Hl'). rewrite Nat.add_0_r.
  do 2 f_equal. apply imap_ext. intros j y _. simpl. f_equal. lia.
Qed.

(** C6, as the code has it. For a JSON file whose elements all select a
    content that has a length (a string, a list or a dictionary),
    [_load_json] returns exactly the expected documents, and so does
    [load_document] on a path with the suffix [.json]: one per element
    of an array or object, with the content chosen by truthiness and
    the index or key as tag, and exactly one document for any other
    top-level value, empty for [null]. *)
Theorem _load_json_documents (file_path : string) (f : file) (data : value) :
  fs rt !! file_path = Some (NFile f) ->
  json_value f = Ok data ->
  Forall (fun element => sized (chosen_content rt element) = true) (elements data) ->
  (_load_json rt file_path).1 = Ok (expected_documents rt file_path f data)
  /\ (lower (suffix file_path) = ".json" ->
      (load_document rt file_path).1 = Ok (Many (expected_documents rt file_path f data)))
  /\ length (expected_documents rt file_path f data)
     = match data with
       | VList _ | VDict _ => length (elements data)
       | _ => 1
       end.
Proof.
  intros Hfile Hdata Hsized.
  assert ((_load_json rt file_path).1 = Ok (expected_documents rt file_path f data))
    as Hjson; [|split; [exact Hjson|split]].
  - unfold _load_json, open_. rewrite Hfile. simpl. rewrite Hdata. simpl.
    destruct data as [| | | | |items|items]; simpl in *; try reflexivity.
    + rewrite (for_enumerate_Ok _
                 (fun i element => tagged_document file_path f (chosen_content rt element)
                                     [("json_index", VInt (Z.of_nat i))])
                 (fun element => sized (chosen_content rt element) = true));
        [reflexivity| |exact Hsized].
      intros i x Hx. apply json_document_sized, Hx.
    + rewrite (for_enumerate_Ok _
                 (fun _ (kv : string * value) =>
                    tagged_document file_path f (chosen_content rt kv.2)
                                    [("json_key", VStr kv.1)])
                 (fun kv : string * value => sized (chosen_content rt kv.2) = true)).
      * simpl. f_equal. clear. induction items as [|kv items IH]; [reflexivity|].
        simpl. f_equal. exact IH.
      * intros i x Hx. apply json_document_sized, Hx.
      * apply Forall_fmap in Hsized. exact Hsized.
  - intros Hsfx. unfold load_document, exists_. rewrite Hfile, Hsfx. simpl.
    rewrite W_bind_result, Hjson. reflexivity.
  - destruct data; simpl; rewrite ?length_imap, ?length_fmap; reflexivity.
Qed.

End LoadDocument.

(** C7: the two error kinds on a missing and on an unsupported file. *)
Lemma load_document_error_kinds_witness :
  load_document Demo.rt "missing.txt"
  = (Raise (Exn FileNotFoundError "File not found: missing.txt"), [])
  /\ load_document Demo.rt "docs/notes.md"
     = (Raise (Exn ValueError "Unsupported file format: .md"), []).
Proof.
  split.
  - apply (proj1 (load_document_error_kinds Demo.rt "missing.txt")). reflexivity.
  - apply (proj2 (load_document_error_kinds Demo.rt "docs/notes.md")); reflexivity.
Defined.

(** C7 fails as stated: [nothing.xyz] has an unsupported suffix, and
    because it does not exist the call raises [FileNotFoundError], not
    the error for an unsupported format. *)
Lemma load_document_missing_before_unsupported :
  supported (lower (suffix "nothing.xyz")) = false
  /\ load_document Demo.rt "nothing.xyz"
     = (Raise (Exn FileNotFoundError "File not found: nothing.xyz"), []).
Proof. split; reflexivity. Qed.

(** C6: the array in [docs/b.json] of the demo world. *)
Lemma _load_json_documents_witness :
  let f := Demo.json_file 64
             (VList [VDict [("content", VStr "one two")];
                     VDict [("content", VStr "");
                            ("publication_description", VStr "three")]]) in
  (_load_json Demo.rt "docs/b.json").1
  = Ok (expected_documents Demo.rt "docs/b.json" f
          (VList [VDict [("content", VStr "one two")];
                  VDict [("content", VStr "");
                         ("publication_description", VStr "three")]]))
  /\ (lower (suffix "docs/b.json") = ".json" ->
      (load_document Demo.rt "docs/b.json").1
      = Ok (Many (expected_documents Demo.rt "docs/b.json" f
                    (VList [VDict [("content", VStr "one two")];
                            VDict [("content", VStr "");
                                   ("publication_description", VStr "three")]]))))
  /\ length (expected_documents Demo.rt "docs/b.json" f
               (VList [VDict [("content", VStr "one two")];
                       VDict [("content", VStr "");
                              ("publication_description", VStr "three")]]))
     = 2.
Proof.
  apply (_load_json_documents Demo.rt "docs/b.json").
  - reflexivity.
  - reflexivity.
  - repeat constructor.
Defined.

(** C6 fails as stated. In [docs/b.json] the second element has a
    [content] field, the empty string, and the document's content is
    the fallback field's ["three"]; [null.json] holds [null], whose
    string form is ["None"], and the document's content is empty. *)
Lemma _load_json_present_but_falsy :
  dict_lookup [("content", VStr ""); ("publication_description", VStr "three")] "content"
  = Some (VStr "")
  /\ content <$> documents_of Demo.rt "docs/b.json" = [VStr "one two"; VStr "three"]
  /\ py_str Demo.rt VNone = "None"
  /\ content <$> documents_of Demo.rt "null.json" = [VStr ""].
Proof. repeat split; reflexivity. Qed.

(* ================================================================== *)
(** * Properties of the adapters *)
(* ================================================================== *)

Lemma M_bind_unfold {A B} (m : M A) (f : A -> M B) (w : world) :
  (m ≫= f) w = match m w with
               | (Ok a, w') => f a w'
               | (Raise e, w') => (Raise e, w')
               end.
Proof. reflexivity. Qed.

Lemma M_bind_Ok {A B} (m : M A) (f : A -> M B) (w w' : world) (a : A) :
  m w = (Ok a, w') -> (m ≫= f) w = f a w'.
Proof. intros H. rewrite M_bind_unfold, H. reflexivity. Qed.

Lemma M_bind_Raise {A B} (m : M A) (f : A -> M B) (w w' : world) (e : exn) :
  m w = (Raise e, w') -> (m ≫= f) w = (Raise e, w').
Proof. intros H. rewrite M_bind_unfold, H. reflexivity. Qed.

Lemma try_except_Ok {A} (m : M A) (h : exn -> M A) (w w' : world) (a : A) :
  m w = (Ok a, w') -> try_except m h w = (Ok a, w').
Proof. intros H. unfold try_except. rewrite H. reflexivity. Qed.

Lemma try_except_Raise {A} (m : M A) (h : exn -> M A) (w w' : world) (e : exn) :
  m w = (Raise e, w') -> try_except m h w = h e w'.
Proof. intros H. unfold try_except. rewrite H. reflexivity. Qed.

(** A run is settled by its result and its final world separately, so a
    run on a concrete world is checked by evaluating its result alone. *)
Lemma run_eq {A} (p : result A * world) (a : A) (w' : world) :
  p.1 = Ok a -> p.2 = w' -> p = (Ok a, w').
Proof. destruct p as [r w]. simpl. intros -> ->. reflexivity. Qed.

Ltac run_by_evaluation := apply run_eq; [vm_compute; reflexivity | reflexivity].

(** ** Identifiers *)

(** The underscore is no digit, whatever the interpreter's tables. *)
Lemma all_digits_chunk_id (py : interpreter) (s t : string) :
  all_digits py (s +:+ "_chunk_" +:+ t) = false.
Proof.
  induction s as [|c s IH]; simpl; [reflexivity|].
  rewrite IH. apply andb_false_r.
Qed.

Lemma isdigit_chunk_id (py : interpreter) (s t : string) :
  isdigit py (s +:+ "_chunk_" +:+ t) = false.
Proof.
  unfold isdigit. pose proof (all_digits_chunk_id py s t) as H.
  destruct (s +:+ "_chunk_" +:+ t); [reflexivity|exact H].
Qed.

(** An id that is not a string of digits is replaced by a UUID made from
    the next random bytes. *)
Lemma point_id_for_not_digits (doc_id : string) (w : world) :
  isdigit (interp (w_rt w)) doc_id = false ->
  QdrantVectorDB.point_id_for doc_id w
  = (Ok (PointUUID (uuid_of_random (w_entropy w (w_drawn w)))),
     set_drawn (S (w_drawn w)) w).
Proof.
  intros H. unfold QdrantVectorDB.point_id_for, ask. rewrite M_bind_unfold.
  rewrite H, andb_false_r. reflexivity.
Qed.



(** C1 on the Qdrant adapter. The id the pipeline gives a chunk is
    never a string of digits, so the adapter stores the chunk under a
    version-4 UUID made from the next sixteen random bytes: the point id
    is a function of the entropy, not of the file name and the chunk
    index. *)
Theorem qdrant_point_id_is_random (rt : runtime) (filename : value) (i : nat)
    (w : world) :
  QdrantVectorDB.point_id_for (RAGPipeline.chunk_record_id rt filename i) w
  = (Ok (PointUUID (uuid_of_random (w_entropy w (w_drawn w)))),
     set_drawn (S (w_drawn w)) w).
Proof.
  apply point_id_for_not_digits. unfold RAGPipeline.chunk_record_id.
  apply isdigit_chunk_id.
Qed.

(** ** Batches of mismatched lengths *)





(** Unfolds the binds of the world monad and computes. *)
Ltac msimpl := repeat first [progress simpl | rewrite M_bind_unfold].

Lemma qdrant_upsert_Ok (h : QdrantVectorDB.t) (points : list PointStruct) (w : world)
    (s : gmap string qdrant_collection) (c : qdrant_collection) :
  w_qdrant w !! QdrantVectorDB.url h = Some s ->
  s !! QdrantVectorDB.collection_name h = Some c ->
  QdrantVectorDB.upsert h points w
  = (Ok tt,
     set_qdrant
       (<[QdrantVectorDB.url h :=
            <[QdrantVectorDB.collection_name h :=
                QdrantCollection (qc_size c) (qc_distance c)
                  (foldl (fun m p => <[pt_id p := p]> m) (qc_points c) points)]> s]>
          (w_qdrant w))
       (set_calls (w_calls w ++ [Client qdrant_upsert]) w)).
Proof.
  intros Hs Hc.
  unfold QdrantVectorDB.upsert, QdrantVectorDB.collection, QdrantVectorDB.server,
    QdrantVectorDB.put_server, journal, ask.
  msimpl. rewrite Hs. msimpl. rewrite Hs. msimpl. rewrite Hc. reflexivity.
Qed.

Lemma weaviate_add_data_object_Ok (h : WeaviateVectorDB.t)
    (item : WeaviateVectorDB.batch_item) (w : world)
    (s : gmap string weaviate_class) (c : weaviate_class) (uuid : string) :
  w_weaviate w !! WeaviateVectorDB.url h = Some s ->
  s !! WeaviateVectorDB.class_name h = Some c ->
  weaviate_valid_uuid (w_ext w) (WeaviateVectorDB.item_id item) = Ok uuid ->
  WeaviateVectorDB.add_data_object h item w
  = (Ok tt,
     set_weaviate
       (<[WeaviateVectorDB.url h :=
            <[WeaviateVectorDB.class_name h :=
                WeaviateClass (wc_schema c)
                  (<[uuid :=
                       WeaviateObject (WeaviateVectorDB.item_properties item)
                                      (WeaviateVectorDB.item_vector item)]>
                     (wc_objects c))]> s]>
          (w_weaviate w))
       (set_calls (w_calls w ++ [Client weaviate_batch_add_data_object]) w)).
Proof.
  intros Hs Hc Hid.
  unfold WeaviateVectorDB.add_data_object, WeaviateVectorDB.server,
    WeaviateVectorDB.put_server, journal, ask, lift.
  msimpl. rewrite Hid. msimpl. rewrite Hs. msimpl. rewrite Hc. reflexivity.
Qed.


Lemma weaviate_for_each_Ok (h : WeaviateVectorDB.t)
    (items : list WeaviateVectorDB.batch_item) :
  forall (w : world) (s : gmap string weaviate_class) (c : weaviate_class),
    w_weaviate w !! WeaviateVectorDB.url h = Some s ->
    s !! WeaviateVectorDB.class_name h = Some c ->
    forallb (fun item => weaviate_accepts (w_ext w) (WeaviateVectorDB.item_id item)) items
    = true ->
    exists w' s',
      for_each (WeaviateVectorDB.add_data_object h) items w = (Ok tt, w')
      /\ w_weaviate w' !! WeaviateVectorDB.url h = Some s'
      /\ s' !! WeaviateVectorDB.class_name h
         = Some (WeaviateClass (wc_schema c)
                   (weaviate_store (w_ext w) items (wc_objects c)))
      /\ w_log w' = w_log w.
Proof.
  induction items as [|item rest IH]; intros w s c Hs Hc; simpl.
  - intros _. exists w, s. destruct c. auto.
  - intros [Hid Hrest]%andb_prop. unfold weaviate_accepts in Hid.
    destruct (weaviate_valid_uuid (w_ext w) (WeaviateVectorDB.item_id item))
      as [uuid|e] eqn:Huuid; [|discriminate].
    rewrite M_bind_unfold, (weaviate_add_data_object_Ok h item w s c uuid Hs Hc Huuid).
    match goal with
    | |- context [for_each _ rest ?w1] =>
        destruct (IH w1 _ _ (lookup_insert_eq (w_weaviate w) _ _)
                     (lookup_insert_eq s _ _) Hrest)
          as (w' & s' & Hrun & Hs' & Hc' & Hlog)
    end.
    exists w', s'. rewrite Hrun. simpl in *. auto.
Qed.







(** C2 on the Qdrant adapter. Adding a chunk under the pipeline's id
    never replaces a stored point: the call succeeds and the collection
    has one point more than before (the fresh UUID being one that is not
    stored yet), also when the same chunk was added before. *)
Theorem qdrant_add_documents_appends (h : QdrantVectorDB.t) (rt : runtime)
    (filename : value) (i : nat) (embedding : list float) (chunk : string)
    (md : pydict) (w : world) (s : gmap string qdrant_collection)
    (c : qdrant_collection) :
  w_qdrant w !! QdrantVectorDB.url h = Some s ->
  s !! QdrantVectorDB.collection_name h = Some c ->
  qc_points c !! PointUUID (uuid_of_random (w_entropy w (w_drawn w))) = None ->
  exists w' s' c',
    QdrantVectorDB.add_documents h [embedding] [chunk] [md]
      [RAGPipeline.chunk_record_id rt filename i] w = (Ok tt, w')
    /\ w_qdrant w' !! QdrantVectorDB.url h = Some s'
    /\ s' !! QdrantVectorDB.collection_name h = Some c'
    /\ size (qc_points c') = S (size (qc_points c)).
Proof.
  intros Hs Hc Hfresh.
  unfold QdrantVectorDB.add_documents. simpl.
  eexists _, _, _. split; [|split; [|split]].
  - apply try_except_Ok.
    rewrite M_bind_unfold. simpl.
    rewrite M_bind_unfold, point_id_for_not_digits by apply isdigit_chunk_id.
    msimpl. apply qdrant_upsert_Ok; [exact Hs|exact Hc].
  - simpl. apply lookup_insert_eq.
  - apply lookup_insert_eq.
  - simpl. apply map_size_insert_None. exact Hfresh.
Qed.



(** Storing the same chunk of the same file a second time: one point
    before, one more after. *)
Lemma qdrant_add_documents_appends_witness :
  size (qc_points stored_once_collection) = 1
  /\ exists w' s' c',
       QdrantVectorDB.add_documents Demo.qdrant [Demo.e1] ["alpha"] [Demo.a_txt]
         [RAGPipeline.chunk_record_id Demo.rt (VStr "a.txt") 0] stored_once = (Ok tt, w')
       /\ w_qdrant w' !! "http://localhost:6333" = Some s'
       /\ s' !! "documents" = Some c'
       /\ size (qc_points c') = S (size (qc_points stored_once_collection)).
Proof.
  split; [vm_compute; reflexivity|].
  apply (qdrant_add_documents_appends Demo.qdrant Demo.rt (VStr "a.txt") 0
           Demo.e1 "alpha" Demo.a_txt stored_once
           (default ∅ (w_qdrant stored_once !! "http://localhost:6333"))
           stored_once_collection).
  - vm_compute. reflexivity.
  - vm_compute. reflexivity.
  - vm_compute. reflexivity.
Defined.

(** The failing input of C1: the same chunk stored twice lies under two
    different point ids. *)
Lemma qdrant_same_chunk_two_ids :
  ((QdrantVectorDB.add_documents Demo.qdrant [Demo.e1] ["alpha"] [Demo.a_txt]
      ["a.txt_chunk_0"];;
    QdrantVectorDB.add_documents Demo.qdrant [Demo.e1] ["alpha"] [Demo.a_txt]
      ["a.txt_chunk_0"];;
    c ← QdrantVectorDB.collection Demo.qdrant;
    mret (QdrantVectorDB.point_id_str <$> (fst <$> map_to_list (qc_points c))))
     Demo.ready).1
  = Ok ["00000000-0000-4000-8000-000000000000";
        "00000000-0000-4000-8000-000000000001"].
Proof. vm_compute. reflexivity. Qed.

(** The failing input of C2: ingesting [docs/a.txt] twice into Qdrant
    doubles the count. *)
Lemma qdrant_reingest_doubles_count :
  ((p ← RAGPipeline.__init__ "";
    RAGPipeline.ingest_document p "docs/a.txt";;
    once ← RAGPipeline.get_collection_stats p;
    RAGPipeline.ingest_document p "docs/a.txt";;
    twice ← RAGPipeline.get_collection_stats p;
    mret (dict_get once "total_documents", dict_get twice "total_documents"))
     Demo.w0).1
  = Ok (VInt 3, VInt 6).
Proof. vm_compute. reflexivity. Qed.



(* ================================================================== *)
(** * What a computation leaves unchanged *)
(* ================================================================== *)

Section Frames.


Context (R : relation world) `{!PreOrder R}.

Lemma frame_ret {A} (a : A) : frame R (mret a).
Proof. intros w. reflexivity. Qed.

Lemma frame_bind {A B} (m : M A) (f : A -> M B) :
  frame R m -> (forall a, frame R (f a)) -> frame R (m ≫= f).
Proof.
  intros Hm Hf w. rewrite M_bind_unfold. specialize (Hm w).
  destruct (m w) as [[a|e] w1]; simpl in *; [|exact Hm].
  etransitivity; [exact Hm|apply Hf].
Qed.

Lemma frame_fmap {A B} (g : A -> B) (m : M A) : frame R m -> frame R (g <$> m).
Proof.
  intros Hm w. specialize (Hm w). unfold fmap, M_fmap.
  destruct (m w) as [[a|e] w1]; exact Hm.
Qed.

Lemma frame_try_except {A} (m : M A) (h : exn -> M A) :
  frame R m -> (forall e, frame R (h e)) -> frame R (try_except m h).
Proof.
  intros Hm Hh w. unfold try_except. specialize (Hm w).
  destruct (m w) as [[a|e] w1]; simpl in *; [exact Hm|].
  etransitivity; [exact Hm|apply Hh].
Qed.

Lemma frame_for_each {A} (body : A -> M unit) (xs : list A) :
  (forall x, frame R (body x)) -> frame R (for_each body xs).
Proof.
  intros Hb. induction xs as [|x xs IH]; simpl;
    [apply frame_ret|apply frame_bind; auto].
Qed.

Lemma frame_for_each_enumerate {A} (body : nat -> A -> M unit) (xs : list A) :
  (forall i x, frame R (body i x)) -> forall i, frame R (for_each_enumerate body i xs).
Proof.
  intros Hb. induction xs as [|x xs IH]; intros i; simpl;
    [apply frame_ret|apply frame_bind; auto].
Qed.

Lemma frame_map_M {A B} (f : A -> M B) (xs : list A) :
  (forall x, frame R (f x)) -> frame R (map_M f xs).
Proof.
  intros Hf. induction xs as [|x xs IH]; simpl; [apply frame_ret|].
  apply frame_bind; [apply Hf|]. intros b.
  apply frame_bind; [apply IH|]. intros bs. apply frame_ret.
Qed.

Lemma frame_pure {A} (r : world -> result A) : frame R (fun w => (r w, w)).
Proof. intros w. reflexivity. Qed.

End Frames.

(** The steps shared by every frame proof: split binds, handlers and
    loops, case on the scrutinee of a [match] or [if], and leave the
    world-changing primitives to [leaf]. *)
Ltac frame_steps leaf :=
  repeat (intros;
          first [ exact _
                | apply frame_ret
                | apply frame_bind
                | apply frame_fmap
                | apply frame_try_except
                | apply frame_for_each
                | apply frame_for_each_enumerate
                | apply frame_map_M
                | apply (frame_pure _ (fun _ => _))
                | match goal with
                  | |- frame _ (match ?x with _ => _ end) => destruct x
                  end
                | leaf ]).

Create HintDb model discriminated.

#[export] Hint Unfold raise reraise lift ask : model.
#[export] Hint Unfold
  ChromaDBVectorDB.lookup_collection ChromaDBVectorDB.get_or_create_collection
  ChromaDBVectorDB.__init__ ChromaDBVectorDB.add_documents
  ChromaDBVectorDB.collection_query ChromaDBVectorDB.query
  ChromaDBVectorDB.get_collection_info ChromaDBVectorDB.delete_collection
  WeaviateVectorDB.server WeaviateVectorDB._create_schema WeaviateVectorDB.__init__
  WeaviateVectorDB.add_data_object WeaviateVectorDB.add_documents
  WeaviateVectorDB.query_get WeaviateVectorDB.result_row WeaviateVectorDB.query
  WeaviateVectorDB.get_collection_info WeaviateVectorDB.delete_collection
  QdrantVectorDB.server QdrantVectorDB.collection QdrantVectorDB._create_collection
  QdrantVectorDB.__init__ QdrantVectorDB.point_id_for QdrantVectorDB.upsert
  QdrantVectorDB.add_documents QdrantVectorDB.search QdrantVectorDB.query
  QdrantVectorDB.get_collection_info QdrantVectorDB.delete_collection
  VectorDB.add_documents VectorDB.query VectorDB.get_collection_info
  VectorDB.delete_collection VectorDB.create_vector_db
  ConfigLoader.__init__
  LogManager.get_timestamped_filename LogManager.ensure_log_directory
  LogManager.get_log_filepath RAGPipeline.FileHandler RAGPipeline._setup_logging
  RAGPipeline._setup_text_splitter RAGPipeline._setup_embeddings
  RAGPipeline._setup_vector_db RAGPipeline.getenv
  RAGPipeline.split RAGPipeline.embed RAGPipeline.store_chunk
  RAGPipeline.store_document : model.

(** ** The read-only parts of the world *)


#[export] Instance same_env_preorder : PreOrder same_env.
Proof.
  split.
  - intros w. repeat split.
  - intros w1 w2 w3 (? & ?) (? & ?). repeat split; congruence.
Qed.

Ltac same_env_leaf :=
  first
    [ progress autounfold with model
    | match goal with
      | |- frame same_env ?m =>
          let w := fresh "w" in
          intros w;
          first [ repeat split; reflexivity
                | unfold log, journal, uuid4, run_loader, modify,
                    ChromaDBVectorDB.put_collection, WeaviateVectorDB.put_server,
                    QdrantVectorDB.put_server; simpl;
                  repeat match goal with
                         | |- context [let '(_, _) := ?x in _] => destruct x
                         end;
                  repeat split; reflexivity ]
      end ].

Lemma prepare_points_same_env (batch : list (list float * string * pydict * string)) :
  forall i, frame same_env (QdrantVectorDB.prepare_points i batch).
Proof.
  induction batch as [|[[[e d] md] doc_id] rest IH]; intros i; simpl.
  - frame_steps same_env_leaf.
  - frame_steps same_env_leaf. apply IH.
Qed.

Lemma create_vector_db_same_env (cfg : value) :
  frame same_env (VectorDB.create_vector_db cfg).
Proof. unfold VectorDB.create_vector_db. frame_steps same_env_leaf. Qed.

(* ================================================================== *)
(** * Construction of the pipeline and the credential *)
(* ================================================================== *)



Lemma init_after_setup (config_path : string) (w : world) :
  RAGPipeline.__init__ config_path w
  = match setup_before_llm config_path w with
    | (Ok (config, text_splitter, embeddings, vector_db), w1) =>
        match RAGPipeline._setup_llm config w1 with
        | (Ok llm, w2) =>
            (Ok (RAGPipeline.Make config text_splitter embeddings vector_db llm),
             (log INFO "RAG Pipeline initialized successfully" w2).2)
        | (Raise e, w2) => (Raise e, w2)
        end
    | (Raise e, w1) => (Raise e, w1)
    end.
Proof.
  unfold RAGPipeline.__init__, setup_before_llm. rewrite !M_bind_unfold.
  change (ask w_rt w) with (Ok (w_rt w), w). cbv beta iota zeta.
  rewrite !M_bind_unfold.
  match goal with
  | |- context [ConfigLoader.__init__ ?p w] =>
      destruct (ConfigLoader.__init__ p w) as [[config|e] w1]; [|reflexivity]
  end.
  rewrite !M_bind_unfold.
  destruct (RAGPipeline._setup_logging config w1) as [[[]|e] w1']; [|reflexivity].
  rewrite !M_bind_unfold.
  destruct (RAGPipeline._setup_text_splitter config w1') as [[ts|e] w2]; [|reflexivity].
  rewrite !M_bind_unfold.
  destruct (RAGPipeline._setup_embeddings config w2) as [[emb|e] w3]; [|reflexivity].
  rewrite !M_bind_unfold.
  destruct (RAGPipeline._setup_vector_db config w3) as [[db|e] w4]; [|reflexivity].
  simpl. rewrite M_bind_unfold.
  destruct (RAGPipeline._setup_llm config w4) as [[llm|e] w5]; reflexivity.
Qed.

Lemma setup_before_llm_same_env (config_path : string) :
  frame same_env (setup_before_llm config_path).
Proof.
  unfold setup_before_llm. frame_steps same_env_leaf.
Qed.

(** Once the text splitter was set up, the configuration is known to be
    a dictionary. *)
Lemma setup_before_llm_config (config_path : string) (w w1 : world)
    (config : ConfigLoader.t) ts emb db :
  setup_before_llm config_path w = (Ok (config, ts, emb, db), w1) ->
  exists d, ConfigLoader.config config = VDict d.
Proof.
  unfold setup_before_llm. rewrite !M_bind_unfold.
  change (ask w_rt w) with (Ok (w_rt w), w). cbv beta iota zeta.
  rewrite M_bind_unfold.
  match goal with
  | |- context [ConfigLoader.__init__ ?p w] =>
      destruct (ConfigLoader.__init__ p w) as [[c|e] w0]; [|discriminate]
  end.
  rewrite M_bind_unfold.
  destruct (RAGPipeline._setup_logging c w0) as [[[]|e] w']; [|discriminate].
  rewrite M_bind_unfold.
  destruct (RAGPipeline._setup_text_splitter c w') as [[ts'|e] w2] eqn:Hts; [|discriminate].
  intros H.
  assert (c = config) as <-.
  { revert H. rewrite M_bind_unfold.
    destruct (RAGPipeline._setup_embeddings c w2) as [[emb'|e] w3]; [|discriminate].
    rewrite M_bind_unfold.
    destruct (RAGPipeline._setup_vector_db c w3) as [[db'|e] w4]; [|discriminate].
    intros Heq. inversion Heq. reflexivity. }
  revert Hts. unfold RAGPipeline._setup_text_splitter,
    ConfigLoader.get_text_splitter_config, cfg_get, lift.
  rewrite M_bind_unfold.
  destruct (ConfigLoader.config c); try discriminate. eauto.
Qed.

Lemma _setup_llm_without_credential (config : ConfigLoader.t) (w : world) (d : pydict) :
  ConfigLoader.config config = VDict d ->
  credential_missing w = true ->
  RAGPipeline._setup_llm config w
  = (Raise (Exn ValueError "GROQ_API_KEY environment variable is required"), w).
Proof.
  intros Hd Hmiss.
  unfold RAGPipeline._setup_llm, ConfigLoader.get_llm_config, cfg_get,
    RAGPipeline.getenv, lift, ask.
  rewrite Hd. msimpl. unfold credential_missing in Hmiss.
  destruct (w_environ w !! "GROQ_API_KEY") as [[|c k]|]; try discriminate; reflexivity.
Qed.

(** C9, as the code has it. The constructor sets up the language model
    unconditionally, as the last of its components. With [GROQ_API_KEY]
    unset or empty no pipeline object is ever constructed, for ingestion
    or for anything else: the constructor raises [ValueError] as soon as
    the configuration, the logging, the text splitter, the embedding
    model and the vector store are set up, and raises their error if
    one of them fails first. *)
Theorem init_requires_credential (config_path : string) (w : world) :
  credential_missing w = true ->
  is_ok (RAGPipeline.__init__ config_path w).1 = false
  /\ RAGPipeline.__init__ config_path w
     = match setup_before_llm config_path w with
       | (Ok _, w1) =>
           (Raise (Exn ValueError "GROQ_API_KEY environment variable is required"), w1)
       | (Raise e, w1) => (Raise e, w1)
       end.
Proof.
  intros Hmiss.
  assert (RAGPipeline.__init__ config_path w
          = match setup_before_llm config_path w with
            | (Ok _, w1) =>
                (Raise (Exn ValueError "GROQ_API_KEY environment variable is required"), w1)
            | (Raise e, w1) => (Raise e, w1)
            end) as Heq.
  { rewrite init_after_setup.
    pose proof (setup_before_llm_same_env config_path w) as (Henv & _).
    destruct (setup_before_llm config_path w) as [[[[[config ts] emb] db]|e] w1] eqn:Hsetup;
      [|reflexivity].
    destruct (setup_before_llm_config _ _ _ _ _ _ _ Hsetup) as [d Hd].
    rewrite (_setup_llm_without_credential config w1 d Hd); [reflexivity|].
    unfold credential_missing in *. simpl in Henv. rewrite Henv. exact Hmiss. }
  split; [|exact Heq].
  rewrite Heq. destruct (setup_before_llm config_path w) as [[?|?] ?]; reflexivity.
Qed.

(** The demo world without the credential, configured for ChromaDB. *)
Lemma init_requires_credential_witness :
  is_ok (RAGPipeline.__init__ "" (Demo.world_with None "chromadb")).1 = false
  /\ RAGPipeline.__init__ "" (Demo.world_with None "chromadb")
     = match setup_before_llm "" (Demo.world_with None "chromadb") with
       | (Ok _, w1) =>
           (Raise (Exn ValueError "GROQ_API_KEY environment variable is required"), w1)
       | (Raise e, w1) => (Raise e, w1)
       end.
Proof.
  apply (init_requires_credential "" (Demo.world_with None "chromadb")).
  reflexivity.
Defined.

(** C9 fails as stated: without the credential the constructor raises,
    although the configuration, the logging, the splitter, the
    embedding model and the vector store were all set up, so there is
    no pipeline object to ingest with. *)
Lemma init_without_credential_raises :
  is_ok (setup_before_llm "" (Demo.world_with None "chromadb")).1 = true
  /\ (RAGPipeline.__init__ "" (Demo.world_with None "chromadb")).1
     = Raise (Exn ValueError "GROQ_API_KEY environment variable is required").
Proof. split; vm_compute; reflexivity. Qed.

(* ================================================================== *)
(** * Clearing the database *)
(* ================================================================== *)


#[export] Instance only_calls_preorder (P : call -> bool) : PreOrder (only_calls P).
Proof.
  split.
  - intros w. repeat split; try (exists []; rewrite app_nil_r; auto).
  - intros w1 w2 w3 (? & ? & ? & ? & ? & ? & ? & ? & ? & [l1 Hl1] & [c1 [Hc1 HP1]])
                    (? & ? & ? & ? & ? & ? & ? & ? & ? & [l2 Hl2] & [c2 [Hc2 HP2]]).
    repeat split; try congruence.
    + exists (l1 ++ l2). rewrite Hl2, Hl1, app_assoc. reflexivity.
    + exists (c1 ++ c2). rewrite Hc2, Hc1, app_assoc, forallb_app, HP1, HP2. auto.
Qed.

Lemma only_calls_log (P : call -> bool) (lv : level) (msg : string) :
  frame (only_calls P) (log lv msg).
Proof.
  intros w. unfold log. simpl.
  repeat split; [eexists; reflexivity|exists []; rewrite app_nil_r; auto].
Qed.

Lemma only_calls_journal (P : call -> bool) (c : call) :
  P c = true -> frame (only_calls P) (journal c).
Proof.
  intros HP w. unfold journal. simpl.
  repeat split; [exists []; rewrite app_nil_r; auto|].
  exists [c]. simpl. rewrite HP. auto.
Qed.

Ltac only_calls_leaf :=
  first [ apply only_calls_log
        | apply only_calls_journal; reflexivity
        | progress autounfold with model ].


Lemma get_collection_info_reads (db : VectorDB.VectorDBInterface) :
  frame (only_calls reads_count) (VectorDB.get_collection_info db).
Proof.
  unfold VectorDB.get_collection_info. destruct db; frame_steps only_calls_leaf.
Qed.






(* ================================================================== *)
(** * Retrieval and the number of sources *)
(* ================================================================== *)


Lemma map_M_length {A B} (f : A -> M B) (xs : list A) :
  forall w ys w', map_M f xs w = (Ok ys, w') -> length ys = length xs.
Proof.
  induction xs as [|x xs IH]; intros w ys w'; simpl.
  - intros [= <- _]. reflexivity.
  - rewrite M_bind_unfold. destruct (f x w) as [[b|e] w1]; [|discriminate].
    rewrite M_bind_unfold.
    destruct (map_M f xs w1) as [[bs|e] w2] eqn:Hbs; [|discriminate].
    intros [= <- _]. simpl. f_equal. eapply IH, Hbs.
Qed.

Lemma chroma_query_shape (h : ChromaDBVectorDB.t) (q : list float) (n : Z)
    (w w' : world) (results : pydict) :
  ChromaDBVectorDB.query h [q] n w = (Ok results, w') -> well_shaped n results.
Proof.
  unfold ChromaDBVectorDB.query, try_except, ChromaDBVectorDB.collection_query,
    ChromaDBVectorDB.lookup_collection, journal, ask, raise, reraise, log.
  msimpl.
  destruct (w_chroma w !! (ChromaDBVectorDB.path h, ChromaDBVectorDB.collection_name h))
    as [c|]; msimpl; [|discriminate].
  intros [= <- _]. eexists _, _, _. repeat split; try reflexivity.
  - rewrite !length_fmap. reflexivity.
  - rewrite !length_fmap. reflexivity.
  - rewrite length_fmap, length_take. lia.
  - discriminate.
Qed.

Lemma qdrant_query_shape (h : QdrantVectorDB.t) (q : list float) (n : Z)
    (w w' : world) (results : pydict) :
  QdrantVectorDB.query h [q] n w = (Ok results, w') -> well_shaped n results.
Proof.
  unfold QdrantVectorDB.query, try_except, QdrantVectorDB.search,
    QdrantVectorDB.collection, QdrantVectorDB.server, first_embedding,
    journal, ask, raise, reraise, log, lift.
  msimpl.
  destruct (w_qdrant w !! QdrantVectorDB.url h) as [s|]; msimpl; [|discriminate].
  destruct (s !! QdrantVectorDB.collection_name h) as [c|]; msimpl; [|discriminate].
  intros [= <- _]. eexists _, _, _. repeat split; try reflexivity.
  - rewrite !length_fmap. reflexivity.
  - rewrite !length_fmap. reflexivity.
  - rewrite length_fmap, length_take. lia.
  - discriminate.
Qed.

Lemma weaviate_query_shape (h : WeaviateVectorDB.t) (q : list float) (n : Z)
    (w w' : world) (results : pydict) :
  WeaviateVectorDB.query h [q] n w = (Ok results, w') -> well_shaped n results.
Proof.
  unfold WeaviateVectorDB.query, try_except, WeaviateVectorDB.query_get,
    WeaviateVectorDB.server, first_embedding, journal, ask, raise, reraise, log, lift.
  msimpl.
  destruct (w_weaviate w !! WeaviateVectorDB.url h) as [s|]; msimpl; [|discriminate].
  destruct (s !! WeaviateVectorDB.class_name h) as [c|]; msimpl.
  - match goal with
    | |- context [map_M WeaviateVectorDB.result_row ?items ?w0] =>
        destruct (map_M WeaviateVectorDB.result_row items w0) as [[rows|e] w1] eqn:Hrows
    end; [|discriminate].
    apply map_M_length in Hrows. rewrite length_fmap, length_take in Hrows.
    intros [= <- _]. eexists _, _, _. repeat split; try reflexivity.
    + rewrite !length_fmap. reflexivity.
    + rewrite !length_fmap. reflexivity.
    + rewrite length_fmap. lia.
    + discriminate.
  - intros [= <- _]. exists [], [], []. repeat split; try reflexivity; simpl; try lia.
    discriminate.
Qed.

Lemma query_shape (db : VectorDB.VectorDBInterface) (q : list float) (n : Z)
    (w w' : world) (results : pydict) :
  VectorDB.query db [q] n w = (Ok results, w') -> well_shaped n results.
Proof.
  destruct db; simpl;
    [apply chroma_query_shape|apply weaviate_query_shape|apply qdrant_query_shape].
Qed.











(* ================================================================== *)
(** * Directory ingestion and the reported total *)
(* ================================================================== *)


#[export] Instance journal_grows_preorder (P : call -> bool) : PreOrder (journal_grows P).
Proof.
  split.
  - intros w. repeat split. exists []. rewrite app_nil_r. auto.
  - intros w1 w2 w3 (? & ? & [c1 [Hc1 HP1]]) (? & ? & [c2 [Hc2 HP2]]).
    repeat split; try congruence.
    exists (c1 ++ c2). rewrite Hc2, Hc1, app_assoc, forallb_app, HP1, HP2. auto.
Qed.

Lemma journal_grows_journal (P : call -> bool) (c : call) :
  P c = true -> frame (journal_grows P) (journal c).
Proof.
  intros HP w. unfold journal. simpl. repeat split.
  exists [c]. simpl. rewrite HP. auto.
Qed.

Lemma journal_grows_silent {A} (P : call -> bool) (m : M A) :
  (forall w, w_ext (m w).2 = w_ext w /\ w_rt (m w).2 = w_rt w
             /\ w_calls (m w).2 = w_calls w) ->
  frame (journal_grows P) m.
Proof.
  intros H w. destruct (H w) as (He & Hr & Hc). repeat split; try assumption.
  exists []. rewrite app_nil_r. auto.
Qed.

Ltac journal_grows_leaf :=
  first
    [ apply journal_grows_journal; reflexivity
    | progress autounfold with model
    | apply journal_grows_silent;
      let w := fresh "w" in
      intros w;
      unfold log, uuid4, run_loader, ChromaDBVectorDB.put_collection,
        WeaviateVectorDB.put_server, QdrantVectorDB.put_server; simpl;
      repeat match goal with
             | |- context [let '(_, _) := ?x in _] => destruct x
             end;
      repeat split; reflexivity ].


Lemma prepare_points_no_split (batch : list (list float * string * pydict * string)) :
  forall i, frame (journal_grows not_split) (QdrantVectorDB.prepare_points i batch).
Proof.
  induction batch as [|[[[e d] md] doc_id] rest IH]; intros i; simpl.
  - frame_steps journal_grows_leaf.
  - frame_steps journal_grows_leaf. apply IH.
Qed.

Lemma store_chunk_no_split (self : RAGPipeline.t) (doc_data : RawDocument) (i : nat)
    (chunk : string) :
  frame (journal_grows not_split) (RAGPipeline.store_chunk self doc_data i chunk).
Proof.
  unfold RAGPipeline.store_chunk, RAGPipeline.embed.
  frame_steps ltac:(first [apply prepare_points_no_split | journal_grows_leaf]).
Qed.

(** Storing one document splits its text once. *)
Lemma store_document_splits_once (self : RAGPipeline.t) (doc_data : RawDocument)
    (w w' : world) :
  RAGPipeline.store_document self doc_data w = (Ok tt, w') ->
  exists text cs,
    content doc_data = VStr text
    /\ w_calls w' = w_calls w ++ SplitText text :: cs
    /\ forallb not_split cs = true
    /\ w_ext w' = w_ext w.
Proof.
  unfold RAGPipeline.store_document, RAGPipeline.split.
  destruct (content doc_data) as [| | | |text| |]; try discriminate.
  msimpl. unfold journal, ask. msimpl.
  match goal with
  | |- for_each_enumerate ?body 0 ?chunks ?w0 = _ -> _ =>
      pose proof (frame_for_each_enumerate (journal_grows not_split) body chunks
                    (store_chunk_no_split self doc_data) 0 w0) as (He & _ & cs & Hcs & HP)
  end.
  intros Hrun. rewrite Hrun in He, Hcs. simpl in He, Hcs.
  exists text, cs. rewrite Hcs, <- app_assoc. auto.
Qed.

Lemma filter_not_split (cs : list call) :
  forallb not_split cs = true -> List.filter is_split cs = [].
Proof.
  induction cs as [|c cs IH]; simpl; [reflexivity|].
  unfold not_split at 1. destruct (is_split c); simpl; [discriminate|exact IH].
Qed.

Lemma filter_split_texts (texts : list string) :
  List.filter is_split (SplitText <$> texts) = SplitText <$> texts.
Proof.
  induction texts as [|text texts IH]; [reflexivity|].
  rewrite fmap_cons. simpl. rewrite IH. reflexivity.
Qed.

(** The storing loop splits each document's text once, in order. *)
Lemma store_documents_split_once (self : RAGPipeline.t) (docs : list RawDocument) :
  forall w w',
    for_each (RAGPipeline.store_document self) docs w = (Ok tt, w') ->
    exists texts cs,
      content <$> docs = VStr <$> texts
      /\ w_calls w' = w_calls w ++ cs
      /\ List.filter is_split cs = SplitText <$> texts
      /\ w_ext w' = w_ext w.
Proof.
  induction docs as [|doc docs IH]; intros w w'; simpl.
  - intros [= <-]. exists [], []. rewrite app_nil_r. auto.
  - rewrite M_bind_unfold.
    destruct (RAGPipeline.store_document self doc w) as [[[]|e] w1] eqn:Hdoc; [|discriminate].
    intros Hrest.
    destruct (store_document_splits_once _ _ _ _ Hdoc) as (text & cs & Hc & Hcs & HP & He).
    destruct (IH _ _ Hrest) as (texts & cs' & Hcs' & Hcalls & Hf & He').
    exists (text :: texts), (SplitText text :: cs ++ cs'). repeat split.
    + rewrite !fmap_cons. f_equal; assumption.
    + rewrite Hcalls, Hcs, <- app_assoc. reflexivity.
    + simpl. rewrite List.filter_app, (filter_not_split cs HP), Hf. reflexivity.
    + congruence.
Qed.

Lemma set_calls_set_calls (c1 c2 : list call) (w : world) :
  set_calls c2 (set_calls c1 w) = set_calls c2 w.
Proof. reflexivity. Qed.


(** Counting the chunks splits each document's text once more. *)
Lemma count_chunks_splits (self : RAGPipeline.t) (docs : list RawDocument) :
  forall texts w,
    content <$> docs = VStr <$> texts ->
    RAGPipeline.count_chunks self docs w
    = (Ok (total_chunks self w texts),
       set_calls (w_calls w ++ (SplitText <$> texts)) w).
Proof.
  induction docs as [|doc docs IH]; intros [|text texts] w; simpl; try discriminate.
  - intros _. rewrite app_nil_r. destruct w; reflexivity.
  - intros [= Hc Hrest].
    unfold RAGPipeline.split. rewrite Hc. unfold journal, ask. msimpl.
    rewrite (IH texts _ Hrest). simpl.
    rewrite <- app_assoc. reflexivity.
Qed.

(** C4 on [ingest_directory]. Whenever the ingestion of a directory
    completes, the text of every loaded document went through
    [split_text] twice: once in the loop that embeds and stores its
    chunks, and once more, after that loop, to compute the reported
    total. *)
Theorem ingest_directory_splits_twice (self : RAGPipeline.t) (directory_path : string)
    (w w' : world) :
  RAGPipeline.ingest_directory self directory_path w = (Ok tt, w') ->
  exists docs texts cs,
    (load_directory (w_rt w) directory_path).1 = Ok docs
    /\ content <$> docs = VStr <$> texts
    /\ w_calls w' = w_calls w ++ cs
    /\ List.filter is_split cs = (SplitText <$> texts) ++ (SplitText <$> texts)
    /\ last (w_log w')
       = Some (LogRecord INFO
                 ("Ingested " +:+ pretty (total_chunks self w texts) +:+ " chunks from "
                  +:+ pretty (length docs) +:+ " documents")).
Proof.
  unfold RAGPipeline.ingest_directory. rewrite M_bind_unfold. simpl.
  rewrite M_bind_unfold. unfold run_loader at 1. simpl.
  destruct (load_directory (w_rt w) directory_path) as [[docs|e] l]; [|discriminate].
  rewrite M_bind_unfold.
  match goal with
  | |- context [for_each _ docs ?w0] =>
      destruct (for_each (RAGPipeline.store_document self) docs w0) as [[[]|e] w2] eqn:Hloop
  end; [|discriminate].
  destruct (store_documents_split_once _ _ _ _ Hloop) as (texts & cs & Hc & Hcs & Hf & He).
  rewrite M_bind_unfold, (count_chunks_splits self docs texts w2 Hc).
  unfold log. simpl. intros [= <-].
  exists docs, texts, (cs ++ (SplitText <$> texts)). simpl in *.
  repeat split.
  - exact Hc.
  - rewrite Hcs, app_assoc. reflexivity.
  - rewrite List.filter_app, Hf, filter_split_texts. reflexivity.
  - rewrite last_snoc. unfold total_chunks. rewrite He. reflexivity.
Qed.

(** The directory [docs] of the demo world, ingested into Qdrant. *)
Lemma ingest_directory_splits_twice_witness :
  exists docs texts cs,
    (load_directory (w_rt ingested_start) "docs").1 = Ok docs
    /\ content <$> docs = VStr <$> texts
    /\ w_calls ingested_end = w_calls ingested_start ++ cs
    /\ List.filter is_split cs = (SplitText <$> texts) ++ (SplitText <$> texts)
    /\ last (w_log ingested_end)
       = Some (LogRecord INFO
                 ("Ingested " +:+ pretty (total_chunks demo_pipeline ingested_start texts)
                  +:+ " chunks from " +:+ pretty (length docs) +:+ " documents")).
Proof.
  apply (ingest_directory_splits_twice demo_pipeline "docs" ingested_start ingested_end).
  run_by_evaluation.
Defined.

(** The failing input of C4: the journal of that ingestion, reduced to
    the calls of [split_text]. *)
Lemma ingest_directory_recomputes_total :
  List.filter is_split (drop (length (w_calls ingested_start)) (w_calls ingested_end))
  = [SplitText "alpha beta gamma"; SplitText "one two"; SplitText "three";
     SplitText "alpha beta gamma"; SplitText "one two"; SplitText "three"].
Proof. vm_compute. reflexivity. Qed.

(* ================================================================== *)
(** * Further properties of the document loader *)
(* ================================================================== *)

Lemma json_document_describes (rt : runtime) (p : string) (f : file) (doc : value)
    (tag : string * value) (d : RawDocument) :
  open_ (fs rt) p = Ok f ->
  supported (lower (suffix p)) = true ->
  json_document rt p f doc tag = Ok d -> describes rt p d.
Proof.
  intros Hf Hsup. unfold json_document, file_metadata, describes.
  destruct (py_len (element_content rt doc)) as [n|e] eqn:Hn; simpl; [|discriminate].
  intros [= <-]. simpl. repeat split; try assumption; eauto.
Qed.

Lemma documents_of_describes (rt : runtime) (file_path : string) :
  Forall (describes rt file_path) (documents_of rt file_path).
Proof.
  unfold documents_of, load_document.
  destruct (negb (exists_ (fs rt) file_path)); [constructor|].
  destruct (supported (lower (suffix file_path))) eqn:Hsup; [|constructor]. cbn [negb].
  destruct (String.eqb (lower (suffix file_path)) ".json").
  - rewrite W_bind_result. unfold _load_json. rewrite !W_bind_result. simpl.
    destruct (open_ (fs rt) file_path) as [f|e] eqn:Hf; [|constructor].
    destruct (json_value f) as [data|e]; [|constructor].
    destruct data; simpl;
      lazymatch goal with
      | |- context [for_enumerate ?g 0 ?l] =>
          destruct (for_enumerate g 0 l) as [ds|e] eqn:Hds; [|constructor];
          eapply for_enumerate_Forall; [|exact Hds];
          intros i x y; apply json_document_describes; assumption
      | |- _ =>
          repeat constructor; simpl; try assumption; eauto
      end.
  - rewrite W_bind_result. unfold DocumentLoader.lift at 1. simpl.
    destruct (if String.eqb (lower (suffix file_path)) ".txt" then _load_txt rt file_path
              else if String.eqb (lower (suffix file_path)) ".pdf"
                   then _load_pdf rt file_path
                   else _load_docx rt file_path) as [text|e]; [|constructor].
    destruct (open_ (fs rt) file_path) as [f|e] eqn:Hf; [|constructor].
    repeat constructor; simpl; try assumption; eauto.
Qed.

(** Every document [load_document] returns, for a text file or for an
    element of a JSON file, names the file it came from by the path the
    loader holds ([str(path)]), carries the lower-cased suffix, which
    is a supported one, the size of the file, and as [character_count]
    the length of its own content; and every document [load_directory]
    returns is described in this way by one of the names [iterdir]
    lists for the directory, an immediate entry that is a regular file
    with a supported suffix. *)
Theorem load_document_metadata (rt : runtime) (file_path directory_path : string) :
  Forall (describes rt file_path) (documents_of rt file_path)
  /\ (forall docs,
        (load_directory rt directory_path).1 = Ok docs ->
        exists names,
          fs rt !! directory_path = Some (NDir names)
          /\ Forall (fun d => exists name,
                               name ∈ names
                               /\ eligible rt (joinpath directory_path name) = true
                               /\ describes rt (joinpath directory_path name) d)
                    docs).
Proof.
  split; [apply documents_of_describes|].
  unfold load_directory. destruct (negb (exists_ (fs rt) directory_path)); [discriminate|].
  unfold iterdir. destruct (fs rt !! directory_path) as [[f|names]|]; try discriminate.
  simpl.
  destruct (load_directory_loop_spec rt (joinpath directory_path <$> names) []) as [Hd _].
  destruct (load_directory_loop rt [] (joinpath directory_path <$> names)) as [docs' l].
  simpl in *. subst docs'. intros docs [= <-]. exists names. split; [reflexivity|].
  apply Forall_concat, Forall_fmap, Forall_forall. intros q Hq.
  apply list_elem_of_In, filter_In in Hq. destruct Hq as [Hin Hel].
  apply list_elem_of_In, list_elem_of_fmap in Hin. destruct Hin as [name [-> Hname]].
  eapply Forall_impl; [apply documents_of_describes|].
  simpl. intros d Hdesc. exists name. auto.
Qed.

(** [load_directory] returns a list exactly when the path is a
    directory: a missing path raises [FileNotFoundError], a path that
    is not a directory makes [iterdir] raise [NotADirectoryError], and
    no failure of a file inside a directory ever reaches the caller. *)
Theorem load_directory_outcome (rt : runtime) (directory_path : string) :
  (load_directory rt directory_path).1
  = match fs rt !! directory_path with
    | None =>
        Raise (Exn FileNotFoundError ("Directory not found: " +:+ directory_path))
    | Some (NFile _) =>
        Raise (Exn NotADirectoryError ("Not a directory: " +:+ directory_path))
    | Some (NDir names) =>
        Ok (concat (documents_of rt
                      <$> List.filter (eligible rt) (joinpath directory_path <$> names)))
    end.
Proof.
  unfold load_directory, exists_, iterdir.
  destruct (fs rt !! directory_path) as [[f|names]|]; try reflexivity.
  simpl.
  destruct (load_directory_loop_spec rt (joinpath directory_path <$> names) []) as [Hd _].
  destruct (load_directory_loop rt [] (joinpath directory_path <$> names)) as [docs l].
  simpl in *. rewrite Hd. reflexivity.
Qed.

(** ** Stripped text *)

Lemma rstrip_rstrip (s : string) : rstrip (rstrip s) = rstrip s.
Proof.
  induction s as [|c r IH]; [reflexivity|]. simpl.
  destruct (rstrip r) as [|c' r'] eqn:Hr.
  - destruct (is_space c) eqn:Hc; simpl; [reflexivity|]. rewrite Hc. reflexivity.
  - simpl. simpl in IH. destruct (rstrip r') as [|c'' r''] eqn:Hr'.
    + destruct (is_space c') eqn:Hc'; [discriminate|]. rewrite IH. reflexivity.
    + rewrite IH. reflexivity.
Qed.

Lemma lstrip_clean (s : string) :
  lstrip s = EmptyString \/ exists c r, lstrip s = String c r /\ is_space c = false.
Proof.
  induction s as [|c r IH]; [left; reflexivity|]. simpl.
  destruct (is_space c) eqn:Hc; [exact IH|]. right. eauto.
Qed.

Lemma lstrip_rstrip_clean (c : ascii) (r : string) :
  is_space c = false -> lstrip (rstrip (String c r)) = rstrip (String c r).
Proof.
  intros Hc. simpl. destruct (rstrip r); rewrite ?Hc; simpl; rewrite Hc; reflexivity.
Qed.

Lemma strip_strip (s : string) : strip (strip s) = strip s.
Proof.
  unfold strip. destruct (lstrip_clean s) as [->|(c & r & -> & Hc)]; [reflexivity|].
  rewrite lstrip_rstrip_clean by exact Hc. apply rstrip_rstrip.
Qed.

(** The PDF and the DOCX loader return text without leading or trailing
    whitespace; every failure of the extraction, whatever its class,
    surfaces as a bare [Exception] whose message starts with
    ["Error reading PDF file: "] (or DOCX), and only a missing package
    is reported as [ImportError]. *)
Theorem extraction_outcomes (rt : runtime) (file_path : string) :
  match _load_pdf rt file_path with
  | Ok text => strip text = text
  | Raise e => extraction_error "PDF" e /\ (exn_type e = ImportError -> have_PyPDF2 rt = false)
  end
  /\ match _load_docx rt file_path with
     | Ok text => strip text = text
     | Raise e => extraction_error "DOCX" e /\ (exn_type e = ImportError -> have_docx rt = false)
     end.
Proof.
  unfold _load_pdf, _load_docx, extraction_error. split.
  - destruct (have_PyPDF2 rt); simpl; [|split; auto].
    destruct (open_ (fs rt) file_path ≫= pdf_pages) as [pages|e].
    + apply strip_strip.
    + simpl. split; [right; eauto|discriminate].
  - destruct (have_docx rt); simpl; [|split; auto].
    destruct (open_ (fs rt) file_path ≫= docx_paragraphs) as [pars|e].
    + apply strip_strip.
    + simpl. split; [right; eauto|discriminate].
Qed.

(* ================================================================== *)
(** * Record identifiers, previews and stored metadata *)
(* ================================================================== *)

Lemma dict_set_lookup_ne (d : pydict) (k k' : string) (v : value) :
  k <> k' -> dict_lookup (dict_set d k v) k' = dict_lookup d k'.
Proof.
  intros Hne. induction d as [|[k0 v0] d IH]; simpl.
  - destruct (String.eqb_spec k k'); [contradiction|reflexivity].
  - destruct (String.eqb_spec k0 k) as [->|Hk0]; simpl.
    + destruct (String.eqb_spec k k'); [contradiction|reflexivity].
    + destruct (String.eqb k0 k'); [reflexivity|exact IH].
Qed.

Lemma append_inj_r (s a b : string) : s +:+ a = s +:+ b -> a = b.
Proof. induction s as [|c s IH]; simpl; [auto|]. intros [= H]. auto. Qed.

(** Chunk [i] of a document is stored under the id made of the
    document's file name and [i]; for a document that came out of
    [load_document] this is the last component of the path followed by
    [_chunk_i]. So the chunks of one document have pairwise different
    ids, while the elements of one JSON file, and files of the same
    name in different directories, share theirs. *)
Theorem chunk_ids_by_file_name (rt : runtime) :
  (forall (self : RAGPipeline.t) doc_data i chunk w,
      RAGPipeline.store_chunk self doc_data i chunk w
      = match RAGPipeline.embed self chunk w with
        | (Raise e, w1) => (Raise e, w1)
        | (Ok embedding, w1) =>
            match record_id (w_rt w1) doc_data i with
            | None => (Raise (Exn KeyError "'filename'"), w1)
            | Some id =>
                VectorDB.add_documents (RAGPipeline.vector_db self) [embedding] [chunk]
                  [dict_update (metadata doc_data)
                     [("chunk_id", VInt (Z.of_nat i)); ("chunk_text", VStr (preview chunk))]]
                  [id] w1
            end
        end)
  /\ (forall rt' file_path d i,
         d ∈ documents_of rt' file_path ->
         record_id rt d i = Some (path_name file_path +:+ "_chunk_" +:+ pretty i))
  /\ (forall doc_data i j, is_Some (record_id rt doc_data i) ->
         record_id rt doc_data i = record_id rt doc_data j -> i = j).
Proof.
  split; [|split].
  - intros self doc_data i chunk w. unfold RAGPipeline.store_chunk, record_id.
    rewrite M_bind_unfold.
    destruct (RAGPipeline.embed self chunk w) as [[embedding|e] w1]; [|reflexivity].
    unfold dict_update. simpl.
    rewrite !dict_set_lookup_ne by discriminate.
    destruct (dict_lookup (metadata doc_data) "filename"); reflexivity.
  - intros rt' file_path d i Hd.
    pose proof (documents_of_describes rt' file_path) as Hall.
    rewrite Forall_forall in Hall. destruct (Hall d Hd) as (Hname & _).
    unfold record_id. rewrite Hname. reflexivity.
  - intros doc_data i j. unfold record_id, RAGPipeline.chunk_record_id.
    destruct (dict_lookup (metadata doc_data) "filename") as [filename|];
      [|intros [? [=]]].
    intros _ [= H]. apply append_inj_r in H. simpl in H.
    apply (append_inj_r "_chunk_") in H. apply (inj pretty) in H. exact H.
Qed.

Lemma chunk_ids_by_file_name_witness :
  (forall d i, d ∈ documents_of Demo.rt "docs/b.json" ->
      record_id Demo.rt d i = Some ("b.json" +:+ "_chunk_" +:+ pretty i))
  /\ length (documents_of Demo.rt "docs/b.json") = 2.
Proof.
  split; [|reflexivity].
  intros d i Hd.
  apply (proj1 (proj2 (chunk_ids_by_file_name Demo.rt)) Demo.rt "docs/b.json" d i Hd).
Defined.

(** ** Previews *)

Lemma substring_0_length (n : nat) (s : string) :
  String.length (String.substring 0 n s) = Nat.min n (String.length s).
Proof.
  revert s. induction n as [|n IH]; intros [|c s]; simpl; try reflexivity.
  rewrite IH. reflexivity.
Qed.

Lemma length_append (a b : string) :
  String.length (a +:+ b) = String.length a + String.length b.
Proof. induction a as [|c a IH]; simpl; [reflexivity|]. rewrite IH. reflexivity. Qed.

Lemma substring_0_prefix (n : nat) (s : string) :
  exists rest, s = String.substring 0 n s +:+ rest.
Proof.
  revert s. induction n as [|n IH]; intros [|c s]; simpl; try (eexists; reflexivity).
  destruct (IH s) as [rest Hrest]. exists rest.
  change (String c s = String c (String.substring 0 n s +:+ rest)).
  f_equal. exact Hrest.
Qed.

(** The preview kept as [chunk_text]: a text of at most 200 characters
    is kept whole; a longer one is cut to its first 200 characters
    followed by three dots, so a preview never exceeds 203 characters. *)
Theorem preview_bound (document : string) :
  String.length (preview document) <= 203
  /\ (String.length document <= 200 -> preview document = document)
  /\ (200 < String.length document ->
      String.length (preview document) = 203
      /\ exists head rest, preview document = head +:+ "..."
                           /\ document = head +:+ rest
                           /\ String.length head = 200).
Proof.
  unfold preview, str_prefix.
  destruct (Nat.ltb_spec 200 (String.length document)) as [Hlong|Hshort].
  - assert (String.length (String.substring 0 200 document) = 200) as Hhead.
    { rewrite substring_0_length. lia. }
    split; [|split].
    + rewrite length_append, Hhead. simpl. lia.
    + lia.
    + intros _. split; [rewrite length_append, Hhead; reflexivity|].
      destruct (substring_0_prefix 200 document) as [rest Hrest].
      exists (String.substring 0 200 document), rest. auto.
  - split; [lia|]. split; [reflexivity|lia].
Qed.

(** ** What survives in a stored payload *)

Lemma dict_lookup_None (d : pydict) (k : string) :
  k ∉ fst <$> d -> dict_lookup d k = None.
Proof.
  induction d as [|[k0 v0] d IH]; simpl; [reflexivity|].
  intros Hk. apply not_elem_of_cons in Hk. destruct Hk as [Hne Hk].
  destruct (String.eqb_spec k0 k) as [->|_]; [contradiction|]. apply IH, Hk.
Qed.

(** What the Qdrant and the Weaviate adapter store and give back. The
    document text comes back from the payload's ["content"]; the
    metadata rebuilt by a query has exactly the seven payload keys,
    each with the value the caller's metadata had for it; every other
    key of the caller's metadata, such as [json_index] or [json_key],
    is gone. *)
Theorem payload_round_trip (i : nat) (document : string) (md : pydict) :
  dict_get_default (native_metadata i document md) "content" (VStr "") = VStr document
  /\ exists d,
       result_metadata (native_metadata i document md) = VDict d
       /\ fst <$> d = payload_keys
       /\ (forall k v, k ∈ payload_keys -> dict_lookup md k = Some v ->
                       dict_lookup d k = Some v)
       /\ (forall k, k ∉ payload_keys -> dict_lookup d k = None).
Proof.
  split; [reflexivity|]. eexists. split; [reflexivity|]. split; [reflexivity|]. split.
  - intros k v Hk Hv. unfold payload_keys in Hk.
    repeat (apply elem_of_cons in Hk; destruct Hk as [->|Hk]);
      try (unfold native_metadata, dict_get_default; simpl; rewrite Hv; reflexivity).
    inversion Hk.
  - intros k Hk. apply dict_lookup_None. exact Hk.
Qed.

(* ================================================================== *)
(** * Further properties of the adapters *)
(* ================================================================== *)





(** The Weaviate adapter hands the id it is given to the client as the
    object's uuid. When the client takes it for a uuid, the record is
    stored under the canonical form the client gives it, with the
    properties built from its metadata and its embedding as vector;
    every other object is left as it was, and an add under a uuid
    already stored replaces the object and leaves the count as it was.
    When the client does not take it for a uuid (the pipeline's own
    ids, [<file>_chunk_<i>], are no uuids), the call raises the
    client's exception, after logging it, and nothing is stored. *)
Theorem weaviate_stores_under_valid_uuid (h : WeaviateVectorDB.t) (embedding : list float)
    (document : string) (md : pydict) (doc_id : string) (w : world)
    (s : gmap string weaviate_class) (c : weaviate_class) :
  w_weaviate w !! WeaviateVectorDB.url h = Some s ->
  s !! WeaviateVectorDB.class_name h = Some c ->
  (forall uuid,
      weaviate_valid_uuid (w_ext w) doc_id = Ok uuid ->
      exists w' s' c',
        WeaviateVectorDB.add_documents h [embedding] [document] [md] [doc_id] w = (Ok tt, w')
        /\ w_weaviate w' !! WeaviateVectorDB.url h = Some s'
        /\ s' !! WeaviateVectorDB.class_name h = Some c'
        /\ wc_objects c' !! uuid
           = Some (WeaviateObject (native_metadata 0 document md) embedding)
        /\ (forall other, other <> uuid -> wc_objects c' !! other = wc_objects c !! other)
        /\ (is_Some (wc_objects c !! uuid) -> size (wc_objects c') = size (wc_objects c)))
  /\ (forall e,
        weaviate_valid_uuid (w_ext w) doc_id = Raise e ->
        exists w',
          WeaviateVectorDB.add_documents h [embedding] [document] [md] [doc_id] w
          = (Raise e, w')
          /\ w_weaviate w' = w_weaviate w
          /\ last (w_log w')
             = Some (LogRecord ERROR ("Error adding documents to Weaviate: " +:+ exn_msg e))).
Proof.
  intros Hs Hc. split.
  - intros uuid Hid.
    destruct (weaviate_for_each_Ok h
                (WeaviateVectorDB.batch_data [embedding] [document] [md] [doc_id]) w s c Hs Hc)
      as (w' & s' & Hrun & Hs' & Hc' & _).
    { simpl. unfold weaviate_accepts. rewrite Hid. reflexivity. }
    eexists w', s', _. split; [|split; [exact Hs'|split; [exact Hc'|]]].
    + unfold WeaviateVectorDB.add_documents. apply try_except_Ok. exact Hrun.
    + simpl. rewrite Hid. simpl. split; [apply lookup_insert_eq|]. split.
      * intros other Hne. apply lookup_insert_ne. congruence.
      * intros Ho. apply map_size_insert_Some. exact Ho.
  - intros e Hid.
    unfold WeaviateVectorDB.add_documents, try_except, WeaviateVectorDB.add_data_object,
      journal, ask, lift, log, reraise.
    msimpl. rewrite Hid. msimpl. eexists. split; [reflexivity|]. simpl.
    split; [reflexivity|apply last_snoc].
Qed.

(** The object stored under [Demo.id7] is replaced, and the pipeline's
    id of a chunk is refused. *)
Lemma weaviate_stores_under_valid_uuid_witness :
  size (wc_objects one_stored_class) = 1
  /\ (exists w' (s' : gmap string weaviate_class) c',
         WeaviateVectorDB.add_documents Demo.weaviate [Demo.e2] ["beta"] [Demo.a_txt]
           [Demo.id7] one_stored = (Ok tt, w')
         /\ s' !! "Document" = Some c'
         /\ wc_objects c' !! Demo.id7
            = Some (WeaviateObject (native_metadata 0 "beta" Demo.a_txt) Demo.e2)
         /\ size (wc_objects c') = 1)
  /\ is_ok (WeaviateVectorDB.add_documents Demo.weaviate [Demo.e1] ["alpha"] [Demo.a_txt]
              ["a.txt_chunk_0"] one_stored).1 = false.
Proof.
  split; [vm_compute; reflexivity|]. split.
  - destruct (weaviate_stores_under_valid_uuid Demo.weaviate Demo.e2 "beta" Demo.a_txt
                Demo.id7 one_stored
                (default ∅ (w_weaviate one_stored !! "http://localhost:8080"))
                one_stored_class) as [Hok _];
      [vm_compute; reflexivity|vm_compute; reflexivity|].
    destruct (Hok Demo.id7) as (w' & s' & c' & Hrun & _ & Hc' & Hp & _ & Hsize);
      [vm_compute; reflexivity|].
    exists w', s', c'. split; [exact Hrun|]. split; [exact Hc'|]. split; [exact Hp|].
    rewrite Hsize; [vm_compute; reflexivity|]. vm_compute. eauto.
  - destruct (weaviate_stores_under_valid_uuid Demo.weaviate Demo.e1 "alpha" Demo.a_txt
                "a.txt_chunk_0" one_stored
                (default ∅ (w_weaviate one_stored !! "http://localhost:8080"))
                one_stored_class) as [_ Hbad];
      [vm_compute; reflexivity|vm_compute; reflexivity|].
    destruct (Hbad (Exn ValueError
                      "Not valid 'uuid' or 'uuid' can not be extracted from value"))
      as (w' & Hrun & _); [vm_compute; reflexivity|].
    rewrite Hrun. reflexivity.
Defined.

Lemma result_rows_ids (items : list pydict) :
  forall w rows w',
    map_M WeaviateVectorDB.result_row items w = (Ok rows, w') ->
    (fun r : value * value * value * value => r.2) <$> rows
    = fresh_ids w (w_drawn w) (length items)
    /\ w_drawn w' = w_drawn w + length items
    /\ w_entropy w' = w_entropy w.
Proof.
  induction items as [|item items IH]; intros w rows w'; simpl.
  - intros [= <- <-]. repeat split. lia.
  - rewrite M_bind_unfold. unfold WeaviateVectorDB.result_row at 1.
    destruct (dict_lookup item "content") as [document|]; [|discriminate].
    unfold uuid4. msimpl.
    match goal with
    | |- context [map_M WeaviateVectorDB.result_row items ?w1] =>
        destruct (map_M WeaviateVectorDB.result_row items w1) as [[rows'|e] w2] eqn:Hrows
    end; [|discriminate].
    intros [= <- <-]. destruct (IH _ _ _ Hrows) as (Hids & Hdrawn & Hent).
    simpl in *. repeat split.
    + change (list_fmap _ _ (fun r : value * value * value * value => r.2) rows')
        with ((fun r : value * value * value * value => r.2) <$> rows').
      rewrite Hids. unfold fresh_ids.
      change (seq 0 (S (length items))) with (0 :: seq 1 (length items)).
      rewrite fmap_cons, Nat.add_0_r. f_equal.
      rewrite <- (fmap_S_seq 0), <- list_fmap_compose.
      apply list_fmap_ext. intros _ j _. simpl. do 4 f_equal. lia.
    + lia.
    + exact Hent.
Qed.

(** The ids in the result of a Weaviate query are not those the objects
    were stored under: each item gets a new [uuid.uuid4()], so the list
    of ids is determined by the random bytes drawn during the query and
    by nothing else. *)
Theorem weaviate_query_ids_are_fresh (h : WeaviateVectorDB.t) (q : list float) (n : Z)
    (w w' : world) (results : pydict) :
  WeaviateVectorDB.query h [q] n w = (Ok results, w') ->
  exists k docs,
    w_drawn w' = w_drawn w + k
    /\ dict_get results "documents" = VList [VList docs]
    /\ length docs = k
    /\ dict_get results "ids" = VList [VList (fresh_ids w (w_drawn w) k)]
    /\ k <= Z.to_nat n.
Proof.
  unfold WeaviateVectorDB.query, try_except, WeaviateVectorDB.query_get,
    WeaviateVectorDB.server, first_embedding, journal, ask, raise, reraise, log, lift.
  msimpl.
  destruct (w_weaviate w !! WeaviateVectorDB.url h) as [s|]; msimpl; [|discriminate].
  destruct (s !! WeaviateVectorDB.class_name h) as [c|]; msimpl.
  - match goal with
    | |- context [map_M WeaviateVectorDB.result_row ?items ?w0] =>
        destruct (map_M WeaviateVectorDB.result_row items w0) as [[rows|e] w1] eqn:Hrows
    end; [|discriminate].
    destruct (result_rows_ids _ _ _ _ Hrows) as (Hids & Hdrawn & _).
    pose proof (map_M_length _ _ _ _ _ Hrows) as Hlen.
    simpl in Hids, Hdrawn. rewrite length_fmap in Hids, Hdrawn, Hlen.
    intros [= <- <-]. eexists _, _. split; [exact Hdrawn|].
    split; [reflexivity|]. split; [rewrite length_fmap; exact Hlen|].
    split; [|rewrite length_take; lia].
    unfold result_dict, dict_get. simpl. rewrite Hids. reflexivity.
  - intros [= <- <-]. exists 0, []. simpl. repeat split; lia.
Qed.

(* ================================================================== *)
(** * The factory and the adapters' bookkeeping *)
(* ================================================================== *)

Lemma get_collection_info_live (db : VectorDB.VectorDBInterface) (w : world) :
  exists info,
    (VectorDB.get_collection_info db w).1 = Ok info
    /\ dict_get_default info "count" (VInt 0)
       = VInt (Z.of_nat (default 0 (live_count db w)))
    /\ dict_get_default info "provider" (VStr "unknown") = VStr (provider_name db)
    /\ (live_count db w = None ->
        exists msg, last (w_log (VectorDB.get_collection_info db w).2)
                    = Some (LogRecord ERROR msg)).
Proof.
  destruct db as [h|h|h]; simpl.
  - unfold ChromaDBVectorDB.get_collection_info, try_except,
      ChromaDBVectorDB.lookup_collection, journal, ask, raise, log.
    msimpl.
    destruct (w_chroma w !! (ChromaDBVectorDB.path h, ChromaDBVectorDB.collection_name h))
      as [c|]; simpl; eexists; repeat split; try discriminate.
    intros _. rewrite last_snoc. eauto.
  - unfold WeaviateVectorDB.get_collection_info, try_except, WeaviateVectorDB.server,
      journal, ask, raise, log.
    msimpl.
    destruct (w_weaviate w !! WeaviateVectorDB.url h) as [s|]; msimpl.
    + destruct (s !! WeaviateVectorDB.class_name h) as [c|]; msimpl;
        eexists; repeat split; try discriminate.
      intros _. rewrite last_snoc. eauto.
    + eexists; repeat split. intros _. rewrite last_snoc. eauto.
  - unfold QdrantVectorDB.get_collection_info, try_except, QdrantVectorDB.collection,
      QdrantVectorDB.server, journal, ask, raise, log.
    msimpl.
    destruct (w_qdrant w !! QdrantVectorDB.url h) as [s|]; msimpl.
    + destruct (s !! QdrantVectorDB.collection_name h) as [c|]; msimpl;
        eexists; repeat split; try discriminate.
      intros _. rewrite last_snoc. eauto.
    + eexists; repeat split. intros _. rewrite last_snoc. eauto.
Qed.

(** [get_collection_stats] never raises and changes nothing on the
    servers. Its [total_documents] is the number of records the server
    holds at the time of the call, and 0, with an ERROR record in the
    log, when the server cannot be reached or the collection does not
    exist; its [provider] is the adapter's. *)
Theorem get_collection_stats_is_live (self : RAGPipeline.t) (w : world) :
  exists stats,
    (RAGPipeline.get_collection_stats self w).1 = Ok stats
    /\ only_calls reads_count w (RAGPipeline.get_collection_stats self w).2
    /\ dict_get stats "total_documents"
       = VInt (Z.of_nat (default 0 (live_count (RAGPipeline.vector_db self) w)))
    /\ dict_get stats "provider" = VStr (provider_name (RAGPipeline.vector_db self))
    /\ (live_count (RAGPipeline.vector_db self) w = None ->
        exists msg, last (w_log (RAGPipeline.get_collection_stats self w).2)
                    = Some (LogRecord ERROR msg)).
Proof.
  set (db := RAGPipeline.vector_db self).
  destruct (get_collection_info_live db w) as (info & Hinfo & Hcount & Hprov & Hlog).
  pose proof (get_collection_info_reads db w) as Hreads.
  unfold RAGPipeline.get_collection_stats. rewrite M_bind_unfold. fold db.
  destruct (VectorDB.get_collection_info db w) as [r w1]. simpl in *. subst r.
  eexists. split; [reflexivity|]. simpl.
  repeat split; try apply Hreads; assumption.
Qed.


Lemma logged_and_reraised {A} (body : M A) (prefix : string) (w w' : world) (e : exn) :
  try_except body (fun e => log ERROR (prefix +:+ exn_msg e);; reraise e) w = (Raise e, w') ->
  exists w0, body w = (Raise e, w0)
             /\ w' = set_log (w_log w0 ++ [LogRecord ERROR (prefix +:+ exn_msg e)]) w0.
Proof.
  unfold try_except. destruct (body w) as [[a|e0] w0]; [discriminate|].
  unfold log, reraise. msimpl. intros [= <- <-]. eauto.
Qed.

(** When [add_documents] or [query] of an adapter raises, the last
    record of the log is an ERROR record that names the adapter and
    carries the message of the exception raised. *)
Theorem adapter_failures_are_logged (db : VectorDB.VectorDBInterface) :
  (forall embeddings documents metadatas ids w e w',
      VectorDB.add_documents db embeddings documents metadatas ids w = (Raise e, w') ->
      last (w_log w')
      = Some (LogRecord ERROR ("Error adding documents to " +:+ adapter_name db +:+ ": "
                               +:+ exn_msg e)))
  /\ (forall query_embeddings n_results w e w',
         VectorDB.query db query_embeddings n_results w = (Raise e, w') ->
         last (w_log w')
         = Some (LogRecord ERROR ("Error querying " +:+ adapter_name db +:+ ": "
                                  +:+ exn_msg e))).
Proof.
  split.
  - intros embeddings documents metadatas ids w e w' H.
    destruct db as [h|h|h]; simpl in H;
      apply logged_and_reraised in H; destruct H as (w0 & _ & ->);
      simpl; apply last_snoc.
  - intros query_embeddings n_results w e w' H.
    destruct db as [h|h|h]; simpl in H;
      apply logged_and_reraised in H; destruct H as (w0 & _ & ->);
      simpl; apply last_snoc.
Qed.

Lemma bind_raise_l {A B} (t : exc_type) (msg : string) (f : A -> M B) (w : world) :
  (raise t msg ≫= f) w = (Raise (Exn t msg), w).
Proof. reflexivity. Qed.

Lemma fmap_Ok_inv {A B} (g : A -> B) (m : M A) (w w' : world) (b : B) :
  (g <$> m) w = (Ok b, w') -> exists a, m w = (Ok a, w') /\ b = g a.
Proof.
  unfold fmap, M_fmap. destruct (m w) as [[a|e] w1]; [|discriminate].
  intros [= <- <-]. eauto.
Qed.



(** ** Constructing an adapter twice *)

Lemma chroma_init_again (config : value) (w w1 : world) (h : ChromaDBVectorDB.t) :
  ChromaDBVectorDB.__init__ config w = (Ok h, w1) ->
  is_Some (live_count (VectorDB.ChromaDB h) w1)
  /\ exists w2, ChromaDBVectorDB.__init__ config w1 = (Ok h, w2) /\ same_servers w1 w2.
Proof.
  unfold ChromaDBVectorDB.__init__, ChromaDBVectorDB.get_or_create_collection,
    ChromaDBVectorDB.put_collection, lift, journal, ask, log.
  destruct (cfg_get config "path" (VStr "./data/vectors") ≫= expect_str) as [p|e];
    msimpl; [|discriminate].
  destruct (cfg_get config "collection_name" (VStr "documents") ≫= expect_str) as [name|e];
    msimpl; [|discriminate].
  destruct (cfg_get config "distance_metric" (VStr "cosine")) as [metric|e];
    msimpl; [|discriminate].
  destruct (w_chroma w !! (p, name)) as [c|] eqn:Hc; msimpl.
  - intros [= <- <-]. simpl. rewrite Hc. msimpl. split; [eauto|].
    eexists. split; [reflexivity|]. repeat split.
  - intros [= <- <-]. simpl. rewrite lookup_insert_eq. msimpl. split; [eauto|].
    eexists. split; [reflexivity|]. repeat split.
Qed.

Lemma weaviate_init_again (config : value) (w w1 : world) (h : WeaviateVectorDB.t) :
  WeaviateVectorDB.__init__ config w = (Ok h, w1) ->
  is_Some (live_count (VectorDB.Weaviate h) w1)
  /\ exists w2, WeaviateVectorDB.__init__ config w1 = (Ok h, w2) /\ same_servers w1 w2.
Proof.
  unfold WeaviateVectorDB.__init__, WeaviateVectorDB._create_schema, try_except,
    WeaviateVectorDB.server, WeaviateVectorDB.put_server, lift, journal, ask, log,
    raise, reraise.
  destruct (cfg_get config "url" (VStr "http://localhost:8080") ≫= expect_str) as [u|e];
    msimpl; [|discriminate].
  destruct (cfg_get config "api_key" VNone) as [key|e]; msimpl; [|discriminate].
  destruct (cfg_get config "class_name" (VStr "Document") ≫= expect_str) as [name|e];
    msimpl; [|discriminate].
  destruct (cfg_get config "distance_metric" (VStr "cosine")) as [metric|e];
    msimpl; [|discriminate].
  destruct (w_weaviate w !! u) as [s|] eqn:Hs; msimpl; [|discriminate].
  destruct (s !! name) as [c|] eqn:Hc; msimpl.
  - intros [= <- <-]. simpl. rewrite Hs. msimpl. rewrite Hc. msimpl. split; [eauto|].
    eexists. split; [reflexivity|]. repeat split.
  - intros [= <- <-]. simpl. rewrite lookup_insert_eq. msimpl.
    rewrite lookup_insert_eq. msimpl. split; [eauto|].
    eexists. split; [reflexivity|]. repeat split.
Qed.

Lemma qdrant_init_again (config : value) (w w1 : world) (h : QdrantVectorDB.t) :
  QdrantVectorDB.__init__ config w = (Ok h, w1) ->
  is_Some (live_count (VectorDB.Qdrant h) w1)
  /\ exists w2, QdrantVectorDB.__init__ config w1 = (Ok h, w2) /\ same_servers w1 w2.
Proof.
  unfold QdrantVectorDB.__init__, QdrantVectorDB._create_collection, try_except,
    QdrantVectorDB.server, QdrantVectorDB.put_server, lift, journal, ask, log,
    raise, reraise.
  destruct (cfg_get config "qdrant_url" VNone) as [qurl|e]; msimpl; [|discriminate].
  destruct (if truthy qurl then Ok qurl
            else cfg_get config "url" (VStr "http://localhost:6333")) as [u0|e];
    msimpl; [|discriminate].
  destruct (cfg_get config "qdrant_api_key" VNone) as [qkey|e]; msimpl; [|discriminate].
  destruct (if truthy qkey then Ok qkey else cfg_get config "api_key" VNone) as [key|e];
    msimpl; [|discriminate].
  destruct (expect_str u0) as [u|e]; msimpl; [|discriminate].
  destruct (cfg_get config "collection_name" (VStr "documents") ≫= expect_str) as [name|e];
    msimpl; [|discriminate].
  destruct (cfg_get config "distance_metric" (VStr "cosine")) as [metric|e];
    msimpl; [|discriminate].
  destruct (cfg_get config "vector_size" (VInt 384)) as [size|e]; msimpl; [|discriminate].
  destruct (w_qdrant w !! u) as [s|] eqn:Hs; msimpl; [|discriminate].
  destruct (s !! name) as [c|] eqn:Hc; msimpl.
  - intros [= <- <-]. simpl. rewrite Hs. msimpl. rewrite Hc. msimpl. split; [eauto|].
    eexists. split; [reflexivity|]. repeat split.
  - destruct (QdrantVectorDB.distance_mapping metric) as [distance|e]; msimpl;
      [|discriminate].
    intros [= <- <-]. simpl. rewrite lookup_insert_eq. msimpl.
    rewrite lookup_insert_eq. msimpl. split; [eauto|].
    eexists. split; [reflexivity|]. repeat split.
Qed.

(** Constructing an adapter is idempotent. Once [create_vector_db] has
    returned an adapter, its collection exists, and calling the factory
    again with the same configuration returns an adapter for the same
    collection without creating, changing or deleting anything on any
    server: the records already stored stay. *)
Theorem create_vector_db_reuses_collection (config : value) (w w1 : world)
    (db : VectorDB.VectorDBInterface) :
  VectorDB.create_vector_db config w = (Ok db, w1) ->
  is_Some (live_count db w1)
  /\ exists w2,
       VectorDB.create_vector_db config w1 = (Ok db, w2)
       /\ same_servers w1 w2
       /\ live_count db w2 = live_count db w1.
Proof.
  intros Hrun.
  assert (is_Some (live_count db w1)
          /\ exists w2, VectorDB.create_vector_db config w1 = (Ok db, w2)
                        /\ same_servers w1 w2) as (Hlive & w2 & Hagain & Hsame).
  { revert Hrun. unfold VectorDB.create_vector_db. rewrite !M_bind_unfold. unfold lift.
    destruct (cfg_get config "provider" (VStr "chromadb")) as [[| | | |p| |]|e];
      cbn beta iota; try discriminate.
    destruct (String.eqb (lower p) "chromadb").
    { intros H. apply fmap_Ok_inv in H. destruct H as (h & H & ->).
      destruct (chroma_init_again _ _ _ _ H) as (Hl & w2 & H2 & Hs).
      split; [exact Hl|]. exists w2. unfold fmap, M_fmap. rewrite H2. auto. }
    destruct (String.eqb (lower p) "weaviate").
    { intros H. apply fmap_Ok_inv in H. destruct H as (h & H & ->).
      destruct (weaviate_init_again _ _ _ _ H) as (Hl & w2 & H2 & Hs).
      split; [exact Hl|]. exists w2. unfold fmap, M_fmap. rewrite H2. auto. }
    destruct (String.eqb (lower p) "qdrant"); [|discriminate].
    intros H. apply fmap_Ok_inv in H. destruct H as (h & H & ->).
    destruct (qdrant_init_again _ _ _ _ H) as (Hl & w2 & H2 & Hs).
    split; [exact Hl|]. exists w2. unfold fmap, M_fmap. rewrite H2. auto. }
  split; [exact Hlive|]. exists w2. split; [exact Hagain|]. split; [exact Hsame|].
  destruct Hsame as (Hc & Hw & Hq).
  unfold live_count. rewrite Hc, Hw, Hq. reflexivity.
Qed.

(** One object is stored under [Demo.id7]; the query returns it under
    the first identifier drawn. *)
Lemma weaviate_query_ids_are_fresh_witness :
  dict_get one_stored_results "ids" <> VList [VList [VStr Demo.id7]]
  /\ exists k docs,
       w_drawn (WeaviateVectorDB.query Demo.weaviate [Demo.e1] 5 one_stored).2
       = w_drawn one_stored + k
       /\ dict_get one_stored_results "documents" = VList [VList docs]
       /\ length docs = k
       /\ dict_get one_stored_results "ids"
          = VList [VList (fresh_ids one_stored (w_drawn one_stored) k)]
       /\ k <= Z.to_nat 5.
Proof.
  split; [vm_compute; discriminate|].
  apply (weaviate_query_ids_are_fresh Demo.weaviate Demo.e1 5 one_stored).
  run_by_evaluation.
Defined.


(** The factory is called twice on the Qdrant configuration. *)
Lemma create_vector_db_reuses_collection_witness :
  is_Some (live_count (VectorDB.Qdrant Demo.qdrant)
             (VectorDB.create_vector_db (Demo.db_config "qdrant") Demo.w0).2)
  /\ exists w2,
       VectorDB.create_vector_db (Demo.db_config "qdrant")
         (VectorDB.create_vector_db (Demo.db_config "qdrant") Demo.w0).2
       = (Ok (VectorDB.Qdrant Demo.qdrant), w2)
       /\ same_servers (VectorDB.create_vector_db (Demo.db_config "qdrant") Demo.w0).2 w2
       /\ live_count (VectorDB.Qdrant Demo.qdrant) w2
          = live_count (VectorDB.Qdrant Demo.qdrant)
              (VectorDB.create_vector_db (Demo.db_config "qdrant") Demo.w0).2.
Proof.
  apply (create_vector_db_reuses_collection (Demo.db_config "qdrant") Demo.w0).
  run_by_evaluation.
Defined.

(* ================================================================== *)
(** * Ingesting one file *)
(* ================================================================== *)

Lemma prepare_points_clients (batch : list (list float * string * pydict * string)) :
  forall i, frame (journal_grows is_client_call) (QdrantVectorDB.prepare_points i batch).
Proof.
  induction batch as [|[[[e d] md] doc_id] rest IH]; intros i; simpl.
  - frame_steps journal_grows_leaf.
  - frame_steps journal_grows_leaf. apply IH.
Qed.

Lemma add_documents_clients (db : VectorDB.VectorDBInterface)
    (embeddings : list (list float)) (documents : list string)
    (metadatas : list pydict) (ids : list string) :
  frame (journal_grows is_client_call)
        (VectorDB.add_documents db embeddings documents metadatas ids).
Proof.
  destruct db; simpl;
    frame_steps ltac:(first [apply prepare_points_clients | journal_grows_leaf]).
Qed.

Lemma filter_clients (cs : list call) :
  forallb is_client_call cs = true -> List.filter is_model_call cs = [].
Proof.
  induction cs as [|c cs IH]; simpl; [reflexivity|].
  unfold is_model_call at 1. destruct (is_client_call c); simpl; [exact IH|discriminate].
Qed.

(** Storing one chunk asks for one embedding, that of the chunk. *)
Lemma store_chunk_embeds_once (self : RAGPipeline.t) (doc_data : RawDocument) (i : nat)
    (chunk : string) (w w' : world) :
  RAGPipeline.store_chunk self doc_data i chunk w = (Ok tt, w') ->
  exists cs,
    w_calls w' = w_calls w ++ EmbedQuery chunk :: cs
    /\ forallb is_client_call cs = true
    /\ w_ext w' = w_ext w.
Proof.
  unfold RAGPipeline.store_chunk, RAGPipeline.embed, journal, ask, lift. msimpl.
  destruct (embed_query (w_ext w) (RAGPipeline.embeddings self) chunk) as [embedding|e];
    msimpl; [|discriminate].
  match goal with
  | |- context [dict_lookup ?md "filename"] => destruct (dict_lookup md "filename")
  end; [|discriminate].
  msimpl.
  match goal with
  | |- VectorDB.add_documents ?db ?es ?ds ?ms ?ks ?w0 = _ -> _ =>
      pose proof (add_documents_clients db es ds ms ks w0) as (He & _ & cs & Hcs & HP)
  end.
  intros Hrun. rewrite Hrun in He, Hcs. simpl in He, Hcs.
  exists cs. rewrite Hcs, <- app_assoc. auto.
Qed.

Lemma store_chunks_embed_each (self : RAGPipeline.t) (doc_data : RawDocument)
    (chunks : list string) :
  forall i w w',
    for_each_enumerate (RAGPipeline.store_chunk self doc_data) i chunks w = (Ok tt, w') ->
    exists cs,
      w_calls w' = w_calls w ++ cs
      /\ List.filter is_model_call cs = EmbedQuery <$> chunks
      /\ w_ext w' = w_ext w.
Proof.
  induction chunks as [|chunk chunks IH]; intros i w w'; simpl.
  - intros [= <-]. exists []. rewrite app_nil_r. auto.
  - rewrite M_bind_unfold.
    destruct (RAGPipeline.store_chunk self doc_data i chunk w) as [[[]|e] w1] eqn:Hchunk;
      [|discriminate].
    intros Hrest.
    destruct (store_chunk_embeds_once _ _ _ _ _ _ Hchunk) as (cs & Hcs & HP & He).
    destruct (IH _ _ _ Hrest) as (cs' & Hcs' & Hf & He').
    exists (EmbedQuery chunk :: cs ++ cs'). repeat split.
    + rewrite Hcs', Hcs, <- app_assoc. reflexivity.
    + simpl. rewrite List.filter_app, (filter_clients cs HP), Hf. reflexivity.
    + congruence.
Qed.

(** [_process_single_document] returns the chunks the splitter made of
    the document's text, having split it once and embedded each chunk
    once. *)
Lemma _process_single_document_calls (self : RAGPipeline.t) (doc_data : RawDocument)
    (w w' : world) (chunks : list string) :
  RAGPipeline._process_single_document self doc_data w = (Ok chunks, w') ->
  exists text cs,
    content doc_data = VStr text
    /\ chunks = split_text (w_ext w) (RAGPipeline.text_splitter self) text
    /\ w_calls w' = w_calls w ++ cs
    /\ List.filter is_model_call cs = model_calls self w text
    /\ w_ext w' = w_ext w.
Proof.
  unfold RAGPipeline._process_single_document, RAGPipeline.split.
  destruct (content doc_data) as [| | | |text| |]; try discriminate.
  msimpl. unfold journal, ask. msimpl.
  match goal with
  | |- context [for_each_enumerate ?body 0 ?cks ?w0] =>
      destruct (for_each_enumerate body 0 cks w0) as [[[]|e] w1] eqn:Hloop
  end; [|discriminate].
  intros [= <- <-].
  destruct (store_chunks_embed_each _ _ _ _ _ _ Hloop) as (cs & Hcs & Hf & He).
  simpl in Hcs, He.
  exists text, (SplitText text :: cs). repeat split.
  - rewrite Hcs, <- app_assoc. reflexivity.
  - simpl. rewrite Hf. reflexivity.
  - exact He.
Qed.

Lemma total_chunks_ext (self : RAGPipeline.t) (w w' : world) (texts : list string) :
  w_ext w' = w_ext w -> total_chunks self w' texts = total_chunks self w texts.
Proof. intros H. unfold total_chunks. rewrite H. reflexivity. Qed.

Lemma model_calls_ext (self : RAGPipeline.t) (w w' : world) (text : string) :
  w_ext w' = w_ext w -> model_calls self w' text = model_calls self w text.
Proof. intros H. unfold model_calls. rewrite H. reflexivity. Qed.

(** The loop of [ingest_document] over the documents of a JSON file. *)
Lemma process_all_calls (self : RAGPipeline.t) (docs : list RawDocument) :
  forall total w w' n,
    RAGPipeline.process_all self total docs w = (Ok n, w') ->
    exists texts cs,
      content <$> docs = VStr <$> texts
      /\ n = total + total_chunks self w texts
      /\ w_calls w' = w_calls w ++ cs
      /\ List.filter is_model_call cs = texts ≫= model_calls self w
      /\ w_ext w' = w_ext w.
Proof.
  induction docs as [|doc docs IH]; intros total w w' n; simpl.
  - intros [= <- <-]. exists [], []. rewrite app_nil_r. simpl. repeat split. lia.
  - rewrite M_bind_unfold.
    destruct (RAGPipeline._process_single_document self doc w) as [[chunks|e] w1] eqn:Hdoc;
      [|discriminate].
    intros Hrest.
    destruct (_process_single_document_calls _ _ _ _ _ Hdoc)
      as (text & cs & Hc & Hchunks & Hcs & Hf & He).
    destruct (IH _ _ _ _ Hrest) as (texts & cs' & Hc' & Hn & Hcs' & Hf' & He').
    exists (text :: texts), (cs ++ cs'). repeat split.
    + rewrite !fmap_cons. f_equal; assumption.
    + rewrite Hn, (total_chunks_ext self w w1 texts He), Hchunks. simpl. lia.
    + rewrite Hcs', Hcs, <- app_assoc. reflexivity.
    + rewrite List.filter_app, Hf, Hf'. rewrite bind_cons. f_equal.
      apply list_bind_ext; [|reflexivity]. intros t. apply model_calls_ext, He.
    + congruence.
Qed.

(** When the ingestion of one file completes, the text of every
    document loaded from it went through [split_text] exactly once,
    each chunk was embedded exactly once, in order, and the number of
    chunks in the last log record is the number of chunks stored. (The
    ingestion of a directory splits every text a second time.) *)
Theorem ingest_document_calls (self : RAGPipeline.t) (file_path : string)
    (w w' : world) :
  RAGPipeline.ingest_document self file_path w = (Ok tt, w') ->
  exists texts cs,
    is_ok (load_document (w_rt w) file_path).1 = true
    /\ content <$> documents_of (w_rt w) file_path = VStr <$> texts
    /\ w_calls w' = w_calls w ++ cs
    /\ List.filter is_model_call cs = texts ≫= model_calls self w
    /\ last (w_log w')
       = Some (LogRecord INFO
                 ("Ingested " +:+ pretty (total_chunks self w texts) +:+ " chunks from "
                  +:+ file_path)).
Proof.
  unfold RAGPipeline.ingest_document, documents_of. rewrite M_bind_unfold. simpl.
  rewrite M_bind_unfold. unfold run_loader at 1. simpl.
  destruct (load_document (w_rt w) file_path) as [[[doc|docs]|e] l]; [| |discriminate];
    rewrite M_bind_unfold; simpl.
  - match goal with
    | |- context [RAGPipeline._process_single_document self doc ?w0] =>
        destruct (RAGPipeline._process_single_document self doc w0)
          as [[chunks|e] w1] eqn:Hdoc
    end; [|discriminate].
    destruct (_process_single_document_calls _ _ _ _ _ Hdoc)
      as (text & cs & Hc & Hchunks & Hcs & Hf & He).
    unfold log. intros [= <-]. simpl in *.
    exists [text], cs. repeat split.
    + rewrite Hc. reflexivity.
    + exact Hcs.
    + rewrite Hf. simpl. rewrite app_nil_r. reflexivity.
    + rewrite last_snoc. simpl. rewrite Nat.add_0_r, Hchunks. reflexivity.
  - match goal with
    | |- context [RAGPipeline.process_all self 0 docs ?w0] =>
        destruct (RAGPipeline.process_all self 0 docs w0) as [[n|e] w1] eqn:Hall
    end; [|discriminate].
    destruct (process_all_calls _ _ _ _ _ _ Hall) as (texts & cs & Hc & Hn & Hcs & Hf & He).
    unfold log. intros [= <-]. simpl in *.
    exists texts, cs. repeat split; try assumption.
    rewrite last_snoc, Hn. reflexivity.
Qed.

(** The JSON file of the demo directory, ingested into Qdrant. *)
Lemma ingest_document_calls_witness :
  exists texts cs,
    is_ok (load_document (w_rt ingested_start) "docs/b.json").1 = true
    /\ content <$> documents_of (w_rt ingested_start) "docs/b.json" = VStr <$> texts
    /\ w_calls (RAGPipeline.ingest_document demo_pipeline "docs/b.json" ingested_start).2
       = w_calls ingested_start ++ cs
    /\ List.filter is_model_call cs = texts ≫= model_calls demo_pipeline ingested_start
    /\ last (w_log (RAGPipeline.ingest_document demo_pipeline "docs/b.json"
                      ingested_start).2)
       = Some (LogRecord INFO
                 ("Ingested " +:+ pretty (total_chunks demo_pipeline ingested_start texts)
                  +:+ " chunks from " +:+ "docs/b.json")).
Proof.
  apply (ingest_document_calls demo_pipeline "docs/b.json" ingested_start).
  run_by_evaluation.
Defined.

(* ================================================================== *)
(** * Retrieval and generation *)
(* ================================================================== *)

Lemma drop_lookup {A} (l : list A) (i : nat) (x : A) :
  l !! i = Some x -> drop i l = x :: drop (S i) l.
Proof.
  revert i. induction l as [|y l IH]; intros [|i]; simpl; try discriminate.
  - intros [= ->]. rewrite drop_0. reflexivity.
  - apply IH.
Qed.

Lemma format_result_at (results : pydict) (ds mds dists : list value) (i : nat) :
  dict_get results "documents" = VList [VList ds] ->
  dict_get results "metadatas" = VList [VList mds] ->
  dict_get results "distances" = VList [VList dists] ->
  length mds = length ds ->
  length dists = length ds ->
  RAGPipeline.format_result results i
  = match ds !! i, mds !! i, dists !! i with
    | Some d, Some m, Some x => Ok (RAGPipeline.Retrieved d m x)
    | _, _, _ => Raise (Exn IndexError "list index out of range")
    end.
Proof.
  intros Hd Hm Hx Hlm Hlx. unfold RAGPipeline.format_result. rewrite Hd, Hm, Hx.
  destruct (ds !! i) as [d|] eqn:Hdi.
  - destruct (lookup_lt_is_Some_2 mds i) as [m Hmi];
      [rewrite Hlm; eapply lookup_lt_Some, Hdi|].
    destruct (lookup_lt_is_Some_2 dists i) as [x Hxi];
      [rewrite Hlx; eapply lookup_lt_Some, Hdi|].
    rewrite Hmi, Hxi. destruct dists as [|x0 t]; [discriminate|].
    simpl in *. rewrite Hdi, Hmi. simpl. rewrite Hxi. reflexivity.
  - simpl. rewrite Hdi. reflexivity.
Qed.

(** The loop of [retrieve_documents] pairs the three lists of the
    backend's answer position by position. *)
Lemma format_results_columns (results : pydict) (ds mds dists : list value) :
  dict_get results "documents" = VList [VList ds] ->
  dict_get results "metadatas" = VList [VList mds] ->
  dict_get results "distances" = VList [VList dists] ->
  length mds = length ds ->
  length dists = length ds ->
  forall n i l,
    RAGPipeline.format_results results i n = Ok l ->
    RAGPipeline.r_content <$> l = take n (drop i ds)
    /\ RAGPipeline.r_metadata <$> l = take n (drop i mds)
    /\ RAGPipeline.r_distance <$> l = take n (drop i dists).
Proof.
  intros Hd Hm Hx Hlm Hlx. induction n as [|n IH]; intros i l; simpl.
  - intros [= <-]. auto.
  - rewrite (format_result_at _ _ _ _ i Hd Hm Hx Hlm Hlx).
    destruct (ds !! i) as [d|] eqn:Hdi; [|discriminate].
    destruct (mds !! i) as [m|] eqn:Hmi; [|discriminate].
    destruct (dists !! i) as [x|] eqn:Hxi; [|discriminate].
    simpl.
    destruct (RAGPipeline.format_results results (S i) n) as [l'|e] eqn:Hrest; simpl;
      [|discriminate].
    intros [= <-]. destruct (IH _ _ Hrest) as (H1 & H2 & H3).
    rewrite !fmap_cons, H1, H2, H3. simpl.
    rewrite (drop_lookup _ _ _ Hdi), (drop_lookup _ _ _ Hmi), (drop_lookup _ _ _ Hxi).
    auto.
Qed.

(** A well-shaped answer never takes the early [return []]. *)
Lemma well_shaped_has_results (n : Z) (results : pydict) :
  well_shaped n results -> RAGPipeline.no_results results = false.
Proof.
  intros (ds & mds & dists & Hd & Hm & Hx & _ & _ & _ & Hne).
  unfold RAGPipeline.no_results. rewrite Hd, Hm, Hx.
  destruct results; [congruence|reflexivity].
Qed.

Lemma retrieve_documents_hits (self : RAGPipeline.t) (query : string)
    (w w' : world) (docs : list RAGPipeline.retrieved) :
  RAGPipeline.retrieve_documents self query w = (Ok docs, w') ->
  exists q n w1 results,
    embed_query (w_ext w) (RAGPipeline.embeddings self) query = Ok q
    /\ w_calls w1 = w_calls w ++ [EmbedQuery query]
    /\ VectorDB.query (RAGPipeline.vector_db self) [q] n w1 = (Ok results, w')
    /\ dict_get results "documents" = VList [VList (RAGPipeline.r_content <$> docs)]
    /\ dict_get results "metadatas" = VList [VList (RAGPipeline.r_metadata <$> docs)]
    /\ dict_get results "distances" = VList [VList (RAGPipeline.r_distance <$> docs)].
Proof.
  unfold RAGPipeline.retrieve_documents. rewrite M_bind_unfold. simpl.
  rewrite M_bind_unfold. unfold lift at 1.
  destruct (ConfigLoader.get_retrieval_config (RAGPipeline.config self)) as [cfg|e];
    [|discriminate].
  rewrite M_bind_unfold. unfold RAGPipeline.embed, journal, ask, lift at 1. msimpl.
  destruct (embed_query (w_ext w) (RAGPipeline.embeddings self) query) as [q|e] eqn:Hq;
    msimpl; [|discriminate].
  unfold lift at 1.
  destruct (RAGPipeline.max_results cfg) as [k|e]; msimpl; [|discriminate].
  match goal with
  | |- context [VectorDB.query ?db [q] k ?w1] =>
      destruct (VectorDB.query db [q] k w1) as [[results|e] w2] eqn:Hrun;
        [|discriminate]
  end.
  pose proof (query_shape _ _ _ _ _ _ Hrun) as Hshape.
  rewrite (well_shaped_has_results _ _ Hshape).
  destruct Hshape as (ds & mds & dists & Hd & Hm & Hx & Hlm & Hlx & _ & _).
  unfold lift. rewrite Hd. simpl.
  destruct (RAGPipeline.format_results results 0 (length ds)) as [l|e] eqn:Hf;
    [|discriminate].
  intros [= <- <-].
  destruct (format_results_columns _ _ _ _ Hd Hm Hx Hlm Hlx _ _ _ Hf) as (H1 & H2 & H3).
  rewrite drop_0 in H1, H2, H3.
  rewrite firstn_all in H1. rewrite <- Hlm, firstn_all in H2. rewrite <- Hlx, firstn_all in H3.
  rewrite H1, H2, H3.
  eexists q, k, _, results. split; [reflexivity|]. split; [|split; [exact Hrun|auto]].
  reflexivity.
Qed.

(** [retrieve_documents] embeds the query once and returns exactly the
    hits of the backend's answer, in the backend's order: entry [i]
    holds the [i]-th document, the [i]-th metadata dictionary and the
    [i]-th distance. Nothing is filtered, re-ranked or dropped, on any
    of the three adapters, and there are at most [n_results] entries. *)
Theorem retrieve_documents_returns_hits (self : RAGPipeline.t) (query : string)
    (w w' : world) (docs : list RAGPipeline.retrieved) :
  RAGPipeline.retrieve_documents self query w = (Ok docs, w') ->
  exists q n w1 results,
    embed_query (w_ext w) (RAGPipeline.embeddings self) query = Ok q
    /\ w_calls w1 = w_calls w ++ [EmbedQuery query]
    /\ VectorDB.query (RAGPipeline.vector_db self) [q] n w1 = (Ok results, w')
    /\ dict_get results "documents" = VList [VList (RAGPipeline.r_content <$> docs)]
    /\ dict_get results "metadatas" = VList [VList (RAGPipeline.r_metadata <$> docs)]
    /\ dict_get results "distances" = VList [VList (RAGPipeline.r_distance <$> docs)]
    /\ length docs <= Z.to_nat n.
Proof.
  intros Hret.
  destruct (retrieve_documents_hits _ _ _ _ _ Hret)
    as (q & n & w1 & results & Hq & Hcalls & Hrun & Hd & Hm & Hx).
  exists q, n, w1, results. repeat split; try assumption.
  destruct (query_shape _ _ _ _ _ _ Hrun) as (ds & _ & _ & Hd' & _ & _ & _ & _ & Hle & _).
  rewrite Hd in Hd'. injection Hd' as <-. rewrite length_fmap in Hle. exact Hle.
Qed.

(** The retrieval of the demo pipeline after [docs] was ingested. *)
Lemma retrieve_documents_returns_hits_witness :
  length demo_docs = 2
  /\ exists q n w1 results,
       embed_query (w_ext (log INFO ("Processing query: " +:+ "what") ingested.2).2)
         (RAGPipeline.embeddings demo_pipeline) "what" = Ok q
       /\ w_calls w1
          = w_calls (log INFO ("Processing query: " +:+ "what") ingested.2).2
            ++ [EmbedQuery "what"]
       /\ VectorDB.query (RAGPipeline.vector_db demo_pipeline) [q] n w1
          = (Ok results, demo_retrieval.2)
       /\ dict_get results "documents" = VList [VList (RAGPipeline.r_content <$> demo_docs)]
       /\ dict_get results "metadatas" = VList [VList (RAGPipeline.r_metadata <$> demo_docs)]
       /\ dict_get results "distances" = VList [VList (RAGPipeline.r_distance <$> demo_docs)]
       /\ length demo_docs <= Z.to_nat n.
Proof.
  split; [vm_compute; reflexivity|].
  apply (retrieve_documents_returns_hits demo_pipeline "what").
  run_by_evaluation.
Defined.

Lemma query_clients (db : VectorDB.VectorDBInterface) (query_embeddings : list (list float))
    (n_results : Z) :
  frame (journal_grows is_client_call) (VectorDB.query db query_embeddings n_results).
Proof.
  destruct db; simpl; frame_steps journal_grows_leaf.
Qed.

(** The strings [str.join] accepts. *)
Lemma contents_Ok (docs : list RAGPipeline.retrieved) (parts : list string) :
  RAGPipeline.contents docs = Ok parts <-> RAGPipeline.r_content <$> docs = VStr <$> parts.
Proof.
  revert parts. induction docs as [|d docs IH]; intros parts; simpl.
  - split; [intros [= <-]; reflexivity|]. destruct parts; [reflexivity|discriminate].
  - destruct (RAGPipeline.r_content d) as [| | | |s| |] eqn:Hd;
      try (split; [discriminate|destruct parts; discriminate]).
    destruct (RAGPipeline.contents docs) as [rest|e] eqn:Hrest; simpl.
    + split.
      * intros [= <-]. rewrite fmap_cons. f_equal. apply IH. reflexivity.
      * destruct parts as [|p parts]; [discriminate|]. rewrite fmap_cons.
        intros [= -> Hparts]. apply IH in Hparts. congruence.
    + split; [discriminate|].
      destruct parts as [|p parts]; [discriminate|]. rewrite fmap_cons.
      intros [= _ Hparts]. apply IH in Hparts. discriminate.
Qed.

Lemma contents_Raise (docs : list RAGPipeline.retrieved) (e : exn) :
  RAGPipeline.contents docs = Raise e -> exn_type e = TypeError.
Proof.
  induction docs as [|d docs IH]; simpl; [discriminate|].
  destruct (RAGPipeline.r_content d); try (intros [= <-]; reflexivity).
  destruct (RAGPipeline.contents docs); simpl; [discriminate|].
  intros [= <-]. apply IH. reflexivity.
Qed.

Lemma generate_response_Ok (self : RAGPipeline.t) (query : string)
    (docs : list RAGPipeline.retrieved) (w w' : world) (answer : string) :
  RAGPipeline.generate_response self query docs w = (Ok answer, w') ->
  exists parts reply,
    RAGPipeline.r_content <$> docs = VStr <$> parts
    /\ w_calls w'
       = w_calls w
         ++ [LLMInvoke (RAGPipeline.system_prompt (join (newline +:+ newline) parts)) query]
    /\ llm_invoke (w_ext w) (RAGPipeline.llm self)
         (RAGPipeline.system_prompt (join (newline +:+ newline) parts)) query = Ok reply
    /\ answer = reply_text reply
    /\ w_ext w' = w_ext w.
Proof.
  unfold RAGPipeline.generate_response, log, journal, ask. msimpl. unfold lift at 1.
  destruct (RAGPipeline.contents docs) as [parts|e] eqn:Hparts; msimpl; [|discriminate].
  unfold lift.
  match goal with
  | |- context [llm_invoke ?x ?l ?s ?q] => destruct (llm_invoke x l s q) as [reply|e] eqn:Hr
  end; msimpl; [|discriminate].
  intros Hrun. exists parts, reply. split; [apply contents_Ok, Hparts|].
  destruct reply; inversion Hrun; subst; simpl; auto.
Qed.

(** [generate_response] sends the model exactly one request: the system
    prompt built around the retrieved contents joined by blank lines,
    and the question unchanged; what it returns is the text of the
    model's reply. When a retrieved content is not a string the join
    fails with [TypeError] and the model is not called at all. *)
Theorem generate_response_invokes_once (self : RAGPipeline.t) (query : string)
    (docs : list RAGPipeline.retrieved) (w : world) :
  (forall answer w',
      RAGPipeline.generate_response self query docs w = (Ok answer, w') ->
      exists parts reply,
        RAGPipeline.r_content <$> docs = VStr <$> parts
        /\ w_calls w'
           = w_calls w
             ++ [LLMInvoke (RAGPipeline.system_prompt (join (newline +:+ newline) parts))
                   query]
        /\ llm_invoke (w_ext w) (RAGPipeline.llm self)
             (RAGPipeline.system_prompt (join (newline +:+ newline) parts)) query
           = Ok reply
        /\ answer = reply_text reply)
  /\ ((forall parts, RAGPipeline.r_content <$> docs <> VStr <$> parts) ->
      exists e,
        (RAGPipeline.generate_response self query docs w).1 = Raise e
        /\ exn_type e = TypeError
        /\ w_calls (RAGPipeline.generate_response self query docs w).2 = w_calls w).
Proof.
  split.
  - intros answer w' Hrun.
    destruct (generate_response_Ok _ _ _ _ _ _ Hrun) as (parts & reply & ? & ? & ? & ? & _).
    eauto 10.
  - intros Hnot. unfold RAGPipeline.generate_response, log. msimpl. unfold lift at 1.
    destruct (RAGPipeline.contents docs) as [parts|e] eqn:Hparts.
    + apply contents_Ok in Hparts. destruct (Hnot parts Hparts).
    + exists e. simpl. split; [reflexivity|]. split; [|reflexivity].
      eapply contents_Raise, Hparts.
Qed.

#[export] Instance same_servers_preorder : PreOrder same_servers.
Proof.
  split.
  - intros w. repeat split.
  - intros w1 w2 w3 (? & ? & ?) (? & ? & ?). repeat split; congruence.
Qed.

Ltac same_servers_leaf :=
  first
    [ progress autounfold with model
    | match goal with
      | |- frame same_servers ?m =>
          let w := fresh "w" in
          intros w;
          first [ repeat split; reflexivity
                | unfold log, journal, uuid4, run_loader, modify; simpl;
                  repeat match goal with
                         | |- context [let '(_, _) := ?x in _] => destruct x
                         end;
                  repeat split; reflexivity ]
      end ].

(** A search reads the servers and leaves them as they are. *)
Lemma query_same_servers (db : VectorDB.VectorDBInterface)
    (query_embeddings : list (list float)) (n_results : Z) :
  frame same_servers (VectorDB.query db query_embeddings n_results).
Proof.
  destruct db; simpl; frame_steps same_servers_leaf.
Qed.

Lemma result_rows_silent (items : list pydict) (w : world) :
  w_calls (map_M WeaviateVectorDB.result_row items w).2 = w_calls w.
Proof.
  assert (frame (journal_grows (fun _ => false)) (map_M WeaviateVectorDB.result_row items))
    as H by frame_steps journal_grows_leaf.
  destruct (H w) as (_ & _ & cs & Hcs & HP).
  destruct cs; [rewrite app_nil_r in Hcs; exact Hcs|discriminate].
Qed.

(** A search that returns is one call to the client. *)
Lemma query_journal (db : VectorDB.VectorDBInterface) (q : list float) (n : Z)
    (w w' : world) (results : pydict) :
  VectorDB.query db [q] n w = (Ok results, w') ->
  w_calls w' = w_calls w ++ [search_call db].
Proof.
  destruct db as [h|h|h]; simpl.
  - unfold ChromaDBVectorDB.query, try_except, ChromaDBVectorDB.collection_query,
      ChromaDBVectorDB.lookup_collection, journal, ask, raise, reraise, log.
    msimpl.
    destruct (w_chroma w !! (ChromaDBVectorDB.path h, ChromaDBVectorDB.collection_name h))
      as [c|]; msimpl; [|discriminate].
    intros [= _ <-]. reflexivity.
  - unfold WeaviateVectorDB.query, try_except, WeaviateVectorDB.query_get,
      WeaviateVectorDB.server, first_embedding, journal, ask, raise, reraise, log, lift.
    msimpl.
    destruct (w_weaviate w !! WeaviateVectorDB.url h) as [s|]; msimpl; [|discriminate].
    destruct (s !! WeaviateVectorDB.class_name h) as [c|]; msimpl.
    + match goal with
      | |- context [map_M WeaviateVectorDB.result_row ?items ?w0] =>
          pose proof (result_rows_silent items w0) as Hsilent;
          destruct (map_M WeaviateVectorDB.result_row items w0) as [[rows|e] w1]
      end; [|discriminate].
      intros [= _ <-]. exact Hsilent.
    + intros [= _ <-]. reflexivity.
  - unfold QdrantVectorDB.query, try_except, QdrantVectorDB.search,
      QdrantVectorDB.collection, QdrantVectorDB.server, first_embedding,
      journal, ask, raise, reraise, log, lift.
    msimpl.
    destruct (w_qdrant w !! QdrantVectorDB.url h) as [s|]; msimpl; [|discriminate].
    destruct (s !! QdrantVectorDB.collection_name h) as [c|]; msimpl; [|discriminate].
    intros [= _ <-]. reflexivity.
Qed.

Lemma retrieve_documents_same_servers (self : RAGPipeline.t) (query : string) :
  frame same_servers (RAGPipeline.retrieve_documents self query).
Proof.
  unfold RAGPipeline.retrieve_documents, RAGPipeline.embed.
  frame_steps ltac:(first [apply query_same_servers | same_servers_leaf]).
Qed.

Lemma generate_response_same_servers (self : RAGPipeline.t) (query : string)
    (docs : list RAGPipeline.retrieved) :
  frame same_servers (RAGPipeline.generate_response self query docs).
Proof.
  unfold RAGPipeline.generate_response. frame_steps same_servers_leaf.
Qed.

(** What answering one question costs and does. The calls into library
    code are exactly three, in this order: one embedding request, for
    the question; one search of the vector database, the client call of
    the configured adapter; one request to the language model, with the
    question unchanged and a context made of the contents of the
    returned [retrieved_documents]. Nothing on the servers changes. *)
Theorem query_calls (self : RAGPipeline.t) (question : string) (w w' : world)
    (result : RAGPipeline.query_result) :
  RAGPipeline.query self question w = (Ok result, w') ->
  exists parts,
    RAGPipeline.r_content <$> RAGPipeline.retrieved_documents result = VStr <$> parts
    /\ RAGPipeline.num_sources result = length parts
    /\ RAGPipeline.question result = question
    /\ w_calls w'
       = w_calls w
         ++ [EmbedQuery question;
             search_call (RAGPipeline.vector_db self);
             LLMInvoke (RAGPipeline.system_prompt (join (newline +:+ newline) parts))
               question]
    /\ same_servers w w'.
Proof.
  unfold RAGPipeline.query. rewrite M_bind_unfold. simpl. rewrite M_bind_unfold.
  match goal with
  | |- context [RAGPipeline.retrieve_documents self question ?w0] =>
      pose proof (retrieve_documents_same_servers self question w0) as Hsame1;
      destruct (RAGPipeline.retrieve_documents self question w0) as [[docs|e] w1] eqn:Hret
  end; [|discriminate].
  rewrite M_bind_unfold.
  pose proof (generate_response_same_servers self question docs w1) as Hsame2.
  destruct (RAGPipeline.generate_response self question docs w1) as [[answer|e] w2] eqn:Hgen;
    [|discriminate].
  unfold log. msimpl. intros [= <- <-]. simpl.
  destruct (retrieve_documents_hits _ _ _ _ _ Hret)
    as (q & n & w0 & results & _ & Hcalls0 & Hquery & _).
  pose proof (query_journal _ _ _ _ _ _ Hquery) as Hcs.
  simpl in Hcs, Hcalls0.
  destruct (generate_response_Ok _ _ _ _ _ _ Hgen) as (parts & reply & Hparts & Hcalls & _).
  exists parts. split; [exact Hparts|]. split; [|split; [reflexivity|split]].
  - rewrite <- (length_fmap RAGPipeline.r_content), Hparts, length_fmap. reflexivity.
  - rewrite Hcalls, Hcs, Hcalls0, <- !app_assoc. reflexivity.
  - unfold same_servers in *. simpl in *.
    destruct Hsame1 as (? & ? & ?), Hsame2 as (? & ? & ?). repeat split; congruence.
Qed.

(** The question put to the demo pipeline, on Qdrant, after [docs] was
    ingested. *)
Lemma query_calls_witness :
  exists parts,
    RAGPipeline.r_content <$> demo_docs = VStr <$> parts
    /\ length demo_docs = length parts
    /\ RAGPipeline.question
         (RAGPipeline.QueryResult "what" "answer" demo_docs (length demo_docs)) = "what"
    /\ w_calls (RAGPipeline.query demo_pipeline "what" ingested.2).2
       = w_calls ingested.2
         ++ [EmbedQuery "what";
             search_call (RAGPipeline.vector_db demo_pipeline);
             LLMInvoke (RAGPipeline.system_prompt (join (newline +:+ newline) parts))
               "what"]
    /\ same_servers ingested.2 (RAGPipeline.query demo_pipeline "what" ingested.2).2.
Proof.
  apply (query_calls demo_pipeline "what" ingested.2
           (RAGPipeline.query demo_pipeline "what" ingested.2).2
           (RAGPipeline.QueryResult "what" "answer" demo_docs (length demo_docs))).
  run_by_evaluation.
Defined.

(* ================================================================== *)
(** * The configuration *)
(* ================================================================== *)

Lemma split_dot_nonempty (key : string) : ConfigLoader.split_dot key <> [].
Proof.
  destruct key as [|c rest]; simpl; [discriminate|].
  destruct (Ascii.eqb c "."); [discriminate|].
  destruct (ConfigLoader.split_dot rest); discriminate.
Qed.

Lemma split_dot_parts (key : string) :
  forallb dot_free (ConfigLoader.split_dot key) = true.
Proof.
  induction key as [|c rest IH]; simpl; [reflexivity|].
  destruct (Ascii.eqb c ".") eqn:Hc; simpl; [exact IH|].
  destruct (ConfigLoader.split_dot rest) as [|part parts]; simpl in *; rewrite Hc; auto.
Qed.

Lemma join_split_dot (key : string) : join "." (ConfigLoader.split_dot key) = key.
Proof.
  induction key as [|c rest IH]; simpl; [reflexivity|].
  destruct (Ascii.eqb_spec c ".") as [->|_].
  - pose proof (split_dot_nonempty rest) as Hne.
    destruct (ConfigLoader.split_dot rest) as [|part parts]; [congruence|].
    change (join "." ("" :: part :: parts)) with ("." +:+ join "." (part :: parts)).
    rewrite IH. reflexivity.
  - pose proof (split_dot_nonempty rest) as Hne.
    destruct (ConfigLoader.split_dot rest) as [|part parts]; [congruence|].
    rewrite <- IH. destruct parts; reflexivity.
Qed.

Lemma split_dot_part (part : string) :
  dot_free part = true -> ConfigLoader.split_dot part = [part].
Proof.
  induction part as [|c rest IH]; simpl; [reflexivity|].
  destruct (Ascii.eqb c "."); simpl; [discriminate|].
  intros H. rewrite (IH H). reflexivity.
Qed.

Lemma split_dot_cons (part rest : string) :
  dot_free part = true ->
  ConfigLoader.split_dot (part +:+ "." +:+ rest) = part :: ConfigLoader.split_dot rest.
Proof.
  induction part as [|c part IH]; simpl; [reflexivity|].
  destruct (Ascii.eqb c "."); simpl; [discriminate|].
  intros H. rewrite (IH H). reflexivity.
Qed.

Lemma split_dot_join (parts : list string) :
  parts <> [] -> forallb dot_free parts = true ->
  ConfigLoader.split_dot (join "." parts) = parts.
Proof.
  induction parts as [|part parts IH]; [congruence|]. intros _. simpl forallb.
  intros [Hp Hps]%andb_prop.
  destruct parts as [|part' parts].
  - apply split_dot_part, Hp.
  - change (join "." (part :: part' :: parts))
      with (part +:+ "." +:+ join "." (part' :: parts)).
    rewrite (split_dot_cons _ _ Hp), IH; [reflexivity|discriminate|exact Hps].
Qed.

Lemma dict_lookup_dotted (d : pydict) (part : string) :
  forallb (fun kv : string * value => negb (dot_free kv.1)) d = true ->
  dot_free part = true -> dict_lookup d part = None.
Proof.
  intros Hd Hpart. induction d as [|[k v] d IH]; simpl in *; [reflexivity|].
  apply andb_prop in Hd. destruct Hd as [Hk Hd].
  destruct (String.eqb_spec k part) as [->|_]; [|exact (IH Hd)].
  rewrite Hpart in Hk. discriminate.
Qed.

(** The dot notation of [ConfigLoader.get]. A key names the path made
    of its dot-separated parts, and every non-empty path of dot-free
    parts is named by exactly one key, its parts joined by dots: [get]
    on that key walks down that path. The walk returns the value it
    arrives at, [None] included, and the default as soon as a part is
    missing or the value at hand is not a dictionary; so in a mapping
    whose keys all contain a dot nothing is ever found. *)
Theorem get_dot_notation (self : ConfigLoader.t) (dflt : value) :
  (forall key,
      join "." (ConfigLoader.split_dot key) = key
      /\ ConfigLoader.split_dot key <> []
      /\ forallb dot_free (ConfigLoader.split_dot key) = true)
  /\ (forall parts,
         parts <> [] -> forallb dot_free parts = true ->
         ConfigLoader.get self (join "." parts) dflt
         = ConfigLoader.walk parts (ConfigLoader.config self) dflt)
  /\ (forall key d,
         ConfigLoader.config self = VDict d ->
         forallb (fun kv : string * value => negb (dot_free kv.1)) d = true ->
         ConfigLoader.get self key dflt = dflt).
Proof.
  split; [|split].
  - intros key. auto using join_split_dot, split_dot_nonempty, split_dot_parts.
  - intros parts Hne Hfree. unfold ConfigLoader.get.
    rewrite (split_dot_join parts Hne Hfree). reflexivity.
  - intros key d Hcfg Hdots. unfold ConfigLoader.get. rewrite Hcfg.
    pose proof (split_dot_parts key) as Hparts.
    pose proof (split_dot_nonempty key) as Hne.
    destruct (ConfigLoader.split_dot key) as [|part parts]; [congruence|].
    simpl in Hparts. apply andb_prop in Hparts. destruct Hparts as [Hpart _].
    simpl. rewrite (dict_lookup_dotted d part Hdots Hpart). reflexivity.
Qed.

(** The section getters and [get] read the same top-level entry when
    the configuration file holds a mapping. When it holds anything
    else (an empty file gives [None]) they differ: [get] returns the
    default, the section getters raise [AttributeError]. *)
Theorem section_getters_and_get (self : ConfigLoader.t) :
  (forall d, ConfigLoader.config self = VDict d ->
     ConfigLoader.get_llm_config self = Ok (ConfigLoader.get self "llm" (VDict []))
     /\ ConfigLoader.get_embeddings_config self
        = Ok (ConfigLoader.get self "embeddings" (VDict []))
     /\ ConfigLoader.get_vector_db_config self
        = Ok (ConfigLoader.get self "vector_db" (VDict []))
     /\ ConfigLoader.get_text_splitter_config self
        = Ok (ConfigLoader.get self "text_splitter" (VDict []))
     /\ ConfigLoader.get_retrieval_config self
        = Ok (ConfigLoader.get self "retrieval" (VDict [])))
  /\ ((forall d, ConfigLoader.config self <> VDict d) ->
      (forall key dflt, ConfigLoader.get self key dflt = dflt)
      /\ Forall (fun r : result value =>
                   exists msg, r = Raise (Exn AttributeError msg))
           [ConfigLoader.get_llm_config self; ConfigLoader.get_embeddings_config self;
            ConfigLoader.get_vector_db_config self;
            ConfigLoader.get_text_splitter_config self;
            ConfigLoader.get_retrieval_config self]).
Proof.
  split.
  - intros d Hcfg.
    unfold ConfigLoader.get_llm_config, ConfigLoader.get_embeddings_config,
      ConfigLoader.get_vector_db_config, ConfigLoader.get_text_splitter_config,
      ConfigLoader.get_retrieval_config, ConfigLoader.get, cfg_get, dict_get_default.
    rewrite Hcfg. simpl.
    repeat split;
      match goal with
      | |- context [dict_lookup d ?k] => destruct (dict_lookup d k); reflexivity
      end.
  - intros Hnot. split.
    + intros key dflt. unfold ConfigLoader.get.
      pose proof (split_dot_nonempty key) as Hne.
      destruct (ConfigLoader.split_dot key) as [|part parts]; [congruence|].
      simpl. destruct (ConfigLoader.config self) as [| | | | | |d]; try reflexivity.
      destruct (Hnot d eq_refl).
    + unfold ConfigLoader.get_llm_config, ConfigLoader.get_embeddings_config,
        ConfigLoader.get_vector_db_config, ConfigLoader.get_text_splitter_config,
        ConfigLoader.get_retrieval_config, cfg_get.
      destruct (ConfigLoader.config self) as [| | | | | |d];
        try (repeat constructor; eexists; reflexivity).
      destruct (Hnot d eq_refl).
Qed.


(** When loading fails, ingestion stops there: [ingest_document] and
    [ingest_directory] raise the loader's exception unchanged, and
    nothing was split, embedded or sent to the vector database; the
    world differs by log records only. *)
Theorem ingestion_load_failure (self : RAGPipeline.t) (p : string) (w : world) (e : exn) :
  ((load_document (w_rt w) p).1 = Raise e ->
   (RAGPipeline.ingest_document self p w).1 = Raise e
   /\ only_calls (fun _ => false) w (RAGPipeline.ingest_document self p w).2
   /\ w_calls (RAGPipeline.ingest_document self p w).2 = w_calls w)
  /\ ((load_directory (w_rt w) p).1 = Raise e ->
      (RAGPipeline.ingest_directory self p w).1 = Raise e
      /\ only_calls (fun _ => false) w (RAGPipeline.ingest_directory self p w).2
      /\ w_calls (RAGPipeline.ingest_directory self p w).2 = w_calls w).
Proof.
  split.
  - unfold RAGPipeline.ingest_document, log, run_loader. msimpl.
    destruct (load_document (w_rt w) p) as [[doc|e'] l]; simpl; [discriminate|].
    intros [= ->]. repeat split; simpl; eauto.
    + rewrite <- app_assoc. eauto.
    + exists []. rewrite app_nil_r. auto.
  - unfold RAGPipeline.ingest_directory, log, run_loader. msimpl.
    destruct (load_directory (w_rt w) p) as [[doc|e'] l]; simpl; [discriminate|].
    intros [= ->]. repeat split; simpl; eauto.
    + rewrite <- app_assoc. eauto.
    + exists []. rewrite app_nil_r. auto.
Qed.

